(** * SentinelGate policy decision clients: a shallow embedding

    Two Python classes talk to the Policy Decision API:

    - [Sdk]      embeds [SentinelGateClient] of
                 [sdks/python/sentinelgate/client.py];
    - [Runtime]  embeds [_SentinelGateClient] of
                 [internal/domain/runtime/python/sitecustomize.py].

    Both are stateful (an LRU cache, and for the runtime client an audit
    buffer), talk to the network, read the clock, sleep and raise.  The
    embedding threads the mutable attributes of [self] and a log of the
    effects performed through a small state-and-exception monad.  The
    network and the clock are oracles indexed by the number of calls made so
    far, the way the unit tests script [urlopen] with
    [mock_urlopen.side_effect = [...]] and read [mock_sleep.call_count].

    Conventions: a decoded JSON document is a [value]; JSON numbers are
    integers; clock readings are integers counting ticks of the clock, the
    TTL being expressed in the same unit; all logs are newest first. *)

From Stdlib Require Import String Ascii ZArith List Bool Lia.
From Stdlib Require Import Permutation Sorted OrderedTypeEx DecimalString.
Import ListNotations.
Local Open Scope Z_scope.
Local Open Scope string_scope.

Set Implicit Arguments.

(* ------------------------------------------------------------------ *)
(** ** Python values *)

Module Py.

(** What [json.loads] can return, and what the clients build. *)
#[warnings="-register-all"]
Inductive value : Type :=
| VNone
| VBool (b : bool)
| VInt (n : Z)
| VStr (s : string)
| VList (xs : list value)
| VDict (kvs : list (string * value)).

(** A [dict] in insertion order. *)
Definition dict := list (string * value).

(** [bool(v)]: the test made by [if v:]. *)
Definition truthy (v : value) : bool :=
  match v with
  | VNone => false
  | VBool b => b
  | VInt n => negb (n =? 0)%Z
  | VStr s => negb (s =? "")%string
  | VList xs => match xs with [] => false | _ => true end
  | VDict kvs => match kvs with [] => false | _ => true end
  end.

(** [v == "literal"]: only a [str] equals a [str]. *)
Definition eq_str (v : value) (lit : string) : bool :=
  match v with
  | VStr s => (s =? lit)%string
  | _ => false
  end.

(** [d.get(k, default)] on a dict. *)
Fixpoint dict_get (d : dict) (k : string) (default : value) : value :=
  match d with
  | [] => default
  | (k', v) :: d' => if (k' =? k)%string then v else dict_get d' k default
  end.

(** [k in d]. *)
Definition dict_has (d : dict) (k : string) : bool :=
  existsb (fun kv => (fst kv =? k)%string) d.

(** The keys of a dict; a Python dict never repeats one. *)
Definition keys (d : dict) : list string := map fst d.

(** [x or {}] for an optional dict argument. *)
Definition or_empty (arguments : option dict) : dict :=
  match arguments with
  | Some (kv :: d) => kv :: d
  | _ => []
  end.

(** [if arguments:] for an optional dict argument. *)
Definition nonempty (arguments : option dict) : bool :=
  match arguments with
  | Some (_ :: _) => true
  | _ => false
  end.

(** [if s:] for an optional string argument. *)
Definition nonempty_str (s : option string) : bool :=
  match s with
  | Some t => negb (t =? "")%string
  | None => false
  end.

(** [str(n)] for an [int]. *)
Definition str_of_int (n : Z) : string :=
  NilZero.string_of_int (Z.to_int n).

(** *** [sorted(d.items())]

    Items are [(key, value)] tuples.  Tuple comparison looks at the values
    only when the keys are equal, which cannot happen between two items
    of one dict, so the order is the order of the keys: [str.__lt__],
    lexicographic by code point (equivalently by UTF-8 byte).  The sort
    is a stable insertion sort that, like [list.sort], only asks [<]. *)

Definition item_lt (a b : string * value) : bool :=
  String.ltb (fst a) (fst b).

Fixpoint insert (x : string * value) (l : dict) : dict :=
  match l with
  | [] => [x]
  | y :: l' => if item_lt y x then y :: insert x l' else x :: y :: l'
  end.

Definition sorted (items : dict) : dict :=
  fold_right insert [] items.

End Py.
Import Py.

(* ------------------------------------------------------------------ *)
(** ** Effects: exceptions, the world, the monad *)

(** The exceptions that can travel through the clients. *)
Inductive exn : Type :=
| TransportError (text : string)
  (* whatever [urlopen], [read], [decode] or [json.loads] raises *)
| AttributeError
  (* [.get] on a decoded document that is not a dict *)
| KeyError
  (* [popitem] on an empty [OrderedDict] *)
| PermissionError (message : string)
| PolicyDeniedError (message : string)
  (rule_id rule_name reason help_url help_text : value)
| ApprovalTimeoutError (message : string) (request_id : value)
| ServerUnreachableError (message : string).

Inductive outcome (A : Type) : Type :=
| Ret (a : A)
| Raise (e : exn).
Arguments Raise {A} e.

(** An HTTP request handed to [urlopen]. *)
Inductive request : Type :=
| POST (url : string) (headers : list (string * string)) (data : value)
| GET (url : string) (headers : list (string * string)).

Inductive reply : Type :=
| Failed (text : string)    (* the [try] block raised; [text] is [str(exc)] *)
| Body (v : value).         (* the decoded JSON body *)

(** The effects performed so far. *)
Record World : Type := mkWorld {
  sent : list request;      (* calls of [urlopen], newest first *)
  clock_reads : nat;        (* calls of [time.time] *)
  slept : list Z;           (* calls of [time.sleep], newest first *)
  warned : list string      (* calls of [warnings.warn], newest first *)
}.

Definition fresh_world : World := mkWorld [] 0 [] [].

Definition log_request (req : request) (w : World) : World :=
  mkWorld (req :: sent w) (clock_reads w) (slept w) (warned w).

Definition tick (w : World) : World :=
  mkWorld (sent w) (S (clock_reads w)) (slept w) (warned w).

Definition log_sleep (secs : Z) (w : World) : World :=
  mkWorld (sent w) (clock_reads w) (secs :: slept w) (warned w).

Definition log_warning (msg : string) (w : World) : World :=
  mkWorld (sent w) (clock_reads w) (slept w) (msg :: warned w).

(** What the host provides: the scripted network and clock, the process
    environment and the Python builtins the clients call on values whose
    textual form is not fixed by the repository. *)
Record Env : Type := mkEnv {
  urlopen : nat -> request -> reply;
    (* reply to the [n]-th call (from 0) of [urlopen] *)
  time_time : nat -> Z;
    (* result of the [n]-th call (from 0) of [time.time] *)
  environ : string -> option string;
    (* [os.environ] *)
  py_str : value -> string;
    (* [str(v)], as used by [str.format] *)
  py_repr : dict -> string;
    (* [repr] of a list of [(key, value)] tuples *)
  split_roles : string -> list string
    (* [[r.strip() for r in s.split(",") if r.strip()]] *)
}.

(** [os.environ.get(k, default)]. *)
Definition environ_get (env : Env) (k default : string) : string :=
  match environ env k with
  | Some v => v
  | None => default
  end.

Section Monad.

Variable C : Type.   (* the mutable attributes of [self] *)

Record st : Type := St { self : C; world : World }.

Definition M (A : Type) : Type := st -> outcome A * st.

Definition ret {A} (a : A) : M A := fun s => (Ret a, s).

Definition raise {A} (e : exn) : M A := fun s => (Raise e, s).

Definition bind {A B} (m : M A) (k : A -> M B) : M B :=
  fun s =>
    match m s with
    | (Ret a, s') => k a s'
    | (Raise e, s') => (Raise e, s')
    end.

(** [try: body / except Exception as e: handler(e)], followed by the
    statements after the [try] statement: an exception raised by [body] goes
    to [handler]; one raised by [handler] or by [next] propagates. *)
Definition try_except {A B} (body : M A) (handler : exn -> M B)
           (next : A -> M B) : M B :=
  fun s =>
    match body s with
    | (Ret a, s') => next a s'
    | (Raise e, s') => handler e s'
    end.

Definition get_self : M C := fun s => (Ret (self s), s).

Definition set_self (c : C) : M unit :=
  fun s => (Ret tt, St c (world s)).

Variable env : Env.

(** [urlopen(req)] then [json.loads(resp.read().decode())]. *)
Definition do_urlopen (req : request) : M value :=
  fun s =>
    let s' := St (self s) (log_request req (world s)) in
    match urlopen env (length (sent (world s))) req with
    | Failed text => (Raise (TransportError text), s')
    | Body v => (Ret v, s')
    end.

(** [time.time()]. *)
Definition do_time : M Z :=
  fun s =>
    (Ret (time_time env (clock_reads (world s))), St (self s) (tick (world s))).

(** [time.sleep(secs)]. *)
Definition do_sleep (secs : Z) : M unit :=
  fun s => (Ret tt, St (self s) (log_sleep secs (world s))).

(** [warnings.warn(msg, RuntimeWarning)] under the default filters. *)
Definition do_warn (msg : string) : M unit :=
  fun s => (Ret tt, St (self s) (log_warning msg (world s))).

(** [v.get(k, default)] on a decoded document. *)
Definition py_get (v : value) (k : string) (default : value) : M value :=
  match v with
  | VDict d => ret (dict_get d k default)
  | _ => raise AttributeError
  end.

End Monad.

Arguments ret {C A} a.
Arguments raise {C A} e.
Arguments bind {C A B} m k.
Arguments try_except {C A B} body handler next.
Arguments get_self {C}.
Arguments set_self {C} c.
Arguments do_urlopen {C} env req.
Arguments do_time {C} env.
Arguments do_sleep {C} secs.
Arguments do_warn {C} msg.
Arguments py_get {C} v k default.

Notation "x <- m ;; k" := (bind m (fun x => k))
(at level 61, m at next level, right associativity).
Notation "m ;;; k" := (bind m (fun _ => k))
(at level 61, right associativity).

(* ------------------------------------------------------------------ *)
(** ** [collections.OrderedDict] keyed by cache keys *)

Module OD.

(** [(action_type, action_name, args_repr)]. *)
Definition key : Type := string * string * string.

Definition key_eqb (a b : key) : bool :=
  match a, b with
  | (a1, a2, a3), (b1, b2, b3) =>
      (a1 =? b1)%string && (a2 =? b2)%string && (a3 =? b3)%string
  end.

(** Oldest entry first. *)
Definition t (V : Type) : Type := list (key * V).

Section Ops.
Variable V : Type.

(** [od[k]] when [k in od]. *)
Fixpoint get (od : t V) (k : key) : option V :=
  match od with
  | [] => None
  | (k', v) :: od' => if key_eqb k' k then Some v else get od' k
  end.

(** [del od[k]]: afterwards [k] is not in [od]. *)
Definition del (od : t V) (k : key) : t V :=
  filter (fun kv => negb (key_eqb (fst kv) k)) od.

(** [od[k] = v]: an existing key keeps its place, a new one goes last. *)
Fixpoint set (od : t V) (k : key) (v : V) : t V :=
  match od with
  | [] => [(k, v)]
  | (k', v') :: od' =>
      if key_eqb k' k then (k', v) :: od' else (k', v') :: set od' k v
  end.

(** [od.move_to_end(k)] for a key that is present. *)
Definition move_to_end (od : t V) (k : key) : t V :=
  match get od k with
  | Some v => (del od k ++ [(k, v)])%list
  | None => od
  end.

(** [while len(od) > max_size: od.popitem(last=False)]; [popitem] on an
    empty dict raises [KeyError]. *)
Fixpoint evict (max_size : Z) (od : t V) : outcome (t V) :=
  if (Z.of_nat (length od) >? max_size)%Z then
    match od with
    | [] => Raise KeyError
    | _ :: od' => evict max_size od'
    end
  else Ret od.

End Ops.

End OD.

(* ------------------------------------------------------------------ *)
(** ** The runtime client: [_SentinelGateClient] of [sitecustomize.py] *)

Module Runtime.

(** The attributes set once by [__init__]. *)
Record config : Type := mkConfig {
  _server_addr : string;
  _api_key : string;
  _agent_id : string;
  _cache_ttl : Z;
  _framework : string;
  _fail_mode : string
}.

(** [self._cache_max = 1000]. *)
Definition _cache_max : Z := 1000.

(** An event of [self._audit_buffer]. *)
Record audit_event : Type := mkEvent {
  ev_action_type : string;
  ev_action_name : string;
  ev_arguments : dict;
  ev_decision : string;
  ev_reason : string;
  ev_timestamp : Z;
  ev_agent_id : string
}.

(** The attributes that change: [self._cache], an [OrderedDict] from cache
    key to [(decision_dict, timestamp)], and [self._audit_buffer], oldest
    event first. *)
Record client : Type := mkClient {
  _cache : OD.t (value * Z);
  _audit_buffer : list audit_event
}.

Definition fresh_client : client := mkClient [] [].

Definition max_polls : nat := 30.
Definition poll_interval : Z := 2.

Section WithEnv.

Variable env : Env.
Variable cfg : config.

Definition _cache_key (action_type action_name : string)
           (arguments : option dict) : OD.key :=
  let args_repr :=
    match arguments with
    | Some (kv :: d) => py_repr env (sorted (kv :: d))
    | _ => ""
    end in
  (action_type, action_name, args_repr).

Definition set_cache (c : OD.t (value * Z)) : M client unit :=
  self <- get_self ;;
  set_self (mkClient c (_audit_buffer self)).

(** The block under [with self._cache_lock:] at the top of [evaluate]:
    [Some d] is the early [return entry[0]]. *)
Definition cache_lookup (cache_key : OD.key) : M client (option value) :=
  self <- get_self ;;
  match OD.get (_cache self) cache_key with
  | Some entry =>
      now <- do_time env ;;
      if (now - snd entry <? _cache_ttl cfg)%Z then
        set_cache (OD.move_to_end (_cache self) cache_key) ;;;
        ret (Some (fst entry))
      else
        set_cache (OD.del (_cache self) cache_key) ;;;
        ret None
  | None => ret None
  end.

(** The block under [if decision == "allow":]. *)
Definition cache_store (cache_key : OD.key) (resp_data : value)
  : M client unit :=
  now <- do_time env ;;
  self <- get_self ;;
  match OD.evict _cache_max (OD.set (_cache self) cache_key (resp_data, now)) with
  | Ret c => set_cache c
  | Raise e => set_cache [] ;;; raise e
  end.

Definition _buffer_audit_event (action_type action_name : string)
           (arguments : option dict) (decision reason : string)
  : M client unit :=
  now <- do_time env ;;
  self <- get_self ;;
  let event := mkEvent action_type action_name (or_empty arguments)
                       decision reason now (_agent_id cfg) in
  set_self (mkClient (_cache self) (_audit_buffer self ++ [event])%list).

Definition auth_headers : list (string * string) :=
  [("Authorization", "Bearer " ++ _api_key cfg)].

Definition status_url (request_id : value) : string :=
  _server_addr cfg ++ "/admin/api/v1/policy/evaluate/"
    ++ py_str env request_id ++ "/status".

(** The body of the [try] inside the polling loop: [Some d] is a
    [return d], [None] falls out of the [if] chain. *)
Definition poll_once (request_id original_response : value)
  : M client (option value) :=
  status_data <- do_urlopen env (GET (status_url request_id) auth_headers) ;;
  status <- py_get status_data "status" (VStr "") ;;
  if eq_str status "approved" || eq_str status "allow" then
    ret (Some (VDict [("decision", VStr "allow");
                      ("reason", VStr "approved");
                      ("request_id", request_id)]))
  else if eq_str status "denied" || eq_str status "deny" then
    reason <- py_get status_data "reason" (VStr "denied by reviewer") ;;
    help_text <- py_get original_response "help_text" (VStr "") ;;
    ret (Some (VDict [("decision", VStr "deny");
                      ("reason", reason);
                      ("request_id", request_id);
                      ("help_text", help_text)]))
  else ret None.

(** [for _ in range(n):] with its [sleep], [try] and [except Exception:
    continue]; [None] means the loop ran to its end. *)
Fixpoint poll_loop (n : nat) (request_id original_response : value)
  : M client (option value) :=
  match n with
  | O => ret None
  | S n' =>
      do_sleep poll_interval ;;;
      try_except (poll_once request_id original_response)
        (fun _ => poll_loop n' request_id original_response)
        (fun r =>
           match r with
           | Some d => ret (Some d)
           | None => poll_loop n' request_id original_response
           end)
  end.

Definition timeout_decision (request_id : value) : value :=
  VDict [("decision", VStr "deny");
         ("reason", VStr ("approval timeout after "
                            ++ str_of_int (Z.of_nat max_polls * poll_interval)
                            ++ "s"));
         ("request_id", request_id)].

Definition _poll_approval (request_id original_response : value)
  : M client value :=
  r <- poll_loop max_polls request_id original_response ;;
  match r with
  | Some d => ret d
  | None => ret (timeout_decision request_id)
  end.

Definition request_body (action_type action_name : string)
           (arguments destination : option dict) : value :=
  VDict ([("action_type", VStr action_type);
          ("action_name", VStr action_name);
          ("protocol", VStr "runtime");
          ("framework", VStr (_framework cfg));
          ("gateway", VStr "runtime");
          ("arguments", VDict (or_empty arguments));
          ("identity_name", VStr ("runtime-" ++ _agent_id cfg));
          ("identity_roles", VList [VStr "agent"])]
         ++ (if nonempty destination
             then [("destination", VDict (or_empty destination))]
             else []))%list.

Definition evaluate_request (action_type action_name : string)
           (arguments destination : option dict) : request :=
  POST (_server_addr cfg ++ "/admin/api/v1/policy/evaluate")
       [("Content-Type", "application/json");
        ("Authorization", "Bearer " ++ _api_key cfg)]
       (request_body action_type action_name arguments destination).

(** The statements of [evaluate] after the [try] statement. *)
Definition on_response (cache_key : OD.key) (resp_data : value)
  : M client value :=
  decision <- py_get resp_data "decision" (VStr "allow") ;;
  if eq_str decision "approval_required" then
    request_id <- py_get resp_data "request_id" (VStr "") ;;
    if truthy request_id then _poll_approval request_id resp_data
    else ret resp_data
  else
    (if eq_str decision "allow" then cache_store cache_key resp_data
     else ret tt) ;;;
    ret resp_data.

(** The [except Exception as exc:] branch of [evaluate]. *)
Definition on_failure (action_type action_name : string)
           (arguments : option dict) (exc : exn) : M client value :=
  let text := match exc with TransportError t => t | _ => "" end in
  if (_fail_mode cfg =? "closed")%string then
    _buffer_audit_event action_type action_name arguments "deny" "fail-closed" ;;;
    raise (PermissionError
             "SentinelGate: Action denied - server unreachable (fail-closed mode)")
  else
    do_warn ("SentinelGate: Policy evaluation failed (" ++ text
               ++ "), allowing action (fail-open)") ;;;
    _buffer_audit_event action_type action_name arguments "allow" "fail-open" ;;;
    ret (VDict [("decision", VStr "allow"); ("reason", VStr "fail-open")]).

Definition evaluate (action_type action_name : string)
           (arguments destination : option dict) : M client value :=
  let cache_key := _cache_key action_type action_name arguments in
  hit <- cache_lookup cache_key ;;
  match hit with
  | Some d => ret d
  | None =>
      try_except
        (do_urlopen env
           (evaluate_request action_type action_name arguments destination))
        (on_failure action_type action_name arguments)
        (on_response cache_key)
  end.

(** An event as the dict that [_buffer_audit_event] builds. *)
Definition event_dict (ev : audit_event) : value :=
  VDict [("action_type", VStr (ev_action_type ev));
         ("action_name", VStr (ev_action_name ev));
         ("arguments", VDict (ev_arguments ev));
         ("decision", VStr (ev_decision ev));
         ("reason", VStr (ev_reason ev));
         ("timestamp", VInt (ev_timestamp ev));
         ("agent_id", VStr (ev_agent_id ev))].

Definition flush_request (events : list audit_event) : request :=
  POST (_server_addr cfg ++ "/admin/api/v1/audit/events")
       [("Content-Type", "application/json");
        ("Authorization", "Bearer " ++ _api_key cfg)]
       (VDict [("events", VList (map event_dict events))]).

(** [_audit_buffer_flush]: nothing to do on an empty buffer; otherwise the
    buffer is emptied into [events], which are posted in one request and put
    back in front of the buffer when the [try] block raises.  The response
    is not read: any reply is a success. *)
Definition _audit_buffer_flush : M client unit :=
  self <- get_self ;;
  match _audit_buffer self with
  | [] => ret tt
  | ev :: evs =>
      let events := ev :: evs in
      set_self (mkClient (_cache self) []) ;;;
      try_except
        (do_urlopen env (flush_request events))
        (fun _ =>
           self' <- get_self ;;
           set_self (mkClient (_cache self')
                              (events ++ _audit_buffer self')%list))
        (fun _ => ret tt)
  end.

(** How the interception adapters read a decision
    ([_check_subprocess_decision], [_sg_os_system]): the action is blocked
    exactly when [result.get("decision", "allow") == "deny"]. *)
Definition adapter_blocks (result : dict) : bool :=
  eq_str (dict_get result "decision" (VStr "allow")) "deny".

End WithEnv.

End Runtime.

(* ------------------------------------------------------------------ *)
(** ** The SDK client: [SentinelGateClient] of [sentinelgate/client.py] *)

Module Sdk.

(** The attributes set once by [__init__]. *)
Record config : Type := mkConfig {
  _server_addr : string;
  _api_key : string;
  _default_protocol : string;
  _fail_mode : string;
  _cache_ttl : Z;
  _cache_max_size : Z
}.

(** The only attribute that changes is [self._cache]: this class keeps no
    audit buffer. *)
Record client : Type := mkClient {
  _cache : OD.t (value * Z)
}.

Definition fresh_client : client := mkClient [].

Definition max_polls : nat := 30.
Definition poll_interval : Z := 2.

Section WithEnv.

Variable env : Env.
Variable cfg : config.

Definition _cache_key (action_type action_name : string)
           (arguments : option dict) : OD.key :=
  let args_repr :=
    match arguments with
    | Some (kv :: d) => py_repr env (sorted (kv :: d))
    | _ => ""
    end in
  (action_type, action_name, args_repr).

Definition set_cache (c : OD.t (value * Z)) : M client unit :=
  set_self (mkClient c).

(** The block under [with self._cache_lock:] at the top of [evaluate]:
    [Some d] is the early [return entry[0]]. *)
Definition cache_lookup (cache_key : OD.key) : M client (option value) :=
  self <- get_self ;;
  match OD.get (_cache self) cache_key with
  | Some entry =>
      now <- do_time env ;;
      if (now - snd entry <? _cache_ttl cfg)%Z then
        set_cache (OD.move_to_end (_cache self) cache_key) ;;;
        ret (Some (fst entry))
      else
        set_cache (OD.del (_cache self) cache_key) ;;;
        ret None
  | None => ret None
  end.

(** The block under [if decision == "allow":]. *)
Definition cache_store (cache_key : OD.key) (resp_data : value)
  : M client unit :=
  now <- do_time env ;;
  self <- get_self ;;
  match OD.evict (_cache_max_size cfg)
                 (OD.set (_cache self) cache_key (resp_data, now)) with
  | Ret c => set_cache c
  | Raise e => set_cache [] ;;; raise e
  end.

Definition status_url (request_id : value) : string :=
  _server_addr cfg ++ "/admin/api/v1/policy/evaluate/"
    ++ py_str env request_id ++ "/status".

Definition auth_headers : list (string * string) :=
  [("Authorization", "Bearer " ++ _api_key cfg)].

(** The body of the [try] inside the polling loop: [Some d] is a
    [return d], [None] falls out of the [if] chain. *)
Definition poll_once (request_id original_response : value)
           (raise_on_deny : bool) : M client (option value) :=
  status_data <- do_urlopen env (GET (status_url request_id) auth_headers) ;;
  status <- py_get status_data "status" (VStr "") ;;
  if eq_str status "approved" || eq_str status "allow" then
    rule_id <- py_get original_response "rule_id" (VStr "") ;;
    rule_name <- py_get original_response "rule_name" (VStr "") ;;
    latency_ms <- py_get original_response "latency_ms" (VInt 0) ;;
    ret (Some (VDict [("decision", VStr "allow");
                      ("reason", VStr "approved");
                      ("request_id", request_id);
                      ("rule_id", rule_id);
                      ("rule_name", rule_name);
                      ("help_url", VStr "");
                      ("help_text", VStr "");
                      ("latency_ms", latency_ms)]))
  else if eq_str status "denied" || eq_str status "deny" then
    reason <- py_get status_data "reason" (VStr "denied by reviewer") ;;
    rule_id <- py_get original_response "rule_id" (VStr "") ;;
    rule_name <- py_get original_response "rule_name" (VStr "") ;;
    help_url <- py_get original_response "help_url" (VStr "") ;;
    help_text <- py_get original_response "help_text" (VStr "") ;;
    latency_ms <- py_get original_response "latency_ms" (VInt 0) ;;
    if raise_on_deny then
      raise (PolicyDeniedError ("Policy denied: " ++ py_str env reason)
                               rule_id rule_name reason help_url help_text)
    else
      ret (Some (VDict [("decision", VStr "deny");
                        ("reason", reason);
                        ("request_id", request_id);
                        ("rule_id", rule_id);
                        ("rule_name", rule_name);
                        ("help_url", help_url);
                        ("help_text", help_text);
                        ("latency_ms", latency_ms)]))
  else ret None.

(** [for _ in range(n):] with its [sleep], [try], [except
    (PolicyDeniedError,): raise] and [except Exception: continue]; [None]
    means the loop ran to its end. *)
Fixpoint poll_loop (n : nat) (request_id original_response : value)
         (raise_on_deny : bool) : M client (option value) :=
  match n with
  | O => ret None
  | S n' =>
      do_sleep poll_interval ;;;
      try_except (poll_once request_id original_response raise_on_deny)
        (fun e =>
           match e with
           | PolicyDeniedError _ _ _ _ _ _ => raise e
           | _ => poll_loop n' request_id original_response raise_on_deny
           end)
        (fun r =>
           match r with
           | Some d => ret (Some d)
           | None => poll_loop n' request_id original_response raise_on_deny
           end)
  end.

Definition timeout_error (request_id : value) : exn :=
  ApprovalTimeoutError
    ("Approval timed out after "
       ++ str_of_int (Z.of_nat max_polls * poll_interval) ++ "s")
    request_id.

Definition _poll_approval (request_id original_response : value)
           (raise_on_deny : bool) : M client value :=
  r <- poll_loop max_polls request_id original_response raise_on_deny ;;
  match r with
  | Some d => ret d
  | None => raise (timeout_error request_id)
  end.

(** The identity defaults resolved at the top of [evaluate]. *)
Definition resolve_identity_name (identity_name : option string) : string :=
  match identity_name with
  | Some n => n
  | None => environ_get env "SENTINELGATE_IDENTITY_NAME" "sdk-client"
  end.

Definition resolve_identity_roles (identity_roles : option (list string))
  : list string :=
  match identity_roles with
  | Some r => r
  | None =>
      let roles_env := environ_get env "SENTINELGATE_IDENTITY_ROLES" "" in
      if negb (roles_env =? "")%string then split_roles env roles_env
      else ["agent"]
  end.

(** [protocol or self._default_protocol]. *)
Definition resolve_protocol (protocol : option string) : string :=
  match protocol with
  | Some p => if (p =? "")%string then _default_protocol cfg else p
  | None => _default_protocol cfg
  end.

Definition request_body (action_type action_name : string)
           (arguments destination : option dict)
           (identity_name : option string)
           (identity_roles : option (list string))
           (protocol framework : option string) : value :=
  VDict ([("action_type", VStr action_type);
          ("action_name", VStr action_name);
          ("protocol", VStr (resolve_protocol protocol));
          ("identity_name", VStr (resolve_identity_name identity_name));
          ("identity_roles",
           VList (map VStr (resolve_identity_roles identity_roles)))]
         ++ (match framework with
             | Some f => if (f =? "")%string then [] else [("framework", VStr f)]
             | None => []
             end)
         ++ (if nonempty arguments
             then [("arguments", VDict (or_empty arguments))] else [])
         ++ (if nonempty destination
             then [("destination", VDict (or_empty destination))] else []))%list.

Definition evaluate_request (action_type action_name : string)
           (arguments destination : option dict)
           (identity_name : option string)
           (identity_roles : option (list string))
           (protocol framework : option string) : request :=
  POST (_server_addr cfg ++ "/admin/api/v1/policy/evaluate")
       [("Content-Type", "application/json");
        ("Authorization", "Bearer " ++ _api_key cfg)]
       (request_body action_type action_name arguments destination
                     identity_name identity_roles protocol framework).

(** The [except Exception as exc:] branch of [evaluate]. *)
Definition on_failure (exc : exn) : M client value :=
  let text := match exc with TransportError t => t | _ => "" end in
  if (_fail_mode cfg =? "closed")%string then
    raise (ServerUnreachableError ("SentinelGate server unreachable: " ++ text))
  else
    do_warn ("SentinelGate: Policy evaluation failed (" ++ text
               ++ "), allowing action (fail-open)") ;;;
    ret (VDict [("decision", VStr "allow");
                ("reason", VStr "fail-open");
                ("rule_id", VStr "");
                ("rule_name", VStr "");
                ("help_url", VStr "");
                ("help_text", VStr "");
                ("request_id", VStr "");
                ("latency_ms", VInt 0)]).

(** The statements of [evaluate] after the [try] statement. *)
Definition on_response (cache_key : OD.key) (raise_on_deny : bool)
           (resp_data : value) : M client value :=
  decision <- py_get resp_data "decision" (VStr "allow") ;;
  if eq_str decision "approval_required" then
    request_id <- py_get resp_data "request_id" (VStr "") ;;
    if truthy request_id
    then _poll_approval request_id resp_data raise_on_deny
    else ret resp_data
  else
    (if eq_str decision "allow" then cache_store cache_key resp_data
     else ret tt) ;;;
    if eq_str decision "deny" && raise_on_deny then
      reason <- py_get resp_data "reason" (VStr "") ;;
      rule_id <- py_get resp_data "rule_id" (VStr "") ;;
      rule_name <- py_get resp_data "rule_name" (VStr "") ;;
      help_url <- py_get resp_data "help_url" (VStr "") ;;
      help_text <- py_get resp_data "help_text" (VStr "") ;;
      raise (PolicyDeniedError ("Policy denied: " ++ py_str env reason)
                               rule_id rule_name reason help_url help_text)
    else ret resp_data.

Definition evaluate (action_type action_name : string)
           (arguments destination : option dict)
           (identity_name : option string)
           (identity_roles : option (list string))
           (protocol framework : option string)
           (raise_on_deny : bool) : M client value :=
  let cache_key := _cache_key action_type action_name arguments in
  hit <- cache_lookup cache_key ;;
  match hit with
  | Some d => ret d
  | None =>
      try_except
        (do_urlopen env
           (evaluate_request action_type action_name arguments destination
                             identity_name identity_roles protocol framework))
        on_failure
        (on_response cache_key raise_on_deny)
  end.

(** [check]: [evaluate] with [raise_on_deny=False], any exception mapped to
    [True]. *)
Definition check (action_type action_name : string)
           (arguments destination : option dict)
           (identity_name : option string)
           (identity_roles : option (list string))
           (protocol framework : option string) : M client bool :=
  try_except
    (result <- evaluate action_type action_name arguments destination
                        identity_name identity_roles protocol framework false ;;
     decision <- py_get result "decision" (VStr "allow") ;;
     ret (eq_str decision "allow"))
    (fun _ => ret true)
    (fun b => ret b).

End WithEnv.

End Sdk.

(* ------------------------------------------------------------------ *)
(** ** The interception adapters of [sitecustomize.py]

    Each adapter decides whether the intercepted call may go on and ends in
    a tail call of the original function ([_original_run], [_original_open]
    and the like, on the arguments received).  The embedding stops at that tail call: [Ret tt] means
    that the adapter reached it, an exception that the call was blocked. *)

Module Adapters.

(** [pattern in s] for two strings. *)
Fixpoint contains (pattern s : string) : bool :=
  String.prefix pattern s
  || match s with
     | EmptyString => false
     | String _ s' => contains pattern s'
     end.

(** [s.startswith(p)]. *)
Definition startswith (s p : string) : bool := String.prefix p s.

Definition _SKIP_PATH_PREFIXES : list string := ["/dev/"; "/proc/"; "/sys/"].

Definition _SKIP_PATH_CONTAINS : list string :=
  [".pyc"; "__pycache__"; "site-packages"].

Section WithClient.

Variable env : Env.
Variable cfg : Runtime.config.

(** [str.split()] with no argument, a builtin. *)
Variable py_split : string -> list string.

(** [os.path.dirname(os.path.abspath(__file__))]. *)
Variable _BOOTSTRAP_DIR : string.

(** [_extract_command(args, kwargs)]: the command name, its parts and the
    full command. *)
Definition _extract_command (args : list value) (kwargs : dict)
  : string * list string * string :=
  let cmd := match args with
             | a :: _ => a
             | [] => dict_get kwargs "args" VNone
             end in
  match cmd with
  | VNone => ("", [], "")
  | VStr s =>
      let parts := py_split s in
      (match parts with p :: _ => p | [] => s end, parts, s)
  | VList xs =>
      let cmd_list := map (py_str env) xs in
      (match cmd_list with c :: _ => c | [] => "" end,
       cmd_list, String.concat " " cmd_list)
  | other => (py_str env other, [py_str env other], py_str env other)
  end.

(** The lines that every adapter runs on the result of [evaluate]:
    [PermissionError] when the decision is ["deny"], nothing otherwise. *)
Definition raise_if_denied (result : value) : M Runtime.client unit :=
  decision <- py_get result "decision" (VStr "allow") ;;
  if eq_str decision "deny" then
    reason <- py_get result "reason" (VStr "policy denied") ;;
    help_text <- py_get result "help_text" (VStr "") ;;
    let msg := "SentinelGate: Action denied - " ++ py_str env reason in
    raise (PermissionError
             (if truthy help_text
              then msg ++ ". " ++ py_str env help_text
              else msg))
  else ret tt.

(** [_check_subprocess_decision(args, kwargs)], run by the wrappers of
    [subprocess.run], [Popen], [call], [check_call] and [check_output]. *)
Definition _check_subprocess_decision (args : list value) (kwargs : dict)
  : M Runtime.client unit :=
  let '(cmd_name, cmd_args, full_command) := _extract_command args kwargs in
  if (cmd_name =? "")%string then ret tt
  else
    result <- Runtime.evaluate env cfg "command_exec" cmd_name
                (Some [("args", VList (map VStr cmd_args));
                       ("full_command", VStr full_command)])
                None ;;
    raise_if_denied result.

(** [_sg_os_system(command)] up to its call of [os.system]. *)
Definition _sg_os_system (command : value) : M Runtime.client unit :=
  match command with
  | VStr s =>
      let parts := py_split s in
      let cmd_name := match parts with p :: _ => p | [] => s end in
      result <- Runtime.evaluate env cfg "command_exec" cmd_name
                  (Some [("args", VList (map VStr parts));
                         ("full_command", VStr s)])
                  None ;;
      raise_if_denied result
  | _ => ret tt
  end.

(** The access type [_sg_open] derives from the mode. *)
Definition access_of_mode (mode : string) : string :=
  if contains "w" mode || contains "a" mode || contains "x" mode then
    if contains "+" mode then "readwrite" else "write"
  else if contains "+" mode then "readwrite"
  else "read".

(** [_sg_open] up to its call of [open].  [file_path] and [mode] are the two
    values its first lines take from [args] and [kwargs]: [file_path] is
    [None] when no path is given, [mode] is the [str] that [open] takes,
    ["r"] when none is given. *)
Definition _sg_open (file_path : value) (mode : string)
  : M Runtime.client unit :=
  match file_path with
  | VNone => ret tt
  | _ =>
      let file_path_str := py_str env file_path in
      if existsb (startswith file_path_str) _SKIP_PATH_PREFIXES then ret tt
      else if existsb (fun pattern => contains pattern file_path_str)
                      _SKIP_PATH_CONTAINS then ret tt
      else if startswith file_path_str _BOOTSTRAP_DIR then ret tt
      else
        result <- Runtime.evaluate env cfg "file_access" "open"
                    (Some [("path", VStr file_path_str);
                           ("mode", VStr mode);
                           ("access", VStr (access_of_mode mode))])
                    None ;;
        raise_if_denied result
  end.

End WithClient.

End Adapters.

(* ------------------------------------------------------------------ *)
(** ** Vocabulary of the properties *)

(** A reply to a status poll is terminal when it decodes to a dict whose
    ["status"] is one of the four strings the pollers act on. *)
Definition terminal_status (r : reply) : bool :=
  match r with
  | Body (VDict d) =>
      let status := dict_get d "status" (VStr "") in
      eq_str status "approved" || eq_str status "allow"
      || eq_str status "denied" || eq_str status "deny"
  | _ => false
  end.

(** A reply to a status poll that says the request was approved. *)
Definition approved_status (r : reply) : bool :=
  match r with
  | Body (VDict d) =>
      let status := dict_get d "status" (VStr "") in
      eq_str status "approved" || eq_str status "allow"
  | _ => false
  end.

(** None of the [n] replies that [urlopen] gives to [req] from call number
    [first] on is terminal: each is a transport failure, a document that is
    not a dict, or a status such as ["pending"]. *)
Definition no_terminal_reply (env : Env) (first n : nat) (req : request)
  : bool :=
  forallb (fun i => negb (terminal_status (urlopen env (first + i) req)))
          (seq 0 n).

(** The world after [n] rounds of [sleep(secs)] then [urlopen(req)]. *)
Fixpoint after_polls (n : nat) (secs : Z) (req : request) (w : World) : World :=
  match n with
  | O => w
  | S n' => after_polls n' secs req (log_request req (log_sleep secs w))
  end.

(** A decision as its consumers read it: [d.get("decision", "allow")]. *)
Definition decision_of (v : value) : value :=
  match v with
  | VDict d => dict_get d "decision" (VStr "allow")
  | _ => VNone
  end.

Definition reads_as_allow (v : value) : bool := eq_str (decision_of v) "allow".

(** Every cached entry reads as an Allow decision. *)
Definition only_allow (cache : OD.t (value * Z)) : Prop :=
  Forall (fun kv => reads_as_allow (fst (snd kv)) = true) cache.

(** The audit events a client has buffered.  The runtime client keeps them
    in [self._audit_buffer]; the SDK client has no such attribute and no
    [_buffer_audit_event], so it never holds any. *)
Class Audited (C : Type) : Type :=
  audit_trail : C -> list Runtime.audit_event.

#[global] Instance runtime_audited : Audited Runtime.client :=
  Runtime._audit_buffer.

#[global] Instance sdk_audited : Audited Sdk.client :=
  fun _ => [].

(** Between [before] and [after] the client buffered exactly one audit event,
    recording the given synthetic decision and reason. *)
Definition buffered_one {C : Type} `{Audited C} (before after : C)
           (decision reason : string) : Prop :=
  exists ev,
    audit_trail after = (audit_trail before ++ [ev])%list
    /\ Runtime.ev_decision ev = decision
    /\ Runtime.ev_reason ev = reason.

(** The arguments of one call of [evaluate]; the runtime client only takes
    the first four. *)
Record call : Type := mkCall {
  c_action_type : string;
  c_action_name : string;
  c_arguments : option dict;
  c_destination : option dict;
  c_identity_name : option string;
  c_identity_roles : option (list string);
  c_protocol : option string;
  c_framework : option string;
  c_raise_on_deny : bool
}.

Definition runtime_call (env : Env) (cfg : Runtime.config) (c : call)
  : M Runtime.client value :=
  Runtime.evaluate env cfg (c_action_type c) (c_action_name c)
                   (c_arguments c) (c_destination c).

Definition sdk_call (env : Env) (cfg : Sdk.config) (c : call)
  : M Sdk.client value :=
  Sdk.evaluate env cfg (c_action_type c) (c_action_name c)
               (c_arguments c) (c_destination c)
               (c_identity_name c) (c_identity_roles c)
               (c_protocol c) (c_framework c) (c_raise_on_deny c).

(** Consecutive calls on one client, the caller catching whatever a call
    raises before making the next. *)
Fixpoint run_all {C : Type} (step : call -> M C value) (calls : list call)
         (s : st C) : list (outcome value) * st C :=
  match calls with
  | [] => ([], s)
  | c :: calls' =>
      let (r, s1) := step c s in
      let (rs, s2) := run_all step calls' s1 in
      (r :: rs, s2)
  end.

(** The transport fails at every call. *)
Definition transport_down (env : Env) : Prop :=
  forall n req, exists text, urlopen env n req = Failed text.

Definition runtime_unreachable : exn :=
  PermissionError
    "SentinelGate: Action denied - server unreachable (fail-closed mode)".

Definition is_server_unreachable (r : outcome value) : Prop :=
  exists text,
    r = Raise (ServerUnreachableError
                 ("SentinelGate server unreachable: " ++ text)).


Definition sdk_approved (request_id : value) (original_response : dict)
  : value :=
  VDict [("decision", VStr "allow");
         ("reason", VStr "approved");
         ("request_id", request_id);
         ("rule_id", dict_get original_response "rule_id" (VStr ""));
         ("rule_name", dict_get original_response "rule_name" (VStr ""));
         ("help_url", VStr "");
         ("help_text", VStr "");
         ("latency_ms", dict_get original_response "latency_ms" (VInt 0))].

(** The text of the fail-open warning. *)
Definition fail_open_warning (text : string) : string :=
  "SentinelGate: Policy evaluation failed (" ++ text
    ++ "), allowing action (fail-open)".

(** The fail-open decisions the two clients build. *)
Definition runtime_fail_open : value :=
  VDict [("decision", VStr "allow"); ("reason", VStr "fail-open")].

Definition sdk_fail_open : value :=
  VDict [("decision", VStr "allow");
         ("reason", VStr "fail-open");
         ("rule_id", VStr "");
         ("rule_name", VStr "");
         ("help_url", VStr "");
         ("help_text", VStr "");
         ("request_id", VStr "");
         ("latency_ms", VInt 0)].

(** ** Scripted hosts, in the manner of [tests/test_client.py] *)

Module Mock.

(** [mock_urlopen.side_effect = replies]; past the end the connection is
    refused. *)
Definition side_effect (replies : list reply) : nat -> request -> reply :=
  fun n _ => nth n replies (Failed "Connection refused").

(** Stand-ins for [str] and [repr], enough to run the examples: the text
    of a string, and the keys of the items. *)
Definition plain_str (v : value) : string :=
  match v with
  | VStr s => s
  | _ => "?"
  end.

Definition keys_repr (items : dict) : string :=
  String.concat "," (map fst items).

Definition env (replies : list reply) : Env :=
  mkEnv (side_effect replies) (fun n => Z.of_nat n) (fun _ => None)
        plain_str keys_repr (fun _ => []).

Definition runtime_cfg (fail_mode : string) : Runtime.config :=
  Runtime.mkConfig "http://localhost:8080" "test-key" "agent-1" 5 "" fail_mode.

Definition sdk_cfg (fail_mode : string) : Sdk.config :=
  Sdk.mkConfig "http://localhost:8080" "test-key" "sdk" fail_mode 5 1000.

Definition eval_response : dict :=
  [("decision", VStr "approval_required");
   ("rule_id", VStr "rule-approval");
   ("rule_name", VStr "needs-approval");
   ("reason", VStr "requires human approval");
   ("help_url", VStr "");
   ("help_text", VStr "");
   ("request_id", VStr "req-approval-1");
   ("latency_ms", VInt 3)].

Definition pending_response : dict :=
  [("request_id", VStr "req-approval-1");
   ("status", VStr "pending");
   ("decision", VStr "approval_required");
   ("updated_at", VStr "2026-01-01T00:00:00Z")].

Definition approved_response : dict :=
  [("request_id", VStr "req-approval-1");
   ("status", VStr "approved");
   ("decision", VStr "allow");
   ("updated_at", VStr "2026-01-01T00:00:02Z")].

Definition deny_response : dict :=
  [("decision", VStr "deny");
   ("rule_id", VStr "rule-1");
   ("rule_name", VStr "block-rm");
   ("reason", VStr "rm is blocked");
   ("help_url", VStr "/admin/policies#rule-rule-1");
   ("help_text", VStr "Contact admin");
   ("request_id", VStr "req-456");
   ("latency_ms", VInt 1)].

Definition allow_response : dict :=
  [("decision", VStr "allow");
   ("rule_id", VStr "");
   ("rule_name", VStr "");
   ("reason", VStr "");
   ("help_url", VStr "");
   ("help_text", VStr "");
   ("request_id", VStr "req-cache");
   ("latency_ms", VInt 1)].

Definition sdk_start : st Sdk.client := St Sdk.fresh_client fresh_world.
Definition runtime_start : st Runtime.client :=
  St Runtime.fresh_client fresh_world.

(** [client.evaluate(action_type, action_name)] with every default. *)
Definition sdk_evaluate (replies : list reply) (fail_mode : string)
           (action_type action_name : string) : M Sdk.client value :=
  Sdk.evaluate (env replies) (sdk_cfg fail_mode) action_type action_name
               None None None None None None true.

Definition runtime_evaluate (replies : list reply) (fail_mode : string)
           (action_type action_name : string) : M Runtime.client value :=
  Runtime.evaluate (env replies) (runtime_cfg fail_mode)
                   action_type action_name None None.

End Mock.

(* ------------------------------------------------------------------ *)
(** ** Vocabulary of the further properties *)

(** What an audit event says, its timestamp and agent left aside. *)
Definition event_summary (ev : Runtime.audit_event)
  : string * string * dict * string * string :=
  (Runtime.ev_action_type ev, Runtime.ev_action_name ev,
   Runtime.ev_arguments ev, Runtime.ev_decision ev, Runtime.ev_reason ev).

(** The event that a call made while the server is unreachable leaves in
    the audit buffer under the given fail mode. *)
Definition unreachable_summary (fail_mode : string) (c : call)
  : string * string * dict * string * string :=
  if (fail_mode =? "closed")%string
  then (c_action_type c, c_action_name c, or_empty (c_arguments c),
        "deny", "fail-closed")
  else (c_action_type c, c_action_name c, or_empty (c_arguments c),
        "allow", "fail-open").

(** A reply to a status poll that says the request was denied. *)
Definition denied_status (r : reply) : bool :=
  match r with
  | Body (VDict d) =>
      let status := dict_get d "status" (VStr "") in
      negb (eq_str status "approved" || eq_str status "allow")
      && (eq_str status "denied" || eq_str status "deny")
  | _ => false
  end.

(** The Deny decisions the two pollers build from the status payload and
    the original response. *)
Definition runtime_denied (request_id : value) (status_data original : dict)
  : value :=
  VDict [("decision", VStr "deny");
         ("reason", dict_get status_data "reason" (VStr "denied by reviewer"));
         ("request_id", request_id);
         ("help_text", dict_get original "help_text" (VStr ""))].

Definition sdk_denied (request_id : value) (status_data original : dict)
  : value :=
  VDict [("decision", VStr "deny");
         ("reason", dict_get status_data "reason" (VStr "denied by reviewer"));
         ("request_id", request_id);
         ("rule_id", dict_get original "rule_id" (VStr ""));
         ("rule_name", dict_get original "rule_name" (VStr ""));
         ("help_url", dict_get original "help_url" (VStr ""));
         ("help_text", dict_get original "help_text" (VStr ""));
         ("latency_ms", dict_get original "latency_ms" (VInt 0))].

(** The [PolicyDeniedError] built from a reason and the dict that holds the
    rule. *)
Definition policy_denied (env : Env) (reason : value) (rule : dict) : exn :=
  PolicyDeniedError ("Policy denied: " ++ py_str env reason)
                    (dict_get rule "rule_id" (VStr ""))
                    (dict_get rule "rule_name" (VStr ""))
                    reason
                    (dict_get rule "help_url" (VStr ""))
                    (dict_get rule "help_text" (VStr "")).

(** The message of the [PermissionError] an adapter raises on a Deny. *)
Definition denied_message (env : Env) (result : dict) : string :=
  let msg := "SentinelGate: Action denied - "
               ++ py_str env (dict_get result "reason" (VStr "policy denied")) in
  if truthy (dict_get result "help_text" (VStr ""))
  then msg ++ ". " ++ py_str env (dict_get result "help_text" (VStr ""))
  else msg.

(** The exceptions each [evaluate] can let through. *)
Definition runtime_may_raise (cfg : Runtime.config) (e : exn) : Prop :=
  (e = runtime_unreachable /\ Runtime._fail_mode cfg = "closed")
  \/ e = AttributeError.

Definition sdk_may_raise (cfg : Sdk.config) (raise_on_deny : bool) (e : exn)
  : Prop :=
  match e with
  | ServerUnreachableError _ => Sdk._fail_mode cfg = "closed"
  | PolicyDeniedError _ _ _ _ _ _ => raise_on_deny = true
  | ApprovalTimeoutError _ _ => True
  | AttributeError => True
  | _ => False
  end.

(** The keys of a cache. *)
Definition cache_keys (cache : OD.t (value * Z)) : list OD.key :=
  map fst cache.

(** Scripted hosts for the adapters. *)
Module MockAdapters.

(** A stand-in for [str.split()]: the maximal runs without a space. *)
Fixpoint split_spaces (word s : string) : list string :=
  match s with
  | EmptyString => if (word =? "")%string then [] else [word]
  | String c s' =>
      if (c =? " ")%char
      then (if (word =? "")%string then [] else [word]) ++ split_spaces "" s'
      else split_spaces (word ++ String c "") s'
  end%list.

Definition split (s : string) : list string := split_spaces "" s.

Definition check_subprocess (replies : list reply) (fail_mode : string)
           (command : string) : M Runtime.client unit :=
  Adapters._check_subprocess_decision (Mock.env replies)
    (Mock.runtime_cfg fail_mode) split [VStr command] [].

Definition sg_open (replies : list reply) (path mode : string)
  : M Runtime.client unit :=
  Adapters._sg_open (Mock.env replies) (Mock.runtime_cfg "open")
                    "/opt/sentinelgate/bootstrap" (VStr path) mode.

End MockAdapters.

(* ------------------------------------------------------------------ *)
(** ** Facts about the monad and the logs *)

Unset Implicit Arguments.

Ltac unfold_monad :=
  unfold bind, ret, raise, try_except, get_self, set_self,
         do_urlopen, do_time, do_sleep, do_warn, py_get in *.

Lemma sent_after_polls n secs req w :
  sent (after_polls n secs req w) = (repeat req n ++ sent w)%list.
Proof.
  revert w; induction n as [|n IH]; intros w; simpl; [reflexivity|].
  rewrite IH; simpl.
  change (req :: sent w) with ([req] ++ sent w)%list.
  rewrite app_assoc, <- repeat_cons; reflexivity.
Qed.

Lemma slept_after_polls n secs req w :
  slept (after_polls n secs req w) = (repeat secs n ++ slept w)%list.
Proof.
  revert w; induction n as [|n IH]; intros w; simpl; [reflexivity|].
  rewrite IH; simpl.
  change (secs :: slept w) with ([secs] ++ slept w)%list.
  rewrite app_assoc, <- repeat_cons; reflexivity.
Qed.

Lemma clock_after_polls n secs req w :
  clock_reads (after_polls n secs req w) = clock_reads w.
Proof. revert w; induction n as [|n IH]; intros w; simpl; [|rewrite IH]; reflexivity. Qed.

Lemma warned_after_polls n secs req w :
  warned (after_polls n secs req w) = warned w.
Proof. revert w; induction n as [|n IH]; intros w; simpl; [|rewrite IH]; reflexivity. Qed.

Lemma after_polls_succ n secs req w :
  after_polls (S n) secs req w
  = log_request req (log_sleep secs (after_polls n secs req w)).
Proof.
  revert w; induction n as [|n IH]; intros w; [reflexivity|].
  change (after_polls (S (S n)) secs req w)
    with (after_polls (S n) secs req (log_request req (log_sleep secs w))).
  rewrite IH; reflexivity.
Qed.

(** A reply that is not terminal makes one round of either poller fall
    through to the next iteration. *)
Lemma terminal_status_false_dict d :
  terminal_status (Body (VDict d)) = false ->
  (eq_str (dict_get d "status" (VStr "")) "approved"
   || eq_str (dict_get d "status" (VStr "")) "allow") = false
  /\ (eq_str (dict_get d "status" (VStr "")) "denied"
      || eq_str (dict_get d "status" (VStr "")) "deny") = false.
Proof.
  unfold terminal_status; intros H.
  repeat (apply orb_false_iff in H; destruct H as [H ?]).
  split; apply orb_false_iff; split; assumption.
Qed.

Section RuntimePoller.

Variable env : Env.
Variable cfg : Runtime.config.
Variables request_id original_response : value.

Let poll_request : request :=
  GET (Runtime.status_url env cfg request_id) (Runtime.auth_headers cfg).

(** While no reply is terminal the loop runs all its rounds: [n] sleeps and
    [n] polls, nothing else touched. *)
Lemma runtime_poll_loop_exhausts n : forall s,
  (forall i, (i < n)%nat ->
     terminal_status (urlopen env (length (sent (world s)) + i) poll_request)
     = false) ->
  Runtime.poll_loop env cfg n request_id original_response s
  = (Ret None,
     St (self s) (after_polls n Runtime.poll_interval poll_request (world s))).
Proof.
  induction n as [|n IH]; intros s H.
  - destruct s; reflexivity.
  - assert (H0 := H 0%nat ltac:(lia)). rewrite Nat.add_0_r in H0.
    simpl. unfold_monad. unfold Runtime.poll_once. unfold_monad. simpl.
    fold poll_request.
    destruct (urlopen env (length (sent (world s))) poll_request) as [text|v] eqn:E.
    + rewrite IH; [reflexivity|].
      intros i Hi. simpl. specialize (H (S i) ltac:(lia)).
      rewrite Nat.add_succ_r in H. exact H.
    + assert (IH' := IH (St (self s)
                  (log_request poll_request
                     (log_sleep Runtime.poll_interval (world s))))).
      destruct v; simpl;
        try (rewrite IH'; [reflexivity|];
             intros i Hi; simpl; specialize (H (S i) ltac:(lia));
             rewrite Nat.add_succ_r in H; exact H).
      apply terminal_status_false_dict in H0. destruct H0 as [Ha Hd].
      rewrite Ha, Hd.
      rewrite IH'; [reflexivity|].
      intros i Hi; simpl; specialize (H (S i) ltac:(lia));
        rewrite Nat.add_succ_r in H; exact H.
Qed.

End RuntimePoller.

Section RuntimePollerFrame.

Variable env : Env.
Variable cfg : Runtime.config.
Variables request_id original_response : value.

Let poll_request : request :=
  GET (Runtime.status_url env cfg request_id) (Runtime.auth_headers cfg).

(** Whatever the replies, the loop stops within its [n] rounds, never
    raises and touches neither the client nor the clock. *)
Lemma runtime_poll_loop_frame n : forall s,
  exists k r,
    (k <= n)%nat
    /\ Runtime.poll_loop env cfg n request_id original_response s
       = (Ret r, St (self s)
                    (after_polls k Runtime.poll_interval poll_request (world s))).
Proof.
  induction n as [|n IH]; intros s.
  - exists 0%nat, None. split; [lia|]. destruct s; reflexivity.
  - destruct (IH (St (self s)
                     (log_request poll_request
                        (log_sleep Runtime.poll_interval (world s)))))
      as (k & r & Hk & E).
    assert (Hcont : exists k0 r0, (k0 <= S n)%nat /\
              Runtime.poll_loop env cfg n request_id original_response
                (St (self s) (log_request poll_request
                                (log_sleep Runtime.poll_interval (world s))))
              = (Ret r0, St (self s)
                   (after_polls k0 Runtime.poll_interval poll_request (world s)))).
    { exists (S k), r. split; [lia|]. exact E. }
    assert (Hstop : forall d, exists k0 r0, (k0 <= S n)%nat /\
              (Ret (Some d) : outcome (option value),
               St (self s) (log_request poll_request
                              (log_sleep Runtime.poll_interval (world s))))
              = (Ret r0, St (self s)
                   (after_polls k0 Runtime.poll_interval poll_request (world s)))).
    { intros d. exists 1%nat, (Some d). split; [lia|]. reflexivity. }
    clear IH E.
    simpl. unfold_monad. unfold Runtime.poll_once. unfold_monad. simpl.
    fold poll_request.
    destruct (urlopen env (length (sent (world s))) poll_request) as [text|v];
      [exact Hcont|].
    destruct v; simpl; try exact Hcont.
    destruct (eq_str _ "approved" || eq_str _ "allow"); [apply Hstop|].
    destruct (eq_str _ "denied" || eq_str _ "deny"); [|exact Hcont].
    destruct original_response; simpl; solve [exact Hcont | apply Hstop].
Qed.

(** [_poll_approval] always returns a decision, after at most 30 rounds. *)
Lemma runtime_poll_approval_frame s :
  exists k d,
    (k <= Runtime.max_polls)%nat
    /\ Runtime._poll_approval env cfg request_id original_response s
       = (Ret d, St (self s)
                    (after_polls k Runtime.poll_interval poll_request (world s))).
Proof.
  destruct (runtime_poll_loop_frame Runtime.max_polls s) as (k & r & Hk & E).
  unfold Runtime._poll_approval, bind. rewrite E.
  destruct r as [d|]; eexists k, _; (split; [exact Hk|reflexivity]).
Qed.

End RuntimePollerFrame.

Section SdkPoller.

Variable env : Env.
Variable cfg : Sdk.config.
Variables request_id original_response : value.
Variable raise_on_deny : bool.

Let poll_request : request :=
  GET (Sdk.status_url env cfg request_id) (Sdk.auth_headers cfg).

(** While no reply is terminal the loop runs all its rounds: [n] sleeps and
    [n] polls, nothing else touched. *)
Lemma sdk_poll_loop_exhausts n : forall s,
  (forall i, (i < n)%nat ->
     terminal_status (urlopen env (length (sent (world s)) + i) poll_request)
     = false) ->
  Sdk.poll_loop env cfg n request_id original_response raise_on_deny s
  = (Ret None,
     St (self s) (after_polls n Sdk.poll_interval poll_request (world s))).
Proof.
  induction n as [|n IH]; intros s H.
  - destruct s; reflexivity.
  - assert (H0 := H 0%nat ltac:(lia)). rewrite Nat.add_0_r in H0.
    assert (IH' : Sdk.poll_loop env cfg n request_id original_response
                    raise_on_deny
                    (St (self s) (log_request poll_request
                                    (log_sleep Sdk.poll_interval (world s))))
                  = (Ret None,
                     St (self s)
                        (after_polls (S n) Sdk.poll_interval poll_request
                                     (world s)))).
    { rewrite IH; [reflexivity|].
      intros i Hi. simpl. specialize (H (S i) ltac:(lia)).
      rewrite Nat.add_succ_r in H. exact H. }
    clear IH H.
    simpl. unfold_monad. unfold Sdk.poll_once. unfold_monad. simpl.
    fold poll_request.
    destruct (urlopen env (length (sent (world s))) poll_request) as [text|v];
      [exact IH'|].
    destruct v; simpl; try exact IH'.
    apply terminal_status_false_dict in H0. destruct H0 as [Ha Hd].
    rewrite Ha, Hd. exact IH'.
Qed.

(** Whatever the replies, the loop stops within its [n] rounds and touches
    neither the client nor the clock; the only exception it lets through is
    [PolicyDeniedError]. *)
Lemma sdk_poll_loop_frame n : forall s,
  exists k r,
    (k <= n)%nat
    /\ Sdk.poll_loop env cfg n request_id original_response raise_on_deny s
       = (r, St (self s)
                (after_polls k Sdk.poll_interval poll_request (world s)))
    /\ match r with
       | Ret _ => True
       | Raise (PolicyDeniedError _ _ _ _ _ _) => raise_on_deny = true
       | Raise _ => False
       end.
Proof.
  induction n as [|n IH]; intros s.
  - exists 0%nat, (Ret None). split; [lia|]. destruct s; split; [reflexivity|exact I].
  - destruct (IH (St (self s)
                     (log_request poll_request
                        (log_sleep Sdk.poll_interval (world s)))))
      as (k & r & Hk & E & Hr).
    assert (Hcont : exists k0 r0, (k0 <= S n)%nat /\
              Sdk.poll_loop env cfg n request_id original_response raise_on_deny
                (St (self s) (log_request poll_request
                                (log_sleep Sdk.poll_interval (world s))))
              = (r0, St (self s)
                   (after_polls k0 Sdk.poll_interval poll_request (world s)))
              /\ match r0 with
                 | Ret _ => True
                 | Raise (PolicyDeniedError _ _ _ _ _ _) => raise_on_deny = true
                 | Raise _ => False
                 end).
    { exists (S k), r. split; [lia|]. split; [exact E|exact Hr]. }
    assert (Hstop : forall r1 : outcome (option value),
              match r1 with
              | Ret _ => True
              | Raise (PolicyDeniedError _ _ _ _ _ _) => raise_on_deny = true
              | Raise _ => False
              end ->
              exists k0 r0, (k0 <= S n)%nat /\
              (r1, St (self s) (log_request poll_request
                              (log_sleep Sdk.poll_interval (world s))))
              = (r0, St (self s)
                   (after_polls k0 Sdk.poll_interval poll_request (world s)))
              /\ match r0 with
                 | Ret _ => True
                 | Raise (PolicyDeniedError _ _ _ _ _ _) => raise_on_deny = true
                 | Raise _ => False
                 end).
    { intros r1 H1. exists 1%nat, r1. split; [lia|]. split; [reflexivity|exact H1]. }
    clear IH E.
    simpl. unfold_monad. unfold Sdk.poll_once. unfold_monad. simpl.
    fold poll_request.
    destruct (urlopen env (length (sent (world s))) poll_request) as [text|v];
      [exact Hcont|].
    destruct v; simpl; try exact Hcont.
    destruct (eq_str _ "approved" || eq_str _ "allow").
    { destruct original_response; simpl;
        solve [exact Hcont | apply Hstop; exact I]. }
    destruct (eq_str _ "denied" || eq_str _ "deny"); [|exact Hcont].
    destruct original_response; simpl; try exact Hcont.
    destruct raise_on_deny eqn:Erod; simpl; apply Hstop; [reflexivity|exact I].
Qed.

End SdkPoller.

Lemma no_terminal_reply_spec env first n req :
  no_terminal_reply env first n req = true ->
  forall i, (i < n)%nat ->
    terminal_status (urlopen env (first + i) req) = false.
Proof.
  unfold no_terminal_reply. rewrite forallb_forall. intros H i Hi.
  apply negb_true_iff. apply H. apply in_seq. lia.
Qed.

(* ------------------------------------------------------------------ *)
(** ** C1: the attempt budget *)

(** C1 (amended).  When none of the 30 poll attempts yields a terminal status
    (each fails, which is swallowed, or observes a status such as
    ["pending"]), both pollers stop after exactly 30 sleeps and 30 polls and
    neither resolves to Allow: the runtime poller returns the Deny decision
    with reason ["approval timeout after 60s"], the SDK poller raises
    [ApprovalTimeoutError("Approval timed out after 60s")] whatever
    [raise_on_deny] is. *)
Theorem C1_timeout_resolves_closed
        (env : Env) (rcfg : Runtime.config) (scfg : Sdk.config)
        (request_id original_response : value) (raise_on_deny : bool)
        (rs : st Runtime.client) (ss : st Sdk.client) :
  let rreq := GET (Runtime.status_url env rcfg request_id)
                  (Runtime.auth_headers rcfg) in
  let sreq := GET (Sdk.status_url env scfg request_id)
                  (Sdk.auth_headers scfg) in
  no_terminal_reply env (length (sent (world rs))) 30 rreq = true ->
  no_terminal_reply env (length (sent (world ss))) 30 sreq = true ->
  Runtime._poll_approval env rcfg request_id original_response rs
  = (Ret (VDict [("decision", VStr "deny");
                 ("reason", VStr "approval timeout after 60s");
                 ("request_id", request_id)]),
     St (self rs) (after_polls 30 2 rreq (world rs)))
  /\ Sdk._poll_approval env scfg request_id original_response raise_on_deny ss
     = (Raise (ApprovalTimeoutError "Approval timed out after 60s" request_id),
        St (self ss) (after_polls 30 2 sreq (world ss)))
  /\ reads_as_allow (VDict [("decision", VStr "deny");
                            ("reason", VStr "approval timeout after 60s");
                            ("request_id", request_id)]) = false.
Proof.
  intros rreq sreq Hr Hs.
  split; [|split; [|reflexivity]].
  - unfold Runtime._poll_approval, bind.
    rewrite (runtime_poll_loop_exhausts env rcfg request_id original_response
               Runtime.max_polls rs (no_terminal_reply_spec _ _ _ _ Hr)).
    reflexivity.
  - unfold Sdk._poll_approval, bind.
    rewrite (sdk_poll_loop_exhausts env scfg request_id original_response
               raise_on_deny Sdk.max_polls ss
               (no_terminal_reply_spec _ _ _ _ Hs)).
    reflexivity.
Qed.

Lemma C1_timeout_resolves_closed_witness :
  let env := Mock.env (repeat (Body (VDict Mock.pending_response)) 30) in
  let rid := VStr "req-approval-1" in
  let rreq := GET (Runtime.status_url env (Mock.runtime_cfg "open") rid)
                  (Runtime.auth_headers (Mock.runtime_cfg "open")) in
  let sreq := GET (Sdk.status_url env (Mock.sdk_cfg "open") rid)
                  (Sdk.auth_headers (Mock.sdk_cfg "open")) in
  Runtime._poll_approval env (Mock.runtime_cfg "open") rid
                         (VDict Mock.eval_response) Mock.runtime_start
  = (Ret (VDict [("decision", VStr "deny");
                 ("reason", VStr "approval timeout after 60s");
                 ("request_id", rid)]),
     St Runtime.fresh_client (after_polls 30 2 rreq fresh_world))
  /\ Sdk._poll_approval env (Mock.sdk_cfg "open") rid
                        (VDict Mock.eval_response) false Mock.sdk_start
     = (Raise (ApprovalTimeoutError "Approval timed out after 60s" rid),
        St Sdk.fresh_client (after_polls 30 2 sreq fresh_world))
  /\ reads_as_allow (VDict [("decision", VStr "deny");
                            ("reason", VStr "approval timeout after 60s");
                            ("request_id", rid)]) = false.
Proof.
  intros env rid rreq sreq.
  apply (C1_timeout_resolves_closed env (Mock.runtime_cfg "open")
           (Mock.sdk_cfg "open") rid (VDict Mock.eval_response) false
           Mock.runtime_start Mock.sdk_start); reflexivity.
Defined.

(** C1, as stated, fails on the SDK poller: after 30 pending replies it
    returns no decision at all, it raises. *)
Lemma C1_sdk_timeout_raises :
  let run := Sdk._poll_approval
               (Mock.env (repeat (Body (VDict Mock.pending_response)) 30))
               (Mock.sdk_cfg "open") (VStr "req-approval-1")
               (VDict Mock.eval_response) false Mock.sdk_start in
  fst run = Raise (ApprovalTimeoutError "Approval timed out after 60s"
                                        (VStr "req-approval-1"))
  /\ fst run <> Ret (Runtime.timeout_decision (VStr "req-approval-1"))
  /\ ~ (exists d : value, fst run = Ret d).
Proof.
  split; [vm_compute; reflexivity|].
  split; [vm_compute; discriminate|].
  intros [d H]. vm_compute in H. discriminate H.
Qed.

(* ------------------------------------------------------------------ *)
(** ** Facts about the ordered dictionary *)

Section ODFacts.

Variable V : Type.
Implicit Types (od : OD.t V) (k : OD.key) (v : V).

Lemma key_eqb_eq k k' : OD.key_eqb k k' = true <-> k = k'.
Proof.
  destruct k as [[a1 a2] a3], k' as [[b1 b2] b3]; simpl.
  rewrite !andb_true_iff, !String.eqb_eq. split.
  - intros [[-> ->] ->]; reflexivity.
  - intros H; inversion H; auto.
Qed.

Lemma key_eqb_refl k : OD.key_eqb k k = true.
Proof. apply key_eqb_eq; reflexivity. Qed.

Lemma get_none_iff od k : OD.get od k = None <-> ~ In k (map fst od).
Proof.
  induction od as [|[k' v'] od IH]; simpl.
  - tauto.
  - destruct (OD.key_eqb k' k) eqn:E.
    + apply key_eqb_eq in E. split; [discriminate|]. intros H; exfalso; auto.
    + rewrite IH. split.
      * intros H [->|Hin]; [rewrite key_eqb_refl in E; discriminate|auto].
      * intros H Hin; auto.
Qed.

Lemma get_del_same od k : OD.get (OD.del od k) k = None.
Proof.
  apply get_none_iff. unfold OD.del. intros Hin.
  apply in_map_iff in Hin. destruct Hin as ([k' v'] & Hk & Hin). simpl in Hk.
  subst k'. apply filter_In in Hin. destruct Hin as [_ Hin]. simpl in Hin.
  rewrite key_eqb_refl in Hin. discriminate.
Qed.

Lemma set_absent od k v :
  OD.get od k = None -> OD.set od k v = (od ++ [(k, v)])%list.
Proof.
  induction od as [|[k' v'] od IH]; simpl; [reflexivity|].
  destruct (OD.key_eqb k' k); [discriminate|].
  intros H; rewrite IH by exact H; reflexivity.
Qed.

Lemma get_app_last od k v :
  OD.get od k = None -> OD.get (od ++ [(k, v)])%list k = Some v.
Proof.
  induction od as [|[k' v'] od IH]; simpl.
  - rewrite key_eqb_refl; reflexivity.
  - destruct (OD.key_eqb k' k); [discriminate|exact IH].
Qed.

Lemma get_none_suffix pre od k :
  OD.get (pre ++ od)%list k = None -> OD.get od k = None.
Proof.
  rewrite !get_none_iff, map_app. intros H Hin. apply H, in_or_app; auto.
Qed.

(** Eviction keeps a suffix: it pops from the front only. *)
Lemma evict_suffix max_size od od' :
  OD.evict max_size od = Ret od' -> exists pre, od = (pre ++ od')%list.
Proof.
  revert od'; induction od as [|x od IH]; intros od'; simpl.
  - destruct (0 >? max_size)%Z; [discriminate|].
    intros H; inversion H; exists []; reflexivity.
  - destruct (Z.pos (Pos.of_succ_nat (length od)) >? max_size)%Z.
    + intros H. destruct (IH _ H) as [pre ->]. exists (x :: pre); reflexivity.
    + intros H; inversion H; exists []; reflexivity.
Qed.

(** With room for at least one entry the newest entry survives eviction,
    and eviction does not raise. *)
Lemma evict_keeps_last max_size od x :
  (1 <= max_size)%Z ->
  exists pre mid,
    od = (pre ++ mid)%list
    /\ OD.evict max_size (od ++ [x])%list = Ret (mid ++ [x])%list.
Proof.
  intros Hmax. induction od as [|y od IH].
  - exists [], []. split; [reflexivity|]. simpl.
    destruct (1 >? max_size)%Z eqn:E; [lia|]. reflexivity.
  - destruct IH as (pre & mid & -> & E).
    cbn [app OD.evict].
    destruct (Z.of_nat (length (y :: (pre ++ mid) ++ [x])) >? max_size)%Z eqn:G.
    + exists (y :: pre), mid. split; [reflexivity|exact E].
    + exists [], (y :: pre ++ mid)%list. split; reflexivity.
Qed.

(** A non-negative bound never makes eviction raise. *)
Lemma evict_returns max_size od :
  (0 <= max_size)%Z -> exists od', OD.evict max_size od = Ret od'.
Proof.
  intros Hmax. induction od as [|y od IH]; simpl.
  - destruct (0 >? max_size)%Z eqn:E; [lia|]. eexists; reflexivity.
  - destruct (Z.pos (Pos.of_succ_nat (length od)) >? max_size)%Z;
      [exact IH|eexists; reflexivity].
Qed.

End ODFacts.

Lemma only_allow_del cache k : only_allow cache -> only_allow (OD.del cache k).
Proof.
  unfold only_allow, OD.del. rewrite !Forall_forall. intros H x Hin.
  apply filter_In in Hin. apply H, Hin.
Qed.

Lemma only_allow_get cache k e :
  only_allow cache -> OD.get cache k = Some e -> reads_as_allow (fst e) = true.
Proof.
  unfold only_allow. induction cache as [|[k' e'] cache IH]; simpl; [discriminate|].
  intros H. inversion H; subst. destruct (OD.key_eqb k' k).
  - intros E; inversion E; subst; assumption.
  - apply IH; assumption.
Qed.

Lemma only_allow_move_to_end cache k :
  only_allow cache -> only_allow (OD.move_to_end cache k).
Proof.
  intros H. unfold OD.move_to_end. destruct (OD.get cache k) as [e|] eqn:E; [|exact H].
  apply Forall_app. split; [apply only_allow_del, H|].
  constructor; [|constructor]. simpl. eapply only_allow_get; eassumption.
Qed.

Lemma only_allow_set cache k resp now :
  only_allow cache -> reads_as_allow resp = true ->
  only_allow (OD.set cache k (resp, now)).
Proof.
  unfold only_allow. induction cache as [|[k' e'] cache IH]; simpl; intros H Hr.
  - constructor; [exact Hr|constructor].
  - inversion H; subst. destruct (OD.key_eqb k' k).
    + constructor; [exact Hr|assumption].
    + constructor; [assumption|apply IH; assumption].
Qed.

Lemma only_allow_evict max_size cache cache' :
  only_allow cache -> OD.evict max_size cache = Ret cache' -> only_allow cache'.
Proof.
  intros H E. apply evict_suffix in E. destruct E as [pre ->].
  apply Forall_app in H. apply H.
Qed.

(* ------------------------------------------------------------------ *)
(** ** Facts about the cache lookup *)

Section RuntimeLookup.

Variable env : Env.
Variable cfg : Runtime.config.

(** A miss leaves the key out of the cache and performs no request, no sleep
    and no warning; the audit buffer is untouched. *)
Lemma runtime_lookup_miss key s s1 :
  Runtime.cache_lookup env cfg key s = (Ret None, s1) ->
  OD.get (Runtime._cache (self s1)) key = None
  /\ Runtime._audit_buffer (self s1) = Runtime._audit_buffer (self s)
  /\ sent (world s1) = sent (world s)
  /\ slept (world s1) = slept (world s)
  /\ warned (world s1) = warned (world s)
  /\ (only_allow (Runtime._cache (self s)) ->
      only_allow (Runtime._cache (self s1))).
Proof.
  unfold Runtime.cache_lookup, Runtime.set_cache. unfold_monad.
  destruct (OD.get (Runtime._cache (self s)) key) as [[d t]|] eqn:E; simpl.
  - destruct (_ <? _)%Z; intros H; inversion H; subst; clear H; simpl.
    repeat split; auto using get_del_same, only_allow_del.
  - intros H; inversion H; subst; clear H. repeat split; auto.
Qed.

(** A hit returns the cached decision without any request, sleep or
    warning. *)
Lemma runtime_lookup_fresh key s d t :
  OD.get (Runtime._cache (self s)) key = Some (d, t) ->
  (time_time env (clock_reads (world s)) - t < Runtime._cache_ttl cfg)%Z ->
  Runtime.cache_lookup env cfg key s
  = (Ret (Some d),
     St (Runtime.mkClient (OD.move_to_end (Runtime._cache (self s)) key)
                          (Runtime._audit_buffer (self s)))
        (tick (world s))).
Proof.
  intros E Hlt. unfold Runtime.cache_lookup, Runtime.set_cache. unfold_monad.
  rewrite E; simpl. apply Z.ltb_lt in Hlt. rewrite Hlt. reflexivity.
Qed.

(** At or past the TTL the entry is deleted and the lookup misses. *)
Lemma runtime_lookup_expired key s d t :
  OD.get (Runtime._cache (self s)) key = Some (d, t) ->
  (Runtime._cache_ttl cfg <= time_time env (clock_reads (world s)) - t)%Z ->
  Runtime.cache_lookup env cfg key s
  = (Ret None,
     St (Runtime.mkClient (OD.del (Runtime._cache (self s)) key)
                          (Runtime._audit_buffer (self s)))
        (tick (world s))).
Proof.
  intros E Hge. unfold Runtime.cache_lookup, Runtime.set_cache. unfold_monad.
  rewrite E; simpl.
  destruct (_ <? _)%Z eqn:G; [apply Z.ltb_lt in G; lia|reflexivity].
Qed.

Lemma runtime_lookup_absent key s :
  OD.get (Runtime._cache (self s)) key = None ->
  Runtime.cache_lookup env cfg key s = (Ret None, s).
Proof.
  intros E. unfold Runtime.cache_lookup. unfold_monad. rewrite E. reflexivity.
Qed.

(** The lookup never raises and only reads the clock. *)
Lemma runtime_lookup_frame key s :
  exists r s1,
    Runtime.cache_lookup env cfg key s = (Ret r, s1)
    /\ Runtime._audit_buffer (self s1) = Runtime._audit_buffer (self s)
    /\ sent (world s1) = sent (world s)
    /\ (only_allow (Runtime._cache (self s)) ->
        only_allow (Runtime._cache (self s1))
        /\ forall d, r = Some d -> reads_as_allow d = true).
Proof.
  unfold Runtime.cache_lookup, Runtime.set_cache. unfold_monad.
  destruct (OD.get (Runtime._cache (self s)) key) as [[d t]|] eqn:E; simpl.
  - destruct (_ <? _)%Z; eexists _, _; (split; [reflexivity|]); simpl;
      repeat split; auto using only_allow_del, only_allow_move_to_end.
    + intros d' Hd; inversion Hd; subst.
      apply (only_allow_get _ _ _ H E).
    + discriminate.
  - eexists _, _; split; [reflexivity|]. repeat split; auto. discriminate.
Qed.

End RuntimeLookup.

Section SdkLookup.

Variable env : Env.
Variable cfg : Sdk.config.

(** A miss leaves the key out of the cache and performs no request, no sleep
    and no warning. *)
Lemma sdk_lookup_miss key s s1 :
  Sdk.cache_lookup env cfg key s = (Ret None, s1) ->
  OD.get (Sdk._cache (self s1)) key = None
  /\ sent (world s1) = sent (world s)
  /\ slept (world s1) = slept (world s)
  /\ warned (world s1) = warned (world s)
  /\ (only_allow (Sdk._cache (self s)) -> only_allow (Sdk._cache (self s1))).
Proof.
  unfold Sdk.cache_lookup, Sdk.set_cache. unfold_monad.
  destruct (OD.get (Sdk._cache (self s)) key) as [[d t]|] eqn:E; simpl.
  - destruct (_ <? _)%Z; intros H; inversion H; subst; clear H; simpl.
    repeat split; auto using get_del_same, only_allow_del.
  - intros H; inversion H; subst; clear H. repeat split; auto.
Qed.

(** A hit returns the cached decision without any request, sleep or
    warning. *)
Lemma sdk_lookup_fresh key s d t :
  OD.get (Sdk._cache (self s)) key = Some (d, t) ->
  (time_time env (clock_reads (world s)) - t < Sdk._cache_ttl cfg)%Z ->
  Sdk.cache_lookup env cfg key s
  = (Ret (Some d),
     St (Sdk.mkClient (OD.move_to_end (Sdk._cache (self s)) key))
        (tick (world s))).
Proof.
  intros E Hlt. unfold Sdk.cache_lookup, Sdk.set_cache. unfold_monad.
  rewrite E; simpl. apply Z.ltb_lt in Hlt. rewrite Hlt. reflexivity.
Qed.

(** At or past the TTL the entry is deleted and the lookup misses. *)
Lemma sdk_lookup_expired key s d t :
  OD.get (Sdk._cache (self s)) key = Some (d, t) ->
  (Sdk._cache_ttl cfg <= time_time env (clock_reads (world s)) - t)%Z ->
  Sdk.cache_lookup env cfg key s
  = (Ret None,
     St (Sdk.mkClient (OD.del (Sdk._cache (self s)) key)) (tick (world s))).
Proof.
  intros E Hge. unfold Sdk.cache_lookup, Sdk.set_cache. unfold_monad.
  rewrite E; simpl.
  destruct (_ <? _)%Z eqn:G; [apply Z.ltb_lt in G; lia|reflexivity].
Qed.

Lemma sdk_lookup_absent key s :
  OD.get (Sdk._cache (self s)) key = None ->
  Sdk.cache_lookup env cfg key s = (Ret None, s).
Proof.
  intros E. unfold Sdk.cache_lookup. unfold_monad. rewrite E. reflexivity.
Qed.

(** The lookup never raises and only reads the clock. *)
Lemma sdk_lookup_frame key s :
  exists r s1,
    Sdk.cache_lookup env cfg key s = (Ret r, s1)
    /\ sent (world s1) = sent (world s)
    /\ (only_allow (Sdk._cache (self s)) ->
        only_allow (Sdk._cache (self s1))
        /\ forall d, r = Some d -> reads_as_allow d = true).
Proof.
  unfold Sdk.cache_lookup, Sdk.set_cache. unfold_monad.
  destruct (OD.get (Sdk._cache (self s)) key) as [[d t]|] eqn:E; simpl.
  - destruct (_ <? _)%Z; eexists _, _; (split; [reflexivity|]); simpl;
      repeat split; auto using only_allow_del, only_allow_move_to_end.
    + intros d' Hd; inversion Hd; subst.
      apply (only_allow_get _ _ _ H E).
    + discriminate.
  - eexists _, _; split; [reflexivity|]. repeat split; auto. discriminate.
Qed.

End SdkLookup.

(* ------------------------------------------------------------------ *)
(** ** C8: [approval_required] without a [request_id] *)

(** C8.  When the server answers [approval_required] with an empty
    [request_id] (missing, or [""], or any falsy value), [evaluate] of either
    client returns the response unchanged: it does not raise, whatever
    [raise_on_deny] is, and apart from the evaluation request itself it
    sends nothing and does not sleep, so there is no polling. *)
Theorem C8_no_request_id_no_polling
        (env : Env) (rcfg : Runtime.config) (scfg : Sdk.config)
        (action_type action_name : string) (arguments destination : option dict)
        (identity_name : option string) (identity_roles : option (list string))
        (protocol framework : option string) (raise_on_deny : bool)
        (rs rs1 : st Runtime.client) (ss ss1 : st Sdk.client)
        (resp : dict) :
  let rreq := Runtime.evaluate_request rcfg action_type action_name
                                       arguments destination in
  let sreq := Sdk.evaluate_request env scfg action_type action_name
                arguments destination identity_name identity_roles
                protocol framework in
  Runtime.cache_lookup env rcfg
    (Runtime._cache_key env action_type action_name arguments) rs
  = (Ret None, rs1) ->
  Sdk.cache_lookup env scfg
    (Sdk._cache_key env action_type action_name arguments) ss
  = (Ret None, ss1) ->
  urlopen env (length (sent (world rs1))) rreq = Body (VDict resp) ->
  urlopen env (length (sent (world ss1))) sreq = Body (VDict resp) ->
  dict_get resp "decision" (VStr "allow") = VStr "approval_required" ->
  truthy (dict_get resp "request_id" (VStr "")) = false ->
  Runtime.evaluate env rcfg action_type action_name arguments destination rs
  = (Ret (VDict resp), St (self rs1) (log_request rreq (world rs1)))
  /\ Sdk.evaluate env scfg action_type action_name arguments destination
                  identity_name identity_roles protocol framework
                  raise_on_deny ss
     = (Ret (VDict resp), St (self ss1) (log_request sreq (world ss1))).
Proof.
  intros rreq sreq Hr Hs Ur Us Hd Hid. split.
  - unfold Runtime.evaluate, bind. rewrite Hr.
    unfold try_except, do_urlopen. fold rreq. rewrite Ur.
    unfold Runtime.on_response. unfold_monad. simpl.
    rewrite Hd. simpl. rewrite Hid. reflexivity.
  - unfold Sdk.evaluate, bind. rewrite Hs.
    unfold try_except, do_urlopen. fold sreq. rewrite Us.
    unfold Sdk.on_response. unfold_monad. simpl.
    rewrite Hd. simpl. rewrite Hid. reflexivity.
Qed.

Lemma C8_no_request_id_no_polling_witness :
  let resp := [("decision", VStr "approval_required");
               ("reason", VStr "requires human approval");
               ("request_id", VStr "")] in
  let env := Mock.env [Body (VDict resp)] in
  Runtime.evaluate env (Mock.runtime_cfg "closed") "command_exec" "deploy"
                   None None Mock.runtime_start
  = (Ret (VDict resp),
     St Runtime.fresh_client
        (log_request (Runtime.evaluate_request (Mock.runtime_cfg "closed")
                        "command_exec" "deploy" None None) fresh_world))
  /\ Sdk.evaluate env (Mock.sdk_cfg "closed") "command_exec" "deploy"
                  None None None None None None true Mock.sdk_start
     = (Ret (VDict resp),
        St Sdk.fresh_client
           (log_request (Sdk.evaluate_request env (Mock.sdk_cfg "closed")
                           "command_exec" "deploy" None None None None None None)
                        fresh_world)).
Proof.
  intros resp env.
  apply (C8_no_request_id_no_polling env (Mock.runtime_cfg "closed")
           (Mock.sdk_cfg "closed") "command_exec" "deploy" None None
           None None None None true
           Mock.runtime_start Mock.runtime_start Mock.sdk_start Mock.sdk_start
           resp); reflexivity.
Defined.

(* ------------------------------------------------------------------ *)
(** ** C2: fail-closed *)

Section FailClosed.

Variable env : Env.
Variable rcfg : Runtime.config.
Variable scfg : Sdk.config.
Hypothesis rclosed : Runtime._fail_mode rcfg = "closed".
Hypothesis sclosed : Sdk._fail_mode scfg = "closed".

(** One call of the runtime client whose lookup missed and whose request
    failed. *)
Lemma runtime_fail_closed_step action_type action_name arguments destination
      s s1 text :
  Runtime.cache_lookup env rcfg
    (Runtime._cache_key env action_type action_name arguments) s
  = (Ret None, s1) ->
  urlopen env (length (sent (world s1)))
          (Runtime.evaluate_request rcfg action_type action_name
                                    arguments destination)
  = Failed text ->
  Runtime.evaluate env rcfg action_type action_name arguments destination s
  = (Raise runtime_unreachable,
     St (Runtime.mkClient
           (Runtime._cache (self s1))
           (Runtime._audit_buffer (self s1)
              ++ [Runtime.mkEvent action_type action_name (or_empty arguments)
                    "deny" "fail-closed"
                    (time_time env (clock_reads (world s1)))
                    (Runtime._agent_id rcfg)])%list)
        (tick (log_request
                 (Runtime.evaluate_request rcfg action_type action_name
                                           arguments destination)
                 (world s1)))).
Proof.
  intros Hl Hu. unfold Runtime.evaluate, bind. rewrite Hl.
  unfold try_except, do_urlopen. rewrite Hu.
  unfold Runtime.on_failure. rewrite rclosed. reflexivity.
Qed.

(** One call of the SDK client whose lookup missed and whose request
    failed. *)
Lemma sdk_fail_closed_step action_type action_name arguments destination
      identity_name identity_roles protocol framework raise_on_deny
      s s1 text :
  Sdk.cache_lookup env scfg
    (Sdk._cache_key env action_type action_name arguments) s
  = (Ret None, s1) ->
  urlopen env (length (sent (world s1)))
          (Sdk.evaluate_request env scfg action_type action_name arguments
             destination identity_name identity_roles protocol framework)
  = Failed text ->
  Sdk.evaluate env scfg action_type action_name arguments destination
               identity_name identity_roles protocol framework raise_on_deny s
  = (Raise (ServerUnreachableError
              ("SentinelGate server unreachable: " ++ text)),
     St (self s1)
        (log_request
           (Sdk.evaluate_request env scfg action_type action_name arguments
              destination identity_name identity_roles protocol framework)
           (world s1))).
Proof.
  intros Hl Hu. unfold Sdk.evaluate, bind. rewrite Hl.
  unfold try_except, do_urlopen. rewrite Hu.
  unfold Sdk.on_failure. rewrite sclosed. reflexivity.
Qed.

Hypothesis down : transport_down env.

(** With the transport down nothing is ever cached, so every call of a run
    reaches the transport and raises. *)
Lemma runtime_fail_closed_run calls : forall s,
  Runtime._cache (self s) = [] ->
  Forall (fun r => r = Raise runtime_unreachable)
         (fst (run_all (runtime_call env rcfg) calls s)).
Proof.
  induction calls as [|c calls IH]; intros s Hc; simpl; [constructor|].
  unfold runtime_call at 1.
  destruct (down (length (sent (world s)))
                 (Runtime.evaluate_request rcfg (c_action_type c)
                    (c_action_name c) (c_arguments c) (c_destination c)))
    as [text Hu].
  rewrite (runtime_fail_closed_step _ _ _ _ s s text);
    [|apply runtime_lookup_absent; rewrite Hc; reflexivity|exact Hu].
  match goal with
  | |- context [run_all _ calls ?s1] =>
      specialize (IH s1 Hc); destruct (run_all (runtime_call env rcfg) calls s1)
  end.
  simpl. constructor; [reflexivity|exact IH].
Qed.

Lemma sdk_fail_closed_run calls : forall s,
  Sdk._cache (self s) = [] ->
  Forall is_server_unreachable (fst (run_all (sdk_call env scfg) calls s)).
Proof.
  induction calls as [|c calls IH]; intros s Hc; simpl; [constructor|].
  unfold sdk_call at 1.
  destruct (down (length (sent (world s)))
                 (Sdk.evaluate_request env scfg (c_action_type c)
                    (c_action_name c) (c_arguments c) (c_destination c)
                    (c_identity_name c) (c_identity_roles c)
                    (c_protocol c) (c_framework c)))
    as [text Hu].
  rewrite (sdk_fail_closed_step _ _ _ _ _ _ _ _ _ s s text);
    [|apply sdk_lookup_absent; rewrite Hc; reflexivity|exact Hu].
  match goal with
  | |- context [run_all _ calls ?s1] =>
      specialize (IH s1 Hc); destruct (run_all (sdk_call env scfg) calls s1)
  end.
  simpl. constructor; [exists text; reflexivity|exact IH].
Qed.

End FailClosed.

(** C2 (amended).  Under [fail_mode = "closed"], a call of [evaluate] whose
    cache lookup misses and whose transport request fails raises to the
    caller: the runtime client first buffers one audit event recording a
    synthetic Deny with reason ["fail-closed"] and raises [PermissionError]
    saying the server is unreachable; the SDK client, which keeps no audit
    buffer, raises [ServerUnreachableError] and records nothing.  While the
    transport is down from the start, every call of either client raises so
    and none returns a decision. *)
Theorem C2_fail_closed_raises
        (env : Env) (rcfg : Runtime.config) (scfg : Sdk.config) :
  Runtime._fail_mode rcfg = "closed" ->
  Sdk._fail_mode scfg = "closed" ->
  (forall action_type action_name arguments destination s s1 text,
      Runtime.cache_lookup env rcfg
        (Runtime._cache_key env action_type action_name arguments) s
      = (Ret None, s1) ->
      urlopen env (length (sent (world s1)))
              (Runtime.evaluate_request rcfg action_type action_name
                                        arguments destination)
      = Failed text ->
      exists s2,
        Runtime.evaluate env rcfg action_type action_name arguments
                         destination s
        = (Raise runtime_unreachable, s2)
        /\ buffered_one (self s) (self s2) "deny" "fail-closed"
        /\ Runtime._cache (self s2) = Runtime._cache (self s1)
        /\ sent (world s2)
           = Runtime.evaluate_request rcfg action_type action_name
                                      arguments destination
             :: sent (world s1))
  /\ (forall action_type action_name arguments destination identity_name
             identity_roles protocol framework raise_on_deny s s1 text,
         Sdk.cache_lookup env scfg
           (Sdk._cache_key env action_type action_name arguments) s
         = (Ret None, s1) ->
         urlopen env (length (sent (world s1)))
                 (Sdk.evaluate_request env scfg action_type action_name
                    arguments destination identity_name identity_roles
                    protocol framework)
         = Failed text ->
         Sdk.evaluate env scfg action_type action_name arguments destination
                      identity_name identity_roles protocol framework
                      raise_on_deny s
         = (Raise (ServerUnreachableError
                     ("SentinelGate server unreachable: " ++ text)),
            St (self s1)
               (log_request
                  (Sdk.evaluate_request env scfg action_type action_name
                     arguments destination identity_name identity_roles
                     protocol framework)
                  (world s1))))
  /\ (transport_down env ->
      forall calls w,
        Forall (fun r => r = Raise runtime_unreachable)
               (fst (run_all (runtime_call env rcfg) calls
                             (St Runtime.fresh_client w)))
        /\ Forall is_server_unreachable
                  (fst (run_all (sdk_call env scfg) calls
                                (St Sdk.fresh_client w)))).
Proof.
  intros rclosed sclosed. split; [|split].
  - intros action_type action_name arguments destination s s1 text Hl Hu.
    destruct (runtime_lookup_miss env rcfg _ s s1 Hl) as (_ & Haudit & _).
    eexists. split.
    + apply (runtime_fail_closed_step env rcfg rclosed _ _ _ _ s s1 text Hl Hu).
    + simpl. split; [|split; reflexivity].
      eexists.
      split; [unfold audit_trail, runtime_audited; simpl; rewrite Haudit;
              reflexivity
             |split; reflexivity].
  - intros action_type action_name arguments destination identity_name
           identity_roles protocol framework raise_on_deny s s1 text Hl Hu.
    apply (sdk_fail_closed_step env scfg sclosed _ _ _ _ _ _ _ _ _ s s1 text
             Hl Hu).
  - intros down calls w. split.
    + apply (runtime_fail_closed_run env rcfg rclosed down); reflexivity.
    + apply (sdk_fail_closed_run env scfg sclosed down); reflexivity.
Qed.

Lemma C2_fail_closed_raises_witness :
  let ls := mkCall "command_exec" "ls" None None None None None None true in
  Forall (fun r => r = Raise runtime_unreachable)
         (fst (run_all (runtime_call (Mock.env []) (Mock.runtime_cfg "closed"))
                       [ls; ls] Mock.runtime_start))
  /\ Forall is_server_unreachable
            (fst (run_all (sdk_call (Mock.env []) (Mock.sdk_cfg "closed"))
                          [ls; ls] Mock.sdk_start)).
Proof.
  intros ls.
  refine (proj2 (proj2 (C2_fail_closed_raises (Mock.env [])
                          (Mock.runtime_cfg "closed") (Mock.sdk_cfg "closed")
                          _ _)) _ [ls; ls] fresh_world).
  - reflexivity.
  - reflexivity.
  - intros n req. exists "Connection refused". destruct n; reflexivity.
Defined.

(** C2, as stated, fails on the SDK client: a fail-closed call raises without
    any audit event having been buffered. *)
Lemma C2_sdk_buffers_no_audit_event :
  fst (Mock.sdk_evaluate [] "closed" "command_exec" "ls" Mock.sdk_start)
  = Raise (ServerUnreachableError
             "SentinelGate server unreachable: Connection refused")
  /\ ~ buffered_one
         (self Mock.sdk_start)
         (self (snd (Mock.sdk_evaluate [] "closed" "command_exec" "ls"
                                       Mock.sdk_start)))
         "deny" "fail-closed".
Proof.
  split; [reflexivity|].
  intros (ev & H & _). simpl in H. discriminate H.
Qed.

(* ------------------------------------------------------------------ *)
(** ** A miss always reaches the network *)

Section MissSends.

Variable env : Env.

(** After a miss the runtime client's next effect is the evaluation request;
    whatever else the call sends comes later. *)
Lemma runtime_miss_sends (cfg : Runtime.config)
      action_type action_name arguments destination s s1 :
  Runtime.cache_lookup env cfg
    (Runtime._cache_key env action_type action_name arguments) s
  = (Ret None, s1) ->
  exists later,
    sent (world (snd (Runtime.evaluate env cfg action_type action_name
                                       arguments destination s)))
    = (later
         ++ Runtime.evaluate_request cfg action_type action_name
                                     arguments destination
         :: sent (world s1))%list.
Proof.
  intros Hl. unfold Runtime.evaluate, bind. rewrite Hl.
  unfold try_except, do_urlopen.
  destruct (urlopen env _ _) as [text|v].
  - unfold Runtime.on_failure.
    destruct (_ =? _)%string; exists []; reflexivity.
  - unfold Runtime.on_response. unfold_monad.
    destruct v; simpl; try (exists []; reflexivity).
    destruct (eq_str _ "approval_required").
    + destruct (truthy _); [|exists []; reflexivity].
      match goal with
      | |- context [Runtime._poll_approval env cfg ?rid ?orig ?s0] =>
          destruct (runtime_poll_approval_frame env cfg rid orig s0)
            as (k & d & _ & E); rewrite E
      end.
      simpl. rewrite sent_after_polls. simpl. eexists; reflexivity.
    + destruct (eq_str _ "allow"); [|exists []; reflexivity].
      unfold Runtime.cache_store, Runtime.set_cache. unfold_monad. simpl.
      destruct (OD.evict _ _); exists []; reflexivity.
Qed.

(** The same for the SDK client. *)
Lemma sdk_miss_sends (cfg : Sdk.config)
      action_type action_name arguments destination identity_name
      identity_roles protocol framework raise_on_deny s s1 :
  Sdk.cache_lookup env cfg
    (Sdk._cache_key env action_type action_name arguments) s
  = (Ret None, s1) ->
  exists later,
    sent (world (snd (Sdk.evaluate env cfg action_type action_name arguments
                        destination identity_name identity_roles protocol
                        framework raise_on_deny s)))
    = (later
         ++ Sdk.evaluate_request env cfg action_type action_name arguments
              destination identity_name identity_roles protocol framework
         :: sent (world s1))%list.
Proof.
  intros Hl. unfold Sdk.evaluate, bind. rewrite Hl.
  unfold try_except, do_urlopen.
  destruct (urlopen env _ _) as [text|v].
  - unfold Sdk.on_failure.
    destruct (_ =? _)%string; exists []; reflexivity.
  - unfold Sdk.on_response. unfold_monad.
    destruct v; simpl; try (exists []; reflexivity).
    destruct (eq_str _ "approval_required").
    + destruct (truthy _); [|exists []; reflexivity].
      unfold Sdk._poll_approval, bind.
      match goal with
      | |- context [Sdk.poll_loop env cfg ?n ?rid ?orig ?rod ?s0] =>
          destruct (sdk_poll_loop_frame env cfg rid orig rod n s0)
            as (k & r & _ & E & _); rewrite E
      end.
      destruct r as [[d|]|e]; simpl; rewrite sent_after_polls; simpl;
        eexists; reflexivity.
    + destruct (eq_str _ "allow").
      * unfold Sdk.cache_store, Sdk.set_cache. unfold_monad. simpl.
        destruct (OD.evict _ _); simpl;
          [destruct (eq_str _ "deny" && raise_on_deny)|];
          exists []; reflexivity.
      * simpl. destruct (eq_str _ "deny" && raise_on_deny);
          exists []; reflexivity.
Qed.

End MissSends.

(* ------------------------------------------------------------------ *)
(** ** C3: fail-open *)

Section FailOpen.

Variable env : Env.
Variable rcfg : Runtime.config.
Variable scfg : Sdk.config.
Hypothesis ropen : Runtime._fail_mode rcfg = "open".
Hypothesis sopen : Sdk._fail_mode scfg = "open".

Lemma runtime_fail_open_step action_type action_name arguments destination
      s s1 text :
  Runtime.cache_lookup env rcfg
    (Runtime._cache_key env action_type action_name arguments) s
  = (Ret None, s1) ->
  urlopen env (length (sent (world s1)))
          (Runtime.evaluate_request rcfg action_type action_name
                                    arguments destination)
  = Failed text ->
  Runtime.evaluate env rcfg action_type action_name arguments destination s
  = (Ret runtime_fail_open,
     St (Runtime.mkClient
           (Runtime._cache (self s1))
           (Runtime._audit_buffer (self s1)
              ++ [Runtime.mkEvent action_type action_name (or_empty arguments)
                    "allow" "fail-open"
                    (time_time env (clock_reads (world s1)))
                    (Runtime._agent_id rcfg)])%list)
        (tick (log_warning (fail_open_warning text)
                 (log_request
                    (Runtime.evaluate_request rcfg action_type action_name
                                              arguments destination)
                    (world s1))))).
Proof.
  intros Hl Hu. unfold Runtime.evaluate, bind. rewrite Hl.
  unfold try_except, do_urlopen. rewrite Hu.
  unfold Runtime.on_failure. rewrite ropen. reflexivity.
Qed.

Lemma sdk_fail_open_step action_type action_name arguments destination
      identity_name identity_roles protocol framework raise_on_deny
      s s1 text :
  Sdk.cache_lookup env scfg
    (Sdk._cache_key env action_type action_name arguments) s
  = (Ret None, s1) ->
  urlopen env (length (sent (world s1)))
          (Sdk.evaluate_request env scfg action_type action_name arguments
             destination identity_name identity_roles protocol framework)
  = Failed text ->
  Sdk.evaluate env scfg action_type action_name arguments destination
               identity_name identity_roles protocol framework raise_on_deny s
  = (Ret sdk_fail_open,
     St (self s1)
        (log_warning (fail_open_warning text)
           (log_request
              (Sdk.evaluate_request env scfg action_type action_name arguments
                 destination identity_name identity_roles protocol framework)
              (world s1)))).
Proof.
  intros Hl Hu. unfold Sdk.evaluate, bind. rewrite Hl.
  unfold try_except, do_urlopen. rewrite Hu.
  unfold Sdk.on_failure. rewrite sopen. reflexivity.
Qed.

End FailOpen.

(** C3 (amended).  Under [fail_mode = "open"], a call of [evaluate] whose
    cache lookup misses and whose transport request fails emits one warning
    and returns an Allow decision with reason ["fail-open"]; the runtime
    client also buffers one audit event recording the synthetic Allow, the
    SDK client, which keeps no audit buffer, records nothing.  The decision
    is not stored in the cache: the key is still absent afterwards, and a
    following [evaluate] of the same action sends its request to the server
    again. *)
Theorem C3_fail_open_not_cached
        (env : Env) (rcfg : Runtime.config) (scfg : Sdk.config)
        (action_type action_name : string) (arguments : option dict) :
  Runtime._fail_mode rcfg = "open" ->
  Sdk._fail_mode scfg = "open" ->
  (forall destination s s1 text,
      Runtime.cache_lookup env rcfg
        (Runtime._cache_key env action_type action_name arguments) s
      = (Ret None, s1) ->
      urlopen env (length (sent (world s1)))
              (Runtime.evaluate_request rcfg action_type action_name
                                        arguments destination)
      = Failed text ->
      exists s2,
        Runtime.evaluate env rcfg action_type action_name arguments
                         destination s
        = (Ret runtime_fail_open, s2)
        /\ buffered_one (self s) (self s2) "allow" "fail-open"
        /\ warned (world s2) = fail_open_warning text :: warned (world s1)
        /\ Runtime._cache (self s2) = Runtime._cache (self s1)
        /\ OD.get (Runtime._cache (self s2))
                  (Runtime._cache_key env action_type action_name arguments)
           = None
        /\ forall destination',
            exists later,
              sent (world (snd (Runtime.evaluate env rcfg action_type
                                  action_name arguments destination' s2)))
              = (later
                   ++ Runtime.evaluate_request rcfg action_type action_name
                                               arguments destination'
                   :: sent (world s2))%list)
  /\ (forall destination identity_name identity_roles protocol framework
             raise_on_deny s s1 text,
         Sdk.cache_lookup env scfg
           (Sdk._cache_key env action_type action_name arguments) s
         = (Ret None, s1) ->
         urlopen env (length (sent (world s1)))
                 (Sdk.evaluate_request env scfg action_type action_name
                    arguments destination identity_name identity_roles
                    protocol framework)
         = Failed text ->
         exists s2,
           Sdk.evaluate env scfg action_type action_name arguments destination
                        identity_name identity_roles protocol framework
                        raise_on_deny s
           = (Ret sdk_fail_open, s2)
           /\ warned (world s2) = fail_open_warning text :: warned (world s1)
           /\ self s2 = self s1
           /\ OD.get (Sdk._cache (self s2))
                     (Sdk._cache_key env action_type action_name arguments)
              = None
           /\ forall destination' identity_name' identity_roles' protocol'
                     framework' raise_on_deny',
               exists later,
                 sent (world (snd (Sdk.evaluate env scfg action_type
                                     action_name arguments destination'
                                     identity_name' identity_roles' protocol'
                                     framework' raise_on_deny' s2)))
                 = (later
                      ++ Sdk.evaluate_request env scfg action_type action_name
                           arguments destination' identity_name'
                           identity_roles' protocol' framework'
                      :: sent (world s2))%list).
Proof.
  intros ropen sopen. split.
  - intros destination s s1 text Hl Hu.
    destruct (runtime_lookup_miss env rcfg _ s s1 Hl) as (Hget & Haudit & _).
    eexists. split.
    + apply (runtime_fail_open_step env rcfg ropen _ _ _ _ s s1 text Hl Hu).
    + split; [|split; [reflexivity|split; [reflexivity|split; [exact Hget|]]]].
      * eexists.
        split; [unfold audit_trail, runtime_audited; simpl; rewrite Haudit;
                reflexivity
               |split; reflexivity].
      * intros destination'.
        match goal with
        | |- context [Runtime.evaluate _ _ _ _ _ _ ?s2] =>
            apply (runtime_miss_sends env rcfg _ _ _ destination' s2 s2)
        end.
        apply runtime_lookup_absent. exact Hget.
  - intros destination identity_name identity_roles protocol framework
           raise_on_deny s s1 text Hl Hu.
    destruct (sdk_lookup_miss env scfg _ s s1 Hl) as (Hget & _).
    eexists. split.
    + apply (sdk_fail_open_step env scfg sopen _ _ _ _ _ _ _ _ _ s s1 text
               Hl Hu).
    + split; [reflexivity|split; [reflexivity|split; [exact Hget|]]].
      intros destination' identity_name' identity_roles' protocol'
             framework' raise_on_deny'.
      match goal with
      | |- context [Sdk.evaluate _ _ _ _ _ _ _ _ _ _ _ ?s2] =>
          apply (sdk_miss_sends env scfg _ _ _ destination' identity_name'
                   identity_roles' protocol' framework' raise_on_deny' s2 s2)
      end.
      apply sdk_lookup_absent. exact Hget.
Qed.

Lemma C3_fail_open_not_cached_witness :
  let env := Mock.env [] in
  (exists s2,
      Mock.runtime_evaluate [] "open" "command_exec" "ls" Mock.runtime_start
      = (Ret runtime_fail_open, s2)
      /\ buffered_one (self Mock.runtime_start) (self s2) "allow" "fail-open"
      /\ Runtime._cache (self s2) = [])
  /\ (exists s2,
         Mock.sdk_evaluate [] "open" "command_exec" "ls" Mock.sdk_start
         = (Ret sdk_fail_open, s2)
         /\ self s2 = Sdk.fresh_client).
Proof.
  intros env.
  destruct (C3_fail_open_not_cached env (Mock.runtime_cfg "open")
              (Mock.sdk_cfg "open") "command_exec" "ls" None
              eq_refl eq_refl) as [R S].
  split.
  - destruct (R None Mock.runtime_start Mock.runtime_start "Connection refused"
                eq_refl eq_refl) as (s2 & E & B & _ & C & _).
    exists s2. split; [exact E|]. split; [exact B|exact C].
  - destruct (S None None None None None true Mock.sdk_start Mock.sdk_start
                "Connection refused" eq_refl eq_refl) as (s2 & E & _ & C & _).
    exists s2. split; [exact E|exact C].
Defined.

(** C3, as stated, fails on the SDK client: a fail-open call returns the
    Allow decision without any audit event having been buffered. *)
Lemma C3_sdk_buffers_no_audit_event :
  fst (Mock.sdk_evaluate [] "open" "command_exec" "ls" Mock.sdk_start)
  = Ret sdk_fail_open
  /\ ~ buffered_one
         (self Mock.sdk_start)
         (self (snd (Mock.sdk_evaluate [] "open" "command_exec" "ls"
                                       Mock.sdk_start)))
         "allow" "fail-open".
Proof.
  split; [reflexivity|].
  intros (ev & H & _). simpl in H. discriminate H.
Qed.

(* ------------------------------------------------------------------ *)
(** ** Responses that read as Allow are cached *)

Lemma eq_str_true v lit : eq_str v lit = true -> v = VStr lit.
Proof.
  destruct v; simpl; try discriminate. intros H.
  apply String.eqb_eq in H. subst; reflexivity.
Qed.

Lemma dict_get_missing d k default :
  dict_has d k = false -> dict_get d k default = default.
Proof.
  unfold dict_has. induction d as [|[k' v] d IH]; simpl; [reflexivity|].
  destruct (k' =? k)%string; simpl; [discriminate|exact IH].
Qed.

(** Storing under an absent key, with room for at least one entry, leaves
    the entry readable. *)
Lemma evict_set_get max_size (cache : OD.t (value * Z)) key e :
  (1 <= max_size)%Z ->
  OD.get cache key = None ->
  exists cache',
    OD.evict max_size (OD.set cache key e) = Ret cache'
    /\ OD.get cache' key = Some e.
Proof.
  intros Hmax Hget. rewrite set_absent by exact Hget.
  destruct (evict_keeps_last _ max_size cache (key, e) Hmax)
    as (pre & mid & Hsplit & E).
  exists (mid ++ [(key, e)])%list. split; [exact E|].
  apply get_app_last. subst cache. eapply get_none_suffix; exact Hget.
Qed.

Section AllowStep.

Variable env : Env.

(** A miss answered by a response that reads as Allow: the runtime client
    stores the response under the key, stamped with the clock, and returns
    it. *)
Lemma runtime_allow_step (cfg : Runtime.config)
      action_type action_name arguments destination s s1 resp :
  Runtime.cache_lookup env cfg
    (Runtime._cache_key env action_type action_name arguments) s
  = (Ret None, s1) ->
  urlopen env (length (sent (world s1)))
          (Runtime.evaluate_request cfg action_type action_name
                                    arguments destination)
  = Body (VDict resp) ->
  reads_as_allow (VDict resp) = true ->
  exists cache',
    Runtime.evaluate env cfg action_type action_name arguments destination s
    = (Ret (VDict resp),
       St (Runtime.mkClient cache' (Runtime._audit_buffer (self s1)))
          (tick (log_request
                   (Runtime.evaluate_request cfg action_type action_name
                                             arguments destination)
                   (world s1))))
    /\ OD.get cache'
              (Runtime._cache_key env action_type action_name arguments)
       = Some (VDict resp, time_time env (clock_reads (world s1))).
Proof.
  intros Hl Hu Ha.
  destruct (runtime_lookup_miss env cfg _ s s1 Hl) as (Hget & _).
  destruct (evict_set_get Runtime._cache_max (Runtime._cache (self s1))
              (Runtime._cache_key env action_type action_name arguments)
              (VDict resp, time_time env (clock_reads (world s1)))
              ltac:(unfold Runtime._cache_max; lia) Hget)
    as (cache' & Ev & Hget').
  exists cache'. split; [|exact Hget'].
  unfold Runtime.evaluate, bind. rewrite Hl.
  unfold try_except, do_urlopen. rewrite Hu.
  unfold Runtime.on_response. unfold_monad. simpl.
  unfold reads_as_allow, decision_of in Ha.
  rewrite (eq_str_true _ _ Ha). simpl.
  unfold Runtime.cache_store, Runtime.set_cache. unfold_monad. simpl.
  rewrite Ev. reflexivity.
Qed.

(** The same for the SDK client, whose cache bound is configurable. *)
Lemma sdk_allow_step (cfg : Sdk.config)
      action_type action_name arguments destination identity_name
      identity_roles protocol framework raise_on_deny s s1 resp :
  (1 <= Sdk._cache_max_size cfg)%Z ->
  Sdk.cache_lookup env cfg
    (Sdk._cache_key env action_type action_name arguments) s
  = (Ret None, s1) ->
  urlopen env (length (sent (world s1)))
          (Sdk.evaluate_request env cfg action_type action_name arguments
             destination identity_name identity_roles protocol framework)
  = Body (VDict resp) ->
  reads_as_allow (VDict resp) = true ->
  exists cache',
    Sdk.evaluate env cfg action_type action_name arguments destination
                 identity_name identity_roles protocol framework
                 raise_on_deny s
    = (Ret (VDict resp),
       St (Sdk.mkClient cache')
          (tick (log_request
                   (Sdk.evaluate_request env cfg action_type action_name
                      arguments destination identity_name identity_roles
                      protocol framework)
                   (world s1))))
    /\ OD.get cache' (Sdk._cache_key env action_type action_name arguments)
       = Some (VDict resp, time_time env (clock_reads (world s1))).
Proof.
  intros Hmax Hl Hu Ha.
  destruct (sdk_lookup_miss env cfg _ s s1 Hl) as (Hget & _).
  destruct (evict_set_get (Sdk._cache_max_size cfg) (Sdk._cache (self s1))
              (Sdk._cache_key env action_type action_name arguments)
              (VDict resp, time_time env (clock_reads (world s1)))
              Hmax Hget)
    as (cache' & Ev & Hget').
  exists cache'. split; [|exact Hget'].
  unfold Sdk.evaluate, bind. rewrite Hl.
  unfold try_except, do_urlopen. rewrite Hu.
  unfold Sdk.on_response. unfold_monad. simpl.
  unfold reads_as_allow, decision_of in Ha.
  rewrite (eq_str_true _ _ Ha). simpl.
  unfold Sdk.cache_store, Sdk.set_cache. unfold_monad. simpl.
  rewrite Ev. reflexivity.
Qed.

(** A miss answered by a dict whose decision is none of ["allow"],
    ["approval_required"] and, for a raising call, ["deny"]: the response is
    returned as it is and the cache is left alone. *)
Lemma runtime_other_step (cfg : Runtime.config)
      action_type action_name arguments destination s s1 resp :
  Runtime.cache_lookup env cfg
    (Runtime._cache_key env action_type action_name arguments) s
  = (Ret None, s1) ->
  urlopen env (length (sent (world s1)))
          (Runtime.evaluate_request cfg action_type action_name
                                    arguments destination)
  = Body (VDict resp) ->
  eq_str (dict_get resp "decision" (VStr "allow")) "approval_required" = false ->
  eq_str (dict_get resp "decision" (VStr "allow")) "allow" = false ->
  Runtime.evaluate env cfg action_type action_name arguments destination s
  = (Ret (VDict resp),
     St (self s1)
        (log_request
           (Runtime.evaluate_request cfg action_type action_name
                                     arguments destination)
           (world s1))).
Proof.
  intros Hl Hu Hap Hal.
  unfold Runtime.evaluate, bind. rewrite Hl.
  unfold try_except, do_urlopen. rewrite Hu.
  unfold Runtime.on_response. unfold_monad. simpl.
  rewrite Hap, Hal. reflexivity.
Qed.

Lemma sdk_other_step (cfg : Sdk.config)
      action_type action_name arguments destination identity_name
      identity_roles protocol framework raise_on_deny s s1 resp :
  Sdk.cache_lookup env cfg
    (Sdk._cache_key env action_type action_name arguments) s
  = (Ret None, s1) ->
  urlopen env (length (sent (world s1)))
          (Sdk.evaluate_request env cfg action_type action_name arguments
             destination identity_name identity_roles protocol framework)
  = Body (VDict resp) ->
  eq_str (dict_get resp "decision" (VStr "allow")) "approval_required" = false ->
  eq_str (dict_get resp "decision" (VStr "allow")) "allow" = false ->
  eq_str (dict_get resp "decision" (VStr "allow")) "deny" && raise_on_deny
  = false ->
  Sdk.evaluate env cfg action_type action_name arguments destination
               identity_name identity_roles protocol framework raise_on_deny s
  = (Ret (VDict resp),
     St (self s1)
        (log_request
           (Sdk.evaluate_request env cfg action_type action_name arguments
              destination identity_name identity_roles protocol framework)
           (world s1))).
Proof.
  intros Hl Hu Hap Hal Hde.
  unfold Sdk.evaluate, bind. rewrite Hl.
  unfold try_except, do_urlopen. rewrite Hu.
  unfold Sdk.on_response. unfold_monad. simpl.
  rewrite Hap, Hal. simpl. rewrite Hde. reflexivity.
Qed.

End AllowStep.

(* ------------------------------------------------------------------ *)
(** ** C9: responses without a usable decision *)

(** C9 (amended).  For a server response that decodes to a JSON object,
    [evaluate] never looks at the fail mode and does not raise: when the
    [decision] field is missing the response is read as ["allow"], stored in
    the cache and returned unchanged; when the field holds anything other
    than ["allow"], ["deny"] or ["approval_required"] the response is
    returned unchanged and nothing is cached.  (The SDK cache is taken to
    have room for at least one entry.) *)
Theorem C9_malformed_response_fallback
        (env : Env) (rcfg : Runtime.config) (scfg : Sdk.config)
        (action_type action_name : string) (arguments destination : option dict)
        (identity_name : option string) (identity_roles : option (list string))
        (protocol framework : option string) (raise_on_deny : bool)
        (rs rs1 : st Runtime.client) (ss ss1 : st Sdk.client)
        (resp : dict) :
  let rkey := Runtime._cache_key env action_type action_name arguments in
  let skey := Sdk._cache_key env action_type action_name arguments in
  let rreq := Runtime.evaluate_request rcfg action_type action_name
                                       arguments destination in
  let sreq := Sdk.evaluate_request env scfg action_type action_name
                arguments destination identity_name identity_roles
                protocol framework in
  let decision := dict_get resp "decision" (VStr "allow") in
  (1 <= Sdk._cache_max_size scfg)%Z ->
  Runtime.cache_lookup env rcfg rkey rs = (Ret None, rs1) ->
  Sdk.cache_lookup env scfg skey ss = (Ret None, ss1) ->
  urlopen env (length (sent (world rs1))) rreq = Body (VDict resp) ->
  urlopen env (length (sent (world ss1))) sreq = Body (VDict resp) ->
  (dict_has resp "decision" = false ->
   (exists cache',
       Runtime.evaluate env rcfg action_type action_name arguments
                        destination rs
       = (Ret (VDict resp),
          St (Runtime.mkClient cache' (Runtime._audit_buffer (self rs1)))
             (tick (log_request rreq (world rs1))))
       /\ OD.get cache' rkey
          = Some (VDict resp, time_time env (clock_reads (world rs1))))
   /\ (exists cache',
          Sdk.evaluate env scfg action_type action_name arguments destination
                       identity_name identity_roles protocol framework
                       raise_on_deny ss
          = (Ret (VDict resp),
             St (Sdk.mkClient cache') (tick (log_request sreq (world ss1))))
          /\ OD.get cache' skey
             = Some (VDict resp, time_time env (clock_reads (world ss1)))))
  /\ (eq_str decision "allow" = false ->
      eq_str decision "deny" = false ->
      eq_str decision "approval_required" = false ->
      Runtime.evaluate env rcfg action_type action_name arguments
                       destination rs
      = (Ret (VDict resp), St (self rs1) (log_request rreq (world rs1)))
      /\ Sdk.evaluate env scfg action_type action_name arguments destination
                      identity_name identity_roles protocol framework
                      raise_on_deny ss
         = (Ret (VDict resp), St (self ss1) (log_request sreq (world ss1)))).
Proof.
  intros rkey skey rreq sreq decision Hmax Hr Hs Ur Us. split.
  - intros Hmiss.
    assert (Ha : reads_as_allow (VDict resp) = true).
    { unfold reads_as_allow, decision_of.
      rewrite (dict_get_missing _ _ _ Hmiss). reflexivity. }
    split.
    + apply (runtime_allow_step env rcfg _ _ _ _ rs rs1 resp Hr Ur Ha).
    + apply (sdk_allow_step env scfg _ _ _ _ _ _ _ _ raise_on_deny ss ss1 resp
               Hmax Hs Us Ha).
  - intros Hal Hde Hap. split.
    + apply (runtime_other_step env rcfg _ _ _ _ rs rs1 resp Hr Ur Hap Hal).
    + apply (sdk_other_step env scfg _ _ _ _ _ _ _ _ raise_on_deny ss ss1 resp
               Hs Us Hap Hal).
      fold decision. rewrite Hde. reflexivity.
Qed.

Lemma C9_malformed_response_fallback_witness :
  let resp := [("decision", VStr "maybe"); ("reason", VStr "undecided")] in
  let env := Mock.env [Body (VDict resp)] in
  Runtime.evaluate env (Mock.runtime_cfg "closed") "command_exec" "ls"
                   None None Mock.runtime_start
  = (Ret (VDict resp),
     St Runtime.fresh_client
        (log_request (Runtime.evaluate_request (Mock.runtime_cfg "closed")
                        "command_exec" "ls" None None) fresh_world))
  /\ Sdk.evaluate env (Mock.sdk_cfg "closed") "command_exec" "ls"
                  None None None None None None true Mock.sdk_start
     = (Ret (VDict resp),
        St Sdk.fresh_client
           (log_request (Sdk.evaluate_request env (Mock.sdk_cfg "closed")
                           "command_exec" "ls" None None None None None None)
                        fresh_world)).
Proof.
  intros resp env.
  refine (proj2 (C9_malformed_response_fallback env
                   (Mock.runtime_cfg "closed") (Mock.sdk_cfg "closed")
                   "command_exec" "ls" None None None None None None true
                   Mock.runtime_start Mock.runtime_start
                   Mock.sdk_start Mock.sdk_start resp
                   _ eq_refl eq_refl eq_refl eq_refl)
                eq_refl eq_refl eq_refl).
  simpl. lia.
Defined.

(** C9, as stated, fails: under [fail_mode = "closed"] a response without a
    [decision] field is not blocked.  Both clients return it, the adapters
    read it as Allow, and it is cached. *)
Lemma C9_closed_mode_missing_decision_allowed :
  fst (Mock.runtime_evaluate [Body (VDict [])] "closed" "command_exec" "rm"
                             Mock.runtime_start)
  = Ret (VDict [])
  /\ Runtime.adapter_blocks [] = false
  /\ fst (Mock.sdk_evaluate [Body (VDict [])] "closed" "command_exec" "rm"
                            Mock.sdk_start)
     = Ret (VDict [])
  /\ OD.get (Runtime._cache
               (self (snd (Mock.runtime_evaluate [Body (VDict [])] "closed"
                             "command_exec" "rm" Mock.runtime_start))))
            ("command_exec", "rm", "")
     = Some (VDict [], 0%Z).
Proof. repeat split. Qed.

(* ------------------------------------------------------------------ *)
(** ** C10: what the cache key leaves out *)

(** C10.  The cache key is built from [action_type], [action_name] and
    [arguments] alone.  So once a call has cached the server's Allow for an
    action, a second call for the same action made within the TTL gets that
    very response from the cache, without any request being sent, even when
    it supplies another destination, identity name, identity roles, protocol
    or framework (for the runtime client, whose [evaluate] only takes a
    destination besides the action: another destination). *)
Theorem C10_cached_allow_ignores_identity
        (env : Env) (rcfg : Runtime.config) (scfg : Sdk.config)
        (action_type action_name : string) (arguments : option dict)
        (destination destination' : option dict)
        (identity_name identity_name' : option string)
        (identity_roles identity_roles' : option (list string))
        (protocol protocol' framework framework' : option string)
        (raise_on_deny raise_on_deny' : bool)
        (rs rs1 : st Runtime.client) (ss ss1 : st Sdk.client)
        (resp : dict) :
  let rkey := Runtime._cache_key env action_type action_name arguments in
  let skey := Sdk._cache_key env action_type action_name arguments in
  let rreq := Runtime.evaluate_request rcfg action_type action_name
                                       arguments destination in
  let sreq := Sdk.evaluate_request env scfg action_type action_name
                arguments destination identity_name identity_roles
                protocol framework in
  let rs2 := snd (Runtime.evaluate env rcfg action_type action_name arguments
                                   destination rs) in
  let ss2 := snd (Sdk.evaluate env scfg action_type action_name arguments
                               destination identity_name identity_roles
                               protocol framework raise_on_deny ss) in
  (1 <= Sdk._cache_max_size scfg)%Z ->
  Runtime.cache_lookup env rcfg rkey rs = (Ret None, rs1) ->
  Sdk.cache_lookup env scfg skey ss = (Ret None, ss1) ->
  urlopen env (length (sent (world rs1))) rreq = Body (VDict resp) ->
  urlopen env (length (sent (world ss1))) sreq = Body (VDict resp) ->
  reads_as_allow (VDict resp) = true ->
  (time_time env (clock_reads (world rs2))
   - time_time env (clock_reads (world rs1)) < Runtime._cache_ttl rcfg)%Z ->
  (time_time env (clock_reads (world ss2))
   - time_time env (clock_reads (world ss1)) < Sdk._cache_ttl scfg)%Z ->
  (exists rs3,
      Runtime.evaluate env rcfg action_type action_name arguments
                       destination' rs2
      = (Ret (VDict resp), rs3)
      /\ sent (world rs3) = sent (world rs2))
  /\ (exists ss3,
         Sdk.evaluate env scfg action_type action_name arguments destination'
                      identity_name' identity_roles' protocol' framework'
                      raise_on_deny' ss2
         = (Ret (VDict resp), ss3)
         /\ sent (world ss3) = sent (world ss2)).
Proof.
  intros rkey skey rreq sreq rs2 ss2 Hmax Hr Hs Ur Us Ha Tr Ts. split.
  - destruct (runtime_allow_step env rcfg _ _ _ destination rs rs1 resp
                Hr Ur Ha) as (cache' & E & Hget).
    subst rs2. rewrite E in *. cbn [snd] in *.
    eexists. split.
    + unfold Runtime.evaluate, bind.
      match goal with
      | |- context [Runtime.cache_lookup _ _ _ ?s2] =>
          rewrite (runtime_lookup_fresh env rcfg _ s2 _ _ Hget Tr)
      end.
      reflexivity.
    + reflexivity.
  - destruct (sdk_allow_step env scfg _ _ _ destination identity_name
                identity_roles protocol framework raise_on_deny ss ss1 resp
                Hmax Hs Us Ha) as (cache' & E & Hget).
    subst ss2. rewrite E in *. cbn [snd] in *.
    eexists. split.
    + unfold Sdk.evaluate, bind.
      match goal with
      | |- context [Sdk.cache_lookup _ _ _ ?s2] =>
          rewrite (sdk_lookup_fresh env scfg _ s2 _ _ Hget Ts)
      end.
      reflexivity.
    + reflexivity.
Qed.

Lemma C10_cached_allow_ignores_identity_witness :
  let env := Mock.env [Body (VDict Mock.allow_response)] in
  let example_com := Some [("domain", VStr "example.com")] in
  let rs2 := snd (Mock.runtime_evaluate [Body (VDict Mock.allow_response)]
                    "open" "http_request" "GET" Mock.runtime_start) in
  let ss2 := snd (Mock.sdk_evaluate [Body (VDict Mock.allow_response)]
                    "open" "http_request" "GET" Mock.sdk_start) in
  (exists rs3,
      Runtime.evaluate env (Mock.runtime_cfg "open") "http_request" "GET"
                       None example_com rs2
      = (Ret (VDict Mock.allow_response), rs3)
      /\ sent (world rs3) = sent (world rs2))
  /\ (exists ss3,
         Sdk.evaluate env (Mock.sdk_cfg "open") "http_request" "GET" None
                      example_com (Some "intruder") (Some ["admin"])
                      (Some "mcp") (Some "langchain") false ss2
         = (Ret (VDict Mock.allow_response), ss3)
         /\ sent (world ss3) = sent (world ss2)).
Proof.
  intros env example_com rs2 ss2.
  apply (C10_cached_allow_ignores_identity env (Mock.runtime_cfg "open")
           (Mock.sdk_cfg "open") "http_request" "GET" None
           None example_com None (Some "intruder") None (Some ["admin"])
           None (Some "mcp") None (Some "langchain") true false
           Mock.runtime_start Mock.runtime_start Mock.sdk_start Mock.sdk_start
           Mock.allow_response);
    solve [reflexivity | vm_compute; reflexivity | simpl; lia].
Defined.

(* ------------------------------------------------------------------ *)
(** ** C6: the TTL boundary *)

(** Eviction pops from the front only: of a cache whose newest entry is [x]
    it leaves nothing at all, or a tail that still ends in [x]. *)
Lemma evict_app_last (V : Type) max_size (od : OD.t V) (x : OD.key * V) c :
  OD.evict max_size (od ++ [x])%list = Ret c ->
  c = [] \/ exists pre mid, od = (pre ++ mid)%list /\ c = (mid ++ [x])%list.
Proof.
  induction od as [|y od IH].
  - cbn [app OD.evict].
    destruct (Z.of_nat (length [x]) >? max_size)%Z.
    + destruct (Z.of_nat (length (@nil (OD.key * V))) >? max_size)%Z;
        [discriminate|].
      intros H; injection H as <-. left; reflexivity.
    + intros H; injection H as <-. right. exists [], []. split; reflexivity.
  - cbn [app OD.evict].
    destruct (Z.of_nat (length (y :: od ++ [x])) >? max_size)%Z.
    + intros H. destruct (IH H) as [->|(pre & mid & -> & ->)];
        [left; reflexivity|].
      right. exists (y :: pre), mid. split; reflexivity.
    + intros H; injection H as <-. right. exists [], (y :: od).
      split; reflexivity.
Qed.

(** Storing under an absent key and evicting leaves the key unbound or bound
    to the entry just stored. *)
Lemma evict_set_fresh (V : Type) max_size (od : OD.t V) k (v : V) c :
  OD.get od k = None ->
  OD.evict max_size (OD.set od k v) = Ret c ->
  OD.get c k = None \/ OD.get c k = Some v.
Proof.
  intros Hget. rewrite set_absent by exact Hget. intros E.
  destruct (evict_app_last V max_size od (k, v) c E)
    as [->|(pre & mid & -> & ->)]; [left; reflexivity|].
  right. apply get_app_last. eapply get_none_suffix; exact Hget.
Qed.

Section AfterMiss.

Variable env : Env.

(** What a miss leaves under the key in the runtime client: when the key is
    unbound as the request goes out, it is unbound after the call too, unless
    the server answered with an Allow decision, which is then what the key
    holds, stamped with the clock reading made while storing it. *)
Lemma runtime_after_miss_entry (cfg : Runtime.config)
      action_type action_name arguments destination s1 :
  let key := Runtime._cache_key env action_type action_name arguments in
  let req := Runtime.evaluate_request cfg action_type action_name
                                      arguments destination in
  let final :=
    snd (try_except (do_urlopen env req)
           (Runtime.on_failure env cfg action_type action_name arguments)
           (Runtime.on_response env cfg key) s1) in
  OD.get (Runtime._cache (self s1)) key = None ->
  OD.get (Runtime._cache (self final)) key = None
  \/ exists resp,
      urlopen env (length (sent (world s1))) req = Body (VDict resp)
      /\ reads_as_allow (VDict resp) = true
      /\ OD.get (Runtime._cache (self final)) key
         = Some (VDict resp, time_time env (clock_reads (world s1))).
Proof.
  intros key req final Hget. subst final. unfold try_except, do_urlopen.
  destruct (urlopen env _ _) as [text|v].
  - left. unfold Runtime.on_failure.
    destruct (_ =? _)%string; simpl; exact Hget.
  - unfold Runtime.on_response. unfold_monad.
    destruct v; simpl; try (left; exact Hget).
    destruct (eq_str _ "approval_required").
    + left. destruct (truthy _); [|exact Hget].
      match goal with
      | |- context [Runtime._poll_approval env cfg ?rid ?orig ?s0] =>
          destruct (runtime_poll_approval_frame env cfg rid orig s0)
            as (k & d & _ & E); rewrite E
      end.
      simpl. exact Hget.
    + destruct (eq_str _ "allow") eqn:Ha; [|left; exact Hget].
      unfold Runtime.cache_store, Runtime.set_cache. unfold_monad. simpl.
      destruct (OD.evict _ _) as [c|e] eqn:Ev; simpl; [|left; reflexivity].
      destruct (evict_set_fresh _ _ _ _ _ _ Hget Ev) as [N|S];
        [left; exact N|].
      right. eexists. split; [reflexivity|]. split; [exact Ha|exact S].
Qed.

(** The same for the SDK client. *)
Lemma sdk_after_miss_entry (cfg : Sdk.config)
      action_type action_name arguments destination identity_name
      identity_roles protocol framework raise_on_deny s1 :
  let key := Sdk._cache_key env action_type action_name arguments in
  let req := Sdk.evaluate_request env cfg action_type action_name arguments
               destination identity_name identity_roles protocol framework in
  let final :=
    snd (try_except (do_urlopen env req) (Sdk.on_failure cfg)
           (Sdk.on_response env cfg key raise_on_deny) s1) in
  OD.get (Sdk._cache (self s1)) key = None ->
  OD.get (Sdk._cache (self final)) key = None
  \/ exists resp,
      urlopen env (length (sent (world s1))) req = Body (VDict resp)
      /\ reads_as_allow (VDict resp) = true
      /\ OD.get (Sdk._cache (self final)) key
         = Some (VDict resp, time_time env (clock_reads (world s1))).
Proof.
  intros key req final Hget. subst final. unfold try_except, do_urlopen.
  destruct (urlopen env _ _) as [text|v].
  - left. unfold Sdk.on_failure.
    destruct (_ =? _)%string; simpl; exact Hget.
  - unfold Sdk.on_response. unfold_monad.
    destruct v as [|b|n|str|l|resp]; simpl; try (left; exact Hget).
    destruct (eq_str _ "approval_required").
    + left. destruct (truthy _); [|exact Hget].
      unfold Sdk._poll_approval, bind.
      match goal with
      | |- context [Sdk.poll_loop env cfg ?n ?rid ?orig ?rod ?s0] =>
          destruct (sdk_poll_loop_frame env cfg rid orig rod n s0)
            as (k & r & _ & E & _); rewrite E
      end.
      destruct r as [[d|]|e]; simpl; exact Hget.
    + destruct (eq_str _ "allow") eqn:Ha.
      * unfold Sdk.cache_store, Sdk.set_cache. unfold_monad. simpl.
        destruct (OD.evict _ _) as [c|e] eqn:Ev; simpl; [|left; reflexivity].
        assert (Hc : OD.get c key = None
                     \/ OD.get c key
                        = Some (VDict resp, time_time env (clock_reads (world s1))))
          by exact (evict_set_fresh _ _ _ _ _ _ Hget Ev).
        destruct (eq_str _ "deny" && raise_on_deny); simpl;
          (destruct Hc as [N|S]; [left; exact N|]);
          right; eexists; (split; [reflexivity|]); (split; [exact Ha|exact S]).
      * left. simpl. destruct (eq_str _ "deny" && raise_on_deny); exact Hget.
Qed.

End AfterMiss.

(** C6.  When [evaluate] finds a cache entry for the key whose age
    [now - recorded_at] has reached the TTL ([>=], the boundary included),
    the lookup is a miss and deletes the entry, and [evaluate] itself goes
    on from the state in which the entry is gone: it sends its evaluation
    request to the server and handles the reply there.  When the call is
    over the key is unbound, unless the server's reply to this very request
    was an Allow decision, in which case the key holds that reply, stamped
    with the clock reading made after the lookup's; the expired entry is not
    kept in either case.  This holds for both clients. *)
Theorem C6_expired_entry_is_refetched
        (env : Env) (rcfg : Runtime.config) (scfg : Sdk.config)
        (action_type action_name : string) (arguments destination : option dict)
        (identity_name : option string) (identity_roles : option (list string))
        (protocol framework : option string) (raise_on_deny : bool)
        (rs : st Runtime.client) (ss : st Sdk.client)
        (rd sd : value) (rt stamp : Z) :
  let rkey := Runtime._cache_key env action_type action_name arguments in
  let skey := Sdk._cache_key env action_type action_name arguments in
  let rreq := Runtime.evaluate_request rcfg action_type action_name
                                       arguments destination in
  let sreq := Sdk.evaluate_request env scfg action_type action_name
                arguments destination identity_name identity_roles
                protocol framework in
  let rmiss := St (Runtime.mkClient (OD.del (Runtime._cache (self rs)) rkey)
                                    (Runtime._audit_buffer (self rs)))
                  (tick (world rs)) in
  let smiss := St (Sdk.mkClient (OD.del (Sdk._cache (self ss)) skey))
                  (tick (world ss)) in
  let rrun := Runtime.evaluate env rcfg action_type action_name
                               arguments destination rs in
  let srun := Sdk.evaluate env scfg action_type action_name arguments
                destination identity_name identity_roles protocol framework
                raise_on_deny ss in
  OD.get (Runtime._cache (self rs)) rkey = Some (rd, rt) ->
  OD.get (Sdk._cache (self ss)) skey = Some (sd, stamp) ->
  (Runtime._cache_ttl rcfg <= time_time env (clock_reads (world rs)) - rt)%Z ->
  (Sdk._cache_ttl scfg <= time_time env (clock_reads (world ss)) - stamp)%Z ->
  (Runtime.cache_lookup env rcfg rkey rs = (Ret None, rmiss)
   /\ OD.get (OD.del (Runtime._cache (self rs)) rkey) rkey = None
   /\ (exists later,
         sent (world (snd rrun)) = (later ++ rreq :: sent (world rs))%list)
   /\ rrun
      = try_except (do_urlopen env rreq)
          (Runtime.on_failure env rcfg action_type action_name arguments)
          (Runtime.on_response env rcfg rkey) rmiss
   /\ (OD.get (Runtime._cache (self (snd rrun))) rkey = None
       \/ exists resp,
           urlopen env (length (sent (world rs))) rreq = Body (VDict resp)
           /\ reads_as_allow (VDict resp) = true
           /\ OD.get (Runtime._cache (self (snd rrun))) rkey
              = Some (VDict resp,
                      time_time env (S (clock_reads (world rs))))))
  /\ (Sdk.cache_lookup env scfg skey ss = (Ret None, smiss)
      /\ OD.get (OD.del (Sdk._cache (self ss)) skey) skey = None
      /\ (exists later,
            sent (world (snd srun)) = (later ++ sreq :: sent (world ss))%list)
      /\ srun
         = try_except (do_urlopen env sreq) (Sdk.on_failure scfg)
             (Sdk.on_response env scfg skey raise_on_deny) smiss
      /\ (OD.get (Sdk._cache (self (snd srun))) skey = None
          \/ exists resp,
              urlopen env (length (sent (world ss))) sreq = Body (VDict resp)
              /\ reads_as_allow (VDict resp) = true
              /\ OD.get (Sdk._cache (self (snd srun))) skey
                 = Some (VDict resp,
                         time_time env (S (clock_reads (world ss)))))).
Proof.
  intros rkey skey rreq sreq rmiss smiss rrun srun Gr Gs Tr Ts. split.
  - assert (E := runtime_lookup_expired env rcfg rkey rs rd rt Gr Tr).
    assert (R : rrun
                = try_except (do_urlopen env rreq)
                    (Runtime.on_failure env rcfg action_type action_name
                                        arguments)
                    (Runtime.on_response env rcfg rkey) rmiss).
    { subst rrun. unfold Runtime.evaluate, bind. fold rkey. rewrite E.
      reflexivity. }
    split; [exact E|]. split; [apply get_del_same|].
    split; [exact (runtime_miss_sends env rcfg _ _ _ destination rs _ E)|].
    split; [exact R|]. rewrite R.
    exact (runtime_after_miss_entry env rcfg action_type action_name
             arguments destination rmiss
             (get_del_same _ (Runtime._cache (self rs)) rkey)).
  - assert (E := sdk_lookup_expired env scfg skey ss sd stamp Gs Ts).
    assert (R : srun
                = try_except (do_urlopen env sreq) (Sdk.on_failure scfg)
                    (Sdk.on_response env scfg skey raise_on_deny) smiss).
    { subst srun. unfold Sdk.evaluate, bind. fold skey. rewrite E.
      reflexivity. }
    split; [exact E|]. split; [apply get_del_same|].
    split; [exact (sdk_miss_sends env scfg _ _ _ destination identity_name
                     identity_roles protocol framework raise_on_deny ss _ E)|].
    split; [exact R|]. rewrite R.
    exact (sdk_after_miss_entry env scfg action_type action_name arguments
             destination identity_name identity_roles protocol framework
             raise_on_deny smiss
             (get_del_same _ (Sdk._cache (self ss)) skey)).
Qed.

Lemma C6_expired_entry_is_refetched_witness :
  let env := Mock.env [Body (VDict Mock.deny_response)] in
  let key := ("command_exec", "echo", "") in
  let entry := (key, (VDict Mock.allow_response, 0%Z)) in
  let at_five := mkWorld [] 5 [] [] in
  let rs := St (Runtime.mkClient [entry] []) at_five in
  let ss := St (Sdk.mkClient [entry]) at_five in
  let rrun := Runtime.evaluate env (Mock.runtime_cfg "open")
                "command_exec" "echo" None None rs in
  let srun := Sdk.evaluate env (Mock.sdk_cfg "open")
                "command_exec" "echo" None None None None None None false ss in
  (Runtime.cache_lookup env (Mock.runtime_cfg "open") key rs
   = (Ret None, St (Runtime.mkClient [] []) (tick at_five))
   /\ (exists later,
         sent (world (snd rrun))
         = (later
              ++ [Runtime.evaluate_request (Mock.runtime_cfg "open")
                    "command_exec" "echo" None None])%list)
   /\ OD.get (Runtime._cache (self (snd rrun))) key = None)
  /\ (Sdk.cache_lookup env (Mock.sdk_cfg "open") key ss
      = (Ret None, St (Sdk.mkClient []) (tick at_five))
      /\ (exists later,
            sent (world (snd srun))
            = (later
                 ++ [Sdk.evaluate_request env (Mock.sdk_cfg "open")
                       "command_exec" "echo" None None None None None
                       None])%list)
      /\ OD.get (Sdk._cache (self (snd srun))) key = None).
Proof.
  intros env key entry at_five rs ss rrun srun.
  destruct (C6_expired_entry_is_refetched env (Mock.runtime_cfg "open")
              (Mock.sdk_cfg "open") "command_exec" "echo" None None
              None None None None false rs ss
              (VDict Mock.allow_response) (VDict Mock.allow_response) 0%Z 0%Z
              eq_refl eq_refl ltac:(simpl; lia) ltac:(simpl; lia))
    as [(R1 & _ & R3 & _ & R5) (S1 & _ & S3 & _ & S5)].
  split; (split; [assumption|]); (split; [assumption|]).
  - destruct R5 as [N|(resp & U & A & _)]; [exact N|].
    vm_compute in U. injection U as <-. vm_compute in A. discriminate A.
  - destruct S5 as [N|(resp & U & A & _)]; [exact N|].
    vm_compute in U. injection U as <-. vm_compute in A. discriminate A.
Defined.

(* ------------------------------------------------------------------ *)
(** ** C5: what gets into the cache *)

Section OnlyAllow.

Variable env : Env.

(** [evaluate] of the runtime client keeps the cache free of anything that
    does not read as Allow. *)
Lemma runtime_evaluate_only_allow (cfg : Runtime.config)
      action_type action_name arguments destination s :
  only_allow (Runtime._cache (self s)) ->
  only_allow (Runtime._cache
                (self (snd (Runtime.evaluate env cfg action_type action_name
                                             arguments destination s)))).
Proof.
  intros Inv. unfold Runtime.evaluate, bind.
  destruct (runtime_lookup_frame env cfg
              (Runtime._cache_key env action_type action_name arguments) s)
    as (r & s1 & E & _ & _ & Inv1).
  rewrite E. destruct (Inv1 Inv) as [Inv' _]. clear Inv1 E.
  destruct r as [d|]; [exact Inv'|].
  unfold try_except, do_urlopen.
  destruct (urlopen env _ _) as [text|v].
  - unfold Runtime.on_failure.
    destruct (_ =? _)%string; exact Inv'.
  - unfold Runtime.on_response. unfold_monad.
    destruct v; simpl; try exact Inv'.
    destruct (eq_str _ "approval_required").
    + destruct (truthy _); [|exact Inv'].
      match goal with
      | |- context [Runtime._poll_approval env cfg ?rid ?orig ?s0] =>
          destruct (runtime_poll_approval_frame env cfg rid orig s0)
            as (k & d & _ & E); rewrite E
      end.
      exact Inv'.
    + destruct (eq_str _ "allow") eqn:Ha; [|exact Inv'].
      unfold Runtime.cache_store, Runtime.set_cache. unfold_monad. simpl.
      destruct (OD.evict _ _) as [c|e] eqn:Ev; simpl; [|constructor].
      eapply only_allow_evict; [|exact Ev].
      apply only_allow_set; [exact Inv'|exact Ha].
Qed.

(** The same for the SDK client. *)
Lemma sdk_evaluate_only_allow (cfg : Sdk.config)
      action_type action_name arguments destination identity_name
      identity_roles protocol framework raise_on_deny s :
  only_allow (Sdk._cache (self s)) ->
  only_allow (Sdk._cache
                (self (snd (Sdk.evaluate env cfg action_type action_name
                              arguments destination identity_name
                              identity_roles protocol framework
                              raise_on_deny s)))).
Proof.
  intros Inv. unfold Sdk.evaluate, bind.
  destruct (sdk_lookup_frame env cfg
              (Sdk._cache_key env action_type action_name arguments) s)
    as (r & s1 & E & _ & Inv1).
  rewrite E. destruct (Inv1 Inv) as [Inv' _]. clear Inv1 E.
  destruct r as [d|]; [exact Inv'|].
  unfold try_except, do_urlopen.
  destruct (urlopen env _ _) as [text|v].
  - unfold Sdk.on_failure.
    destruct (_ =? _)%string; exact Inv'.
  - unfold Sdk.on_response. unfold_monad.
    destruct v; simpl; try exact Inv'.
    destruct (eq_str _ "approval_required").
    + destruct (truthy _); [|exact Inv'].
      unfold Sdk._poll_approval, bind.
      match goal with
      | |- context [Sdk.poll_loop env cfg ?n ?rid ?orig ?rod ?s0] =>
          destruct (sdk_poll_loop_frame env cfg rid orig rod n s0)
            as (k & r & _ & E & _); rewrite E
      end.
      destruct r as [[d|]|e]; exact Inv'.
    + destruct (eq_str _ "allow") eqn:Ha.
      * unfold Sdk.cache_store, Sdk.set_cache. unfold_monad. simpl.
        destruct (OD.evict _ _) as [c|e] eqn:Ev; simpl; [|constructor].
        assert (only_allow c).
        { eapply only_allow_evict; [|exact Ev].
          apply only_allow_set; [exact Inv'|exact Ha]. }
        destruct (eq_str _ "deny" && raise_on_deny); assumption.
      * simpl. destruct (eq_str _ "deny" && raise_on_deny); exact Inv'.
Qed.

(** A miss answered by a response that does not read as Allow leaves the
    runtime client as the lookup left it. *)
Lemma runtime_not_allow_keeps_self (cfg : Runtime.config)
      action_type action_name arguments destination s s1 resp :
  Runtime.cache_lookup env cfg
    (Runtime._cache_key env action_type action_name arguments) s
  = (Ret None, s1) ->
  urlopen env (length (sent (world s1)))
          (Runtime.evaluate_request cfg action_type action_name
                                    arguments destination)
  = Body (VDict resp) ->
  reads_as_allow (VDict resp) = false ->
  self (snd (Runtime.evaluate env cfg action_type action_name arguments
                              destination s))
  = self s1.
Proof.
  intros Hl Hu Ha. unfold Runtime.evaluate, bind. rewrite Hl.
  unfold try_except, do_urlopen. rewrite Hu.
  unfold Runtime.on_response. unfold_monad. simpl.
  unfold reads_as_allow, decision_of in Ha. rewrite Ha.
  destruct (eq_str _ "approval_required"); [|reflexivity].
  destruct (truthy _); [|reflexivity].
  match goal with
  | |- context [Runtime._poll_approval env cfg ?rid ?orig ?s0] =>
      destruct (runtime_poll_approval_frame env cfg rid orig s0)
        as (k & d & _ & E); rewrite E
  end.
  reflexivity.
Qed.

Lemma sdk_not_allow_keeps_self (cfg : Sdk.config)
      action_type action_name arguments destination identity_name
      identity_roles protocol framework raise_on_deny s s1 resp :
  Sdk.cache_lookup env cfg
    (Sdk._cache_key env action_type action_name arguments) s
  = (Ret None, s1) ->
  urlopen env (length (sent (world s1)))
          (Sdk.evaluate_request env cfg action_type action_name arguments
             destination identity_name identity_roles protocol framework)
  = Body (VDict resp) ->
  reads_as_allow (VDict resp) = false ->
  self (snd (Sdk.evaluate env cfg action_type action_name arguments
                          destination identity_name identity_roles protocol
                          framework raise_on_deny s))
  = self s1.
Proof.
  intros Hl Hu Ha. unfold Sdk.evaluate, bind. rewrite Hl.
  unfold try_except, do_urlopen. rewrite Hu.
  unfold Sdk.on_response. unfold_monad. simpl.
  unfold reads_as_allow, decision_of in Ha. rewrite Ha.
  destruct (eq_str _ "approval_required").
  - destruct (truthy _); [|reflexivity].
    unfold Sdk._poll_approval, bind.
    match goal with
    | |- context [Sdk.poll_loop env cfg ?n ?rid ?orig ?rod ?s0] =>
        destruct (sdk_poll_loop_frame env cfg rid orig rod n s0)
          as (k & r & _ & E & _); rewrite E
    end.
    destruct r as [[d|]|e]; reflexivity.
  - simpl. destruct (eq_str _ "deny" && raise_on_deny); reflexivity.
Qed.

End OnlyAllow.

(** An invariant of single calls is an invariant of runs. *)
Lemma run_all_invariant {C : Type} (step : call -> M C value)
      (P : st C -> Prop) :
  (forall c s, P s -> P (snd (step c s))) ->
  forall calls s, P s -> P (snd (run_all step calls s)).
Proof.
  intros Hstep calls. induction calls as [|c calls IH]; intros s Hs; simpl.
  - exact Hs.
  - specialize (Hstep c s Hs). destruct (step c s) as [r s1]. simpl in Hstep.
    specialize (IH s1 Hstep). destruct (run_all step calls s1) as [rs s2].
    exact IH.
Qed.

(** C5.  Only responses that read as Allow are ever inserted into the
    decision cache: in every state a client reaches from its creation, each
    cached entry reads as Allow.  A response whose decision is Deny or
    ApprovalRequired (anything that does not read as Allow) leaves the
    client as the cache lookup left it, with no entry for the action, so the
    next evaluation of the same action sends its request to the server
    again. *)
Theorem C5_only_allow_is_cached
        (env : Env) (rcfg : Runtime.config) (scfg : Sdk.config) :
  (forall calls w,
      only_allow
        (Runtime._cache
           (self (snd (run_all (runtime_call env rcfg) calls
                               (St Runtime.fresh_client w))))))
  /\ (forall calls w,
         only_allow
           (Sdk._cache
              (self (snd (run_all (sdk_call env scfg) calls
                                  (St Sdk.fresh_client w))))))
  /\ (forall action_type action_name arguments destination destination'
             s s1 resp,
         Runtime.cache_lookup env rcfg
           (Runtime._cache_key env action_type action_name arguments) s
         = (Ret None, s1) ->
         urlopen env (length (sent (world s1)))
                 (Runtime.evaluate_request rcfg action_type action_name
                                           arguments destination)
         = Body (VDict resp) ->
         reads_as_allow (VDict resp) = false ->
         let s2 := snd (Runtime.evaluate env rcfg action_type action_name
                                         arguments destination s) in
         self s2 = self s1
         /\ OD.get (Runtime._cache (self s2))
                   (Runtime._cache_key env action_type action_name arguments)
            = None
         /\ exists later,
             sent (world (snd (Runtime.evaluate env rcfg action_type
                                 action_name arguments destination' s2)))
             = (later
                  ++ Runtime.evaluate_request rcfg action_type action_name
                                              arguments destination'
                  :: sent (world s2))%list)
  /\ (forall action_type action_name arguments destination destination'
             identity_name identity_name' identity_roles identity_roles'
             protocol protocol' framework framework'
             raise_on_deny raise_on_deny' s s1 resp,
         Sdk.cache_lookup env scfg
           (Sdk._cache_key env action_type action_name arguments) s
         = (Ret None, s1) ->
         urlopen env (length (sent (world s1)))
                 (Sdk.evaluate_request env scfg action_type action_name
                    arguments destination identity_name identity_roles
                    protocol framework)
         = Body (VDict resp) ->
         reads_as_allow (VDict resp) = false ->
         let s2 := snd (Sdk.evaluate env scfg action_type action_name
                          arguments destination identity_name identity_roles
                          protocol framework raise_on_deny s) in
         self s2 = self s1
         /\ OD.get (Sdk._cache (self s2))
                   (Sdk._cache_key env action_type action_name arguments)
            = None
         /\ exists later,
             sent (world (snd (Sdk.evaluate env scfg action_type action_name
                                 arguments destination' identity_name'
                                 identity_roles' protocol' framework'
                                 raise_on_deny' s2)))
             = (later
                  ++ Sdk.evaluate_request env scfg action_type action_name
                       arguments destination' identity_name' identity_roles'
                       protocol' framework'
                  :: sent (world s2))%list).
Proof.
  split; [|split; [|split]].
  - intros calls w.
    apply (run_all_invariant (runtime_call env rcfg)
             (fun s => only_allow (Runtime._cache (self s)))).
    + intros c s. apply runtime_evaluate_only_allow.
    + constructor.
  - intros calls w.
    apply (run_all_invariant (sdk_call env scfg)
             (fun s => only_allow (Sdk._cache (self s)))).
    + intros c s. apply sdk_evaluate_only_allow.
    + constructor.
  - intros action_type action_name arguments destination destination'
           s s1 resp Hl Hu Ha s2.
    assert (Hself : self s2 = self s1)
      by apply (runtime_not_allow_keeps_self env rcfg _ _ _ _ s s1 resp
                  Hl Hu Ha).
    destruct (runtime_lookup_miss env rcfg _ s s1 Hl) as (Hget & _).
    rewrite <- Hself in Hget.
    split; [exact Hself|]. split; [exact Hget|].
    apply (runtime_miss_sends env rcfg _ _ _ destination' s2 s2).
    apply runtime_lookup_absent. exact Hget.
  - intros action_type action_name arguments destination destination'
           identity_name identity_name' identity_roles identity_roles'
           protocol protocol' framework framework'
           raise_on_deny raise_on_deny' s s1 resp Hl Hu Ha s2.
    assert (Hself : self s2 = self s1)
      by apply (sdk_not_allow_keeps_self env scfg _ _ _ _ _ _ _ _ _ s s1 resp
                  Hl Hu Ha).
    destruct (sdk_lookup_miss env scfg _ s s1 Hl) as (Hget & _).
    rewrite <- Hself in Hget.
    split; [exact Hself|]. split; [exact Hget|].
    apply (sdk_miss_sends env scfg _ _ _ destination' identity_name'
             identity_roles' protocol' framework' raise_on_deny' s2 s2).
    apply sdk_lookup_absent. exact Hget.
Qed.

(** Two consecutive evaluations of a denied action, as in the test suite:
    both reach the server. *)
Example deny_twice_hits_network_twice :
  let replies := [Body (VDict Mock.deny_response);
                  Body (VDict Mock.deny_response)] in
  let rm := mkCall "command_exec" "rm" None None None None None None true in
  length (sent (world (snd (run_all (sdk_call (Mock.env replies)
                                              (Mock.sdk_cfg "open"))
                                    [rm; rm] Mock.sdk_start)))) = 2%nat
  /\ length (sent (world (snd (run_all (runtime_call (Mock.env replies)
                                          (Mock.runtime_cfg "open"))
                                       [rm; rm] Mock.runtime_start)))) = 2%nat.
Proof. split; reflexivity. Qed.

(* ------------------------------------------------------------------ *)
(** ** C4: one wait before each poll *)


Section Approved.

Variable env : Env.
Variable request_id : value.
Variable original_response : dict.



End Approved.




(** The scenario of [test_approval_required_polling]: one pending reply and
    then the approval make two sleeps. *)
Example approval_required_polling :
  let replies := [Body (VDict Mock.eval_response);
                  Body (VDict Mock.pending_response);
                  Body (VDict Mock.approved_response)] in
  let srun := Mock.sdk_evaluate replies "open" "command_exec" "deploy"
                                Mock.sdk_start in
  fst srun = Ret (sdk_approved (VStr "req-approval-1") Mock.eval_response)
  /\ length (slept (world (snd srun))) = 2%nat.
Proof. split; reflexivity. Qed.

(* ------------------------------------------------------------------ *)
(** ** C7: the cache key and the order of the arguments *)

Section KeyOrder.

Lemma ltb_lt a b : String.ltb a b = true <-> String_as_OT.lt a b.
Proof.
  unfold String.ltb. rewrite <- String_as_OT.cmp_lt.
  unfold String_as_OT.cmp. destruct (String.compare a b); split;
    solve [reflexivity | discriminate].
Qed.

Lemma ltb_trans a b c :
  String.ltb a b = true -> String.ltb b c = true -> String.ltb a c = true.
Proof.
  rewrite !ltb_lt. apply String_as_OT.lt_trans.
Qed.

(** Two distinct strings are ordered one way and not the other. *)
Lemma ltb_total a b : a <> b -> String.ltb a b = negb (String.ltb b a).
Proof.
  intros Hne. unfold String.ltb. rewrite (String.compare_antisym b a).
  destruct (String.compare a b) eqn:E; simpl; try reflexivity.
  apply String.compare_eq_iff in E. contradiction.
Qed.

(** [b <= a] and [a < c] give [b < c]. *)
Lemma not_ltb_trans a b c :
  String.ltb a b = false -> String.ltb a c = true -> String.ltb b c = true.
Proof.
  intros Hab Hac.
  destruct (String.eqb_spec a b) as [->|Hne]; [exact Hac|].
  rewrite (ltb_total a b Hne) in Hab. apply negb_false_iff in Hab.
  exact (ltb_trans _ _ _ Hab Hac).
Qed.

(** Inserting two items with different keys gives the same list in either
    order. *)
Lemma insert_comm x y l :
  fst x <> fst y -> insert x (insert y l) = insert y (insert x l).
Proof.
  intros Hne. induction l as [|z l IH]; simpl; unfold item_lt.
  - rewrite (ltb_total (fst y) (fst x)) by congruence.
    destruct (String.ltb (fst x) (fst y)); reflexivity.
  - destruct (String.ltb (fst z) (fst y)) eqn:Ezy;
      destruct (String.ltb (fst z) (fst x)) eqn:Ezx;
      simpl; unfold item_lt; rewrite ?Ezy, ?Ezx.
    + rewrite IH; reflexivity.
    + rewrite (not_ltb_trans _ _ _ Ezx Ezy). reflexivity.
    + rewrite (not_ltb_trans _ _ _ Ezy Ezx). reflexivity.
    + rewrite (ltb_total (fst y) (fst x)) by congruence.
      destruct (String.ltb (fst x) (fst y)); reflexivity.
Qed.

(** [sorted] does not depend on the order in which a dict lists its
    items. *)
Lemma sorted_permutation (a b : dict) :
  Permutation a b -> NoDup (keys a) -> sorted a = sorted b.
Proof.
  induction 1 as [|x l l' Hp IH|x y l|l l' l'' H1 IH1 H2 IH2]; intros Hnd.
  - reflexivity.
  - simpl. rewrite IH; [reflexivity|]. inversion Hnd; assumption.
  - simpl. apply insert_comm.
    unfold keys in Hnd. simpl in Hnd. inversion Hnd as [|? ? Hin _]; subst.
    intros E. apply Hin. left. symmetry. exact E.
  - rewrite IH1 by exact Hnd. apply IH2.
    unfold keys in *. eapply Permutation_NoDup; [|exact Hnd].
    apply Permutation_map. exact H1.
Qed.

End KeyOrder.

(** C7.  For two action descriptors with the same [action_type] and
    [action_name] whose argument dicts hold the same entries and differ only
    in insertion order, both clients compute the same cache key. *)
Theorem C7_cache_key_ignores_argument_order
        (env : Env) (action_type action_name : string) (a b : dict) :
  NoDup (keys a) ->
  Permutation a b ->
  Runtime._cache_key env action_type action_name (Some a)
  = Runtime._cache_key env action_type action_name (Some b)
  /\ Sdk._cache_key env action_type action_name (Some a)
     = Sdk._cache_key env action_type action_name (Some b).
Proof.
  intros Hnd Hp.
  assert (Hs := sorted_permutation a b Hp Hnd).
  unfold Runtime._cache_key, Sdk._cache_key.
  destruct a as [|x a], b as [|y b].
  - split; reflexivity.
  - apply Permutation_nil in Hp. discriminate.
  - apply Permutation_sym, Permutation_nil in Hp. discriminate.
  - rewrite Hs. split; reflexivity.
Qed.

Lemma C7_cache_key_ignores_argument_order_witness :
  let a := [("args", VList [VStr "-l"]); ("full_command", VStr "ls -l")] in
  let b := [("full_command", VStr "ls -l"); ("args", VList [VStr "-l"])] in
  Runtime._cache_key (Mock.env []) "command_exec" "ls" (Some a)
  = Runtime._cache_key (Mock.env []) "command_exec" "ls" (Some b)
  /\ Sdk._cache_key (Mock.env []) "command_exec" "ls" (Some a)
     = Sdk._cache_key (Mock.env []) "command_exec" "ls" (Some b).
Proof.
  intros a b.
  apply (C7_cache_key_ignores_argument_order (Mock.env [])
           "command_exec" "ls" a b).
  - repeat constructor; simpl; intuition discriminate.
  - apply perm_swap.
Defined.

(* ------------------------------------------------------------------ *)
(** ** A body that is not an object *)

(** [resp_data.get] is called outside the [try]: when the body decodes to
    something other than a dict the caller of either client sees
    [AttributeError], under either fail mode. *)
Example non_object_body_raises :
  fst (Mock.sdk_evaluate [Body (VList [])] "closed" "command_exec" "ls"
                         Mock.sdk_start)
  = Raise AttributeError
  /\ fst (Mock.runtime_evaluate [Body VNone] "open" "command_exec" "ls"
                                Mock.runtime_start)
     = Raise AttributeError.
Proof. split; reflexivity. Qed.

(* ================================================================== *)
(** * Further properties of the code *)

Ltac run_monad := repeat (progress (unfold_monad; cbv beta iota)).

(* ------------------------------------------------------------------ *)
(** ** The audit buffer *)

Lemma runtime_client_eta (c : Runtime.client) :
  Runtime.mkClient (Runtime._cache c) (Runtime._audit_buffer c) = c.
Proof. destruct c; reflexivity. Qed.

Lemma st_eta {C : Type} (s : st C) : St (self s) (world s) = s.
Proof. destruct s; reflexivity. Qed.

(** X1.  A flush that gets through posts every buffered event, oldest
    first, in one request to [/admin/api/v1/audit/events] and leaves the
    buffer empty; it does not touch the cache. *)
Theorem X1_flush_delivers_in_order
        (env : Env) (cfg : Runtime.config) (s : st Runtime.client) (v : value) :
  Runtime._audit_buffer (self s) <> [] ->
  urlopen env (length (sent (world s)))
          (Runtime.flush_request cfg (Runtime._audit_buffer (self s)))
  = Body v ->
  Runtime._audit_buffer_flush env cfg s
  = (Ret tt,
     St (Runtime.mkClient (Runtime._cache (self s)) [])
        (log_request
           (Runtime.flush_request cfg (Runtime._audit_buffer (self s)))
           (world s))).
Proof.
  intros Hne Hu. unfold Runtime._audit_buffer_flush. unfold_monad.
  destruct (Runtime._audit_buffer (self s)) as [|ev evs]; [contradiction|].
  simpl. rewrite Hu. reflexivity.
Qed.

Lemma X1_flush_delivers_in_order_witness :
  let s := snd (Mock.runtime_evaluate [] "open" "command_exec" "ls"
                                      Mock.runtime_start) in
  let env := Mock.env [Failed "down"; Body VNone] in
  Runtime._audit_buffer_flush env (Mock.runtime_cfg "open") s
  = (Ret tt,
     St (Runtime.mkClient [] [])
        (log_request
           (Runtime.flush_request (Mock.runtime_cfg "open")
                                  (Runtime._audit_buffer (self s)))
           (world s))).
Proof.
  intros s env.
  apply (X1_flush_delivers_in_order env (Mock.runtime_cfg "open") s VNone).
  - simpl. discriminate.
  - reflexivity.
Defined.

(** X2.  A flush never raises and never loses an event.  Whatever the
    transport does the cache is as before.  On an empty buffer nothing is
    sent and the state is unchanged.  On a buffer that holds events, when
    the request fails the client is exactly as before, every event back in
    the buffer in its place, and only the attempt is logged; when the
    request is answered the buffer is empty and the one request sent carried
    the events.  So the buffer is either exactly as before, or it is empty
    and the request that carried its events was answered. *)
Theorem X2_flush_never_loses_events
        (env : Env) (cfg : Runtime.config) (s : st Runtime.client) :
  let events := Runtime._audit_buffer (self s) in
  let req := Runtime.flush_request cfg events in
  let answer := urlopen env (length (sent (world s))) req in
  exists s',
    Runtime._audit_buffer_flush env cfg s = (Ret tt, s')
    /\ Runtime._cache (self s') = Runtime._cache (self s)
    /\ (events = [] -> s' = s)
    /\ (forall text,
           events <> [] -> answer = Failed text ->
           s' = St (self s) (log_request req (world s)))
    /\ (forall v,
           events <> [] -> answer = Body v ->
           s' = St (Runtime.mkClient (Runtime._cache (self s)) [])
                   (log_request req (world s)))
    /\ (Runtime._audit_buffer (self s') = events
        \/ (Runtime._audit_buffer (self s') = []
            /\ sent (world s') = req :: sent (world s)
            /\ exists v, answer = Body v)).
Proof.
  cbv zeta. unfold Runtime._audit_buffer_flush. unfold_monad.
  destruct (Runtime._audit_buffer (self s)) as [|ev evs] eqn:E.
  - exists s. split; [reflexivity|]. split; [reflexivity|].
    split; [reflexivity|]. split; [intros text Hne; contradiction|].
    split; [intros v Hne; contradiction|]. left. exact E.
  - assert (Eta : Runtime.mkClient (Runtime._cache (self s)) (ev :: evs)
                  = self s)
      by (rewrite <- E; apply runtime_client_eta).
    simpl.
    destruct (urlopen env (length (sent (world s)))
                      (Runtime.flush_request cfg (ev :: evs)))
      as [text|v] eqn:U;
      eexists; (split; [reflexivity|]); simpl;
      (split; [reflexivity|]); (split; [discriminate|]).
    + rewrite app_nil_r, Eta. split; [reflexivity|].
      split; [discriminate|]. left. reflexivity.
    + split; [discriminate|]. split; [reflexivity|].
      right. split; [reflexivity|]. split; [reflexivity|].
      exists v. reflexivity.
Qed.

Section AuditTrail.

Variable env : Env.
Variable cfg : Runtime.config.
Hypothesis down : transport_down env.

(** With the server unreachable a call on an empty cache appends one event
    and caches nothing. *)
Lemma runtime_unreachable_step c s :
  Runtime._cache (self s) = [] ->
  exists ev,
    self (snd (runtime_call env cfg c s))
    = Runtime.mkClient [] (Runtime._audit_buffer (self s) ++ [ev])%list
    /\ event_summary ev = unreachable_summary (Runtime._fail_mode cfg) c.
Proof.
  intros Hc. unfold runtime_call, Runtime.evaluate, bind.
  rewrite runtime_lookup_absent by (rewrite Hc; reflexivity).
  unfold try_except, do_urlopen.
  destruct (down (length (sent (world s)))
                 (Runtime.evaluate_request cfg (c_action_type c)
                    (c_action_name c) (c_arguments c) (c_destination c)))
    as [text Hu].
  rewrite Hu. unfold Runtime.on_failure, unreachable_summary.
  destruct (Runtime._fail_mode cfg =? "closed")%string;
    eexists; simpl; rewrite Hc; split; reflexivity.
Qed.

Lemma runtime_unreachable_run calls : forall s,
  Runtime._cache (self s) = [] ->
  exists events,
    self (snd (run_all (runtime_call env cfg) calls s))
    = Runtime.mkClient [] (Runtime._audit_buffer (self s) ++ events)%list
    /\ map event_summary events
       = map (unreachable_summary (Runtime._fail_mode cfg)) calls.
Proof.
  induction calls as [|c calls IH]; intros s Hc.
  - exists []. simpl. rewrite app_nil_r, <- Hc, runtime_client_eta.
    split; reflexivity.
  - destruct (runtime_unreachable_step c s Hc) as (ev & E & Hev).
    simpl. destruct (runtime_call env cfg c s) as [r s1]. simpl in E.
    destruct (IH s1) as (events & E' & Hevs); [rewrite E; reflexivity|].
    destruct (run_all (runtime_call env cfg) calls s1) as [rs s2].
    simpl in *. exists (ev :: events). split.
    + rewrite E', E. simpl. rewrite <- app_assoc. reflexivity.
    + simpl. rewrite Hev, Hevs. reflexivity.
Qed.

End AuditTrail.

(** X3.  While the server is unreachable, the runtime client's audit buffer
    records one event per call of [evaluate], in call order, each with the
    call's action and arguments and the synthetic decision of the fail mode
    (Deny/["fail-closed"] or Allow/["fail-open"]); nothing is cached, and a
    flush attempted in that state leaves the buffer as it is. *)
Theorem X3_one_audit_event_per_unreachable_call
        (env : Env) (cfg : Runtime.config) (calls : list call) (w : World) :
  transport_down env ->
  let s := snd (run_all (runtime_call env cfg) calls
                        (St Runtime.fresh_client w)) in
  map event_summary (Runtime._audit_buffer (self s))
  = map (unreachable_summary (Runtime._fail_mode cfg)) calls
  /\ Runtime._cache (self s) = []
  /\ self (snd (Runtime._audit_buffer_flush env cfg s)) = self s.
Proof.
  intros down s.
  destruct (runtime_unreachable_run env cfg down calls
              (St Runtime.fresh_client w) eq_refl) as (events & E & Hev).
  fold s in E. simpl in E.
  split; [rewrite E; exact Hev|]. split; [rewrite E; reflexivity|].
  unfold Runtime._audit_buffer_flush. unfold_monad.
  destruct (Runtime._audit_buffer (self s)) as [|ev evs] eqn:B;
    [reflexivity|].
  simpl.
  destruct (down (length (sent (world s)))
                 (Runtime.flush_request cfg (ev :: evs))) as [text Hu].
  rewrite Hu. simpl. rewrite app_nil_r, <- B. apply runtime_client_eta.
Qed.

Lemma X3_one_audit_event_per_unreachable_call_witness :
  let ls := mkCall "command_exec" "ls" None None None None None None true in
  let rm := mkCall "command_exec" "rm"
                   (Some [("args", VList [VStr "-rf"])])
                   None None None None None true in
  let s := snd (run_all (runtime_call (Mock.env [])
                                      (Mock.runtime_cfg "closed"))
                        [ls; rm] Mock.runtime_start) in
  map event_summary (Runtime._audit_buffer (self s))
  = [("command_exec", "ls", [], "deny", "fail-closed");
     ("command_exec", "rm", [("args", VList [VStr "-rf"])],
      "deny", "fail-closed")]
  /\ Runtime._cache (self s) = []
  /\ self (snd (Runtime._audit_buffer_flush (Mock.env [])
                  (Mock.runtime_cfg "closed") s))
     = self s.
Proof.
  intros ls rm s.
  apply (X3_one_audit_event_per_unreachable_call (Mock.env [])
           (Mock.runtime_cfg "closed") [ls; rm] fresh_world).
  intros n req. exists "Connection refused". destruct n; reflexivity.
Defined.

(* ------------------------------------------------------------------ *)
(** ** [approval_required] hands over to the poller *)

Section ApprovalStep.

Variable env : Env.

Lemma runtime_approval_step (cfg : Runtime.config)
      action_type action_name arguments destination s s1 resp :
  Runtime.cache_lookup env cfg
    (Runtime._cache_key env action_type action_name arguments) s
  = (Ret None, s1) ->
  urlopen env (length (sent (world s1)))
          (Runtime.evaluate_request cfg action_type action_name
                                    arguments destination)
  = Body (VDict resp) ->
  dict_get resp "decision" (VStr "allow") = VStr "approval_required" ->
  truthy (dict_get resp "request_id" (VStr "")) = true ->
  Runtime.evaluate env cfg action_type action_name arguments destination s
  = Runtime._poll_approval env cfg (dict_get resp "request_id" (VStr ""))
      (VDict resp)
      (St (self s1)
          (log_request (Runtime.evaluate_request cfg action_type action_name
                                                 arguments destination)
                       (world s1))).
Proof.
  intros Hl Hu Hd Hid. unfold Runtime.evaluate, bind. rewrite Hl.
  unfold try_except, do_urlopen. rewrite Hu.
  unfold Runtime.on_response. unfold_monad. cbv beta iota.
  rewrite Hd. unfold ret. cbv beta iota.
  change (eq_str (VStr "approval_required") "approval_required") with true.
  cbv beta iota. rewrite Hid. reflexivity.
Qed.

Lemma sdk_approval_step (cfg : Sdk.config)
      action_type action_name arguments destination identity_name
      identity_roles protocol framework raise_on_deny s s1 resp :
  Sdk.cache_lookup env cfg
    (Sdk._cache_key env action_type action_name arguments) s
  = (Ret None, s1) ->
  urlopen env (length (sent (world s1)))
          (Sdk.evaluate_request env cfg action_type action_name arguments
             destination identity_name identity_roles protocol framework)
  = Body (VDict resp) ->
  dict_get resp "decision" (VStr "allow") = VStr "approval_required" ->
  truthy (dict_get resp "request_id" (VStr "")) = true ->
  Sdk.evaluate env cfg action_type action_name arguments destination
               identity_name identity_roles protocol framework raise_on_deny s
  = Sdk._poll_approval env cfg (dict_get resp "request_id" (VStr ""))
      (VDict resp) raise_on_deny
      (St (self s1)
          (log_request
             (Sdk.evaluate_request env cfg action_type action_name arguments
                destination identity_name identity_roles protocol framework)
             (world s1))).
Proof.
  intros Hl Hu Hd Hid. unfold Sdk.evaluate, bind. rewrite Hl.
  unfold try_except, do_urlopen. rewrite Hu.
  unfold Sdk.on_response. unfold_monad. cbv beta iota.
  rewrite Hd. unfold ret. cbv beta iota.
  change (eq_str (VStr "approval_required") "approval_required") with true.
  cbv beta iota. rewrite Hid. reflexivity.
Qed.

End ApprovalStep.

(* ------------------------------------------------------------------ *)
(** ** [check] of the SDK client *)

(** X4.  [check] answers [True] when the server cannot be reached, under
    either fail mode: with [fail_mode = "closed"] the
    [ServerUnreachableError] of [evaluate] is swallowed and turned into
    permission. *)
Theorem X4_check_permits_when_unreachable
        (env : Env) (cfg : Sdk.config)
        (action_type action_name : string) (arguments destination : option dict)
        (identity_name : option string) (identity_roles : option (list string))
        (protocol framework : option string)
        (s s1 : st Sdk.client) (text : string) :
  Sdk.cache_lookup env cfg
    (Sdk._cache_key env action_type action_name arguments) s
  = (Ret None, s1) ->
  urlopen env (length (sent (world s1)))
          (Sdk.evaluate_request env cfg action_type action_name arguments
             destination identity_name identity_roles protocol framework)
  = Failed text ->
  fst (Sdk.check env cfg action_type action_name arguments destination
                 identity_name identity_roles protocol framework s)
  = Ret true.
Proof.
  intros Hl Hu. unfold Sdk.check, try_except, bind, Sdk.evaluate, bind.
  rewrite Hl. unfold try_except, do_urlopen. rewrite Hu.
  unfold Sdk.on_failure.
  destruct (Sdk._fail_mode cfg =? "closed")%string; reflexivity.
Qed.

Lemma X4_check_permits_when_unreachable_witness :
  fst (Sdk.check (Mock.env []) (Mock.sdk_cfg "closed") "command_exec" "rm"
                 None None None None None None Mock.sdk_start)
  = Ret true.
Proof.
  apply (X4_check_permits_when_unreachable (Mock.env [])
           (Mock.sdk_cfg "closed") "command_exec" "rm" None None None None
           None None Mock.sdk_start Mock.sdk_start "Connection refused");
    reflexivity.
Defined.

(** X5.  [check] answers [True] when an approval is never decided: after the
    30 polls have seen no terminal status, the [ApprovalTimeoutError] of the
    poller is swallowed and the action is permitted. *)
Theorem X5_check_permits_on_approval_timeout
        (env : Env) (cfg : Sdk.config)
        (action_type action_name : string) (arguments destination : option dict)
        (identity_name : option string) (identity_roles : option (list string))
        (protocol framework : option string)
        (s s1 : st Sdk.client) (resp : dict) :
  let req := Sdk.evaluate_request env cfg action_type action_name arguments
               destination identity_name identity_roles protocol framework in
  let request_id := dict_get resp "request_id" (VStr "") in
  let poll := GET (Sdk.status_url env cfg request_id) (Sdk.auth_headers cfg) in
  Sdk.cache_lookup env cfg
    (Sdk._cache_key env action_type action_name arguments) s
  = (Ret None, s1) ->
  urlopen env (length (sent (world s1))) req = Body (VDict resp) ->
  dict_get resp "decision" (VStr "allow") = VStr "approval_required" ->
  truthy request_id = true ->
  no_terminal_reply env (S (length (sent (world s1)))) 30 poll = true ->
  Sdk.check env cfg action_type action_name arguments destination
            identity_name identity_roles protocol framework s
  = (Ret true,
     St (self s1) (after_polls 30 2 poll (log_request req (world s1)))).
Proof.
  intros req request_id poll Hl Hu Hd Hid Hpend.
  subst req request_id poll.
  unfold Sdk.check, try_except, bind.
  rewrite (sdk_approval_step env cfg _ _ _ _ _ _ _ _ false s s1 resp
             Hl Hu Hd Hid).
  unfold Sdk._poll_approval, bind.
  rewrite (sdk_poll_loop_exhausts env cfg (dict_get resp "request_id" (VStr ""))
             (VDict resp) false Sdk.max_polls
             (St (self s1) (log_request _ (world s1)))
             (no_terminal_reply_spec _ _ _ _ Hpend)).
  reflexivity.
Qed.

Lemma X5_check_permits_on_approval_timeout_witness :
  let replies := Body (VDict Mock.eval_response)
                 :: repeat (Body (VDict Mock.pending_response)) 30 in
  let run := Sdk.check (Mock.env replies) (Mock.sdk_cfg "closed")
                       "command_exec" "deploy" None None None None None None
                       Mock.sdk_start in
  fst run = Ret true /\ length (slept (world (snd run))) = 30%nat.
Proof.
  intros replies run. subst run.
  rewrite (X5_check_permits_on_approval_timeout (Mock.env replies)
             (Mock.sdk_cfg "closed") "command_exec" "deploy" None None None
             None None None Mock.sdk_start Mock.sdk_start Mock.eval_response
             eq_refl eq_refl eq_refl eq_refl eq_refl).
  split; reflexivity.
Defined.

(** X6.  [check] never raises, ends in the state in which [evaluate] with
    [raise_on_deny=False] ends, and answers [False] only when that
    [evaluate] returned a decision that does not read as Allow. *)
Theorem X6_check_never_raises
        (env : Env) (cfg : Sdk.config)
        (action_type action_name : string) (arguments destination : option dict)
        (identity_name : option string) (identity_roles : option (list string))
        (protocol framework : option string) (s : st Sdk.client) :
  let run := Sdk.evaluate env cfg action_type action_name arguments
               destination identity_name identity_roles protocol framework
               false s in
  exists b,
    Sdk.check env cfg action_type action_name arguments destination
              identity_name identity_roles protocol framework s
    = (Ret b, snd run)
    /\ (b = false ->
        exists d, fst run = Ret (VDict d) /\ reads_as_allow (VDict d) = false).
Proof.
  intros run. unfold Sdk.check, try_except, bind. fold run.
  destruct run as [[v|e] s']; simpl.
  - destruct v; simpl;
      try (exists true; split; [reflexivity|discriminate]).
    eexists. split; [reflexivity|].
    intros Hb. eexists. split; [reflexivity|exact Hb].
  - exists true. split; [reflexivity|discriminate].
Qed.

(** X7.  When the server's response is decided on the spot (its decision is
    not [approval_required], or it has no [request_id] to poll), [check]
    answers whether the response reads as Allow: [False] for a Deny, for an
    unknown decision and for an [approval_required] that cannot be polled;
    [True] for an Allow and for a response without a [decision]. *)
Theorem X7_check_reads_the_decision
        (env : Env) (cfg : Sdk.config)
        (action_type action_name : string) (arguments destination : option dict)
        (identity_name : option string) (identity_roles : option (list string))
        (protocol framework : option string)
        (s s1 : st Sdk.client) (resp : dict) :
  Sdk.cache_lookup env cfg
    (Sdk._cache_key env action_type action_name arguments) s
  = (Ret None, s1) ->
  urlopen env (length (sent (world s1)))
          (Sdk.evaluate_request env cfg action_type action_name arguments
             destination identity_name identity_roles protocol framework)
  = Body (VDict resp) ->
  eq_str (dict_get resp "decision" (VStr "allow")) "approval_required" = false
  \/ truthy (dict_get resp "request_id" (VStr "")) = false ->
  fst (Sdk.check env cfg action_type action_name arguments destination
                 identity_name identity_roles protocol framework s)
  = Ret (reads_as_allow (VDict resp)).
Proof.
  intros Hl Hu Hdec.
  unfold Sdk.check, try_except, bind, Sdk.evaluate, bind.
  rewrite Hl. unfold try_except, do_urlopen. rewrite Hu.
  unfold Sdk.on_response. run_monad.
  unfold reads_as_allow, decision_of.
  destruct (eq_str (dict_get resp "decision" (VStr "allow"))
                   "approval_required") eqn:Hap.
  - destruct Hdec as [Hdec|Hdec]; [discriminate|]. run_monad. rewrite Hdec.
    apply eq_str_true in Hap. rewrite Hap. reflexivity.
  - destruct (eq_str (dict_get resp "decision" (VStr "allow")) "allow")
      eqn:Hal.
    + unfold Sdk.cache_store, Sdk.set_cache. run_monad.
      destruct (OD.evict _ _); [|reflexivity].
      rewrite andb_false_r. run_monad. rewrite Hal. reflexivity.
    + rewrite andb_false_r. run_monad. rewrite Hal. reflexivity.
Qed.

Lemma X7_check_reads_the_decision_witness :
  fst (Sdk.check (Mock.env [Body (VDict Mock.deny_response)])
                 (Mock.sdk_cfg "open") "command_exec" "rm"
                 None None None None None None Mock.sdk_start)
  = Ret false.
Proof.
  apply (X7_check_reads_the_decision
           (Mock.env [Body (VDict Mock.deny_response)]) (Mock.sdk_cfg "open")
           "command_exec" "rm" None None None None None None
           Mock.sdk_start Mock.sdk_start Mock.deny_response
           eq_refl eq_refl (or_introl eq_refl)).
Defined.

(* ------------------------------------------------------------------ *)
(** ** The cache as an LRU dictionary *)

Section CacheInvariant.

Variable env : Env.
Variable P : OD.t (value * Z) -> Prop.
Variable max_size : Z.

Hypothesis P_nil : P [].
Hypothesis P_del : forall od k, P od -> P (OD.del od k).
Hypothesis P_move : forall od k, P od -> P (OD.move_to_end od k).
Hypothesis P_store : forall od k e c,
  P od -> OD.evict max_size (OD.set od k e) = Ret c -> P c.

(** A property of the cache that deletion, promotion and a bounded store
    keep is kept by [evaluate]. *)
Lemma runtime_evaluate_keeps (cfg : Runtime.config)
      action_type action_name arguments destination s :
  max_size = Runtime._cache_max ->
  P (Runtime._cache (self s)) ->
  P (Runtime._cache
       (self (snd (Runtime.evaluate env cfg action_type action_name
                                    arguments destination s)))).
Proof.
  intros Hmax Inv. unfold Runtime.evaluate, bind.
  unfold Runtime.cache_lookup, Runtime.set_cache. run_monad.
  destruct (OD.get (Runtime._cache (self s)) _) as [[d t]|] eqn:G.
  - cbn [snd fst]. destruct (_ <? _)%Z; cbn [snd fst self Runtime._cache];
      [apply P_move; exact Inv|].
    assert (Inv' := P_del _ (Runtime._cache_key env action_type action_name
                                                arguments) Inv).
    revert Inv'. generalize (OD.del (Runtime._cache (self s))
      (Runtime._cache_key env action_type action_name arguments)).
    intros c0 Inv'.
    destruct (urlopen env _ _) as [text|v].
    + unfold Runtime.on_failure, Runtime._buffer_audit_event. run_monad.
      destruct (_ =? _)%string; exact Inv'.
    + unfold Runtime.on_response. run_monad.
      destruct v; try exact Inv'.
      destruct (eq_str _ "approval_required").
      * destruct (truthy _); [|exact Inv'].
        match goal with
        | |- context [Runtime._poll_approval env cfg ?rid ?orig ?s0] =>
            destruct (runtime_poll_approval_frame env cfg rid orig s0)
              as (k & d0 & _ & E); rewrite E
        end.
        exact Inv'.
      * destruct (eq_str _ "allow"); [|exact Inv'].
        unfold Runtime.cache_store, Runtime.set_cache. run_monad.
        cbn [self world Runtime._cache].
        destruct (OD.evict _ _) as [c|e] eqn:Ev; cbn [snd self Runtime._cache];
          [|exact P_nil].
        rewrite <- Hmax in Ev. exact (P_store _ _ _ _ Inv' Ev).
  - destruct (urlopen env _ _) as [text|v].
    + unfold Runtime.on_failure, Runtime._buffer_audit_event. run_monad.
      destruct (_ =? _)%string; exact Inv.
    + unfold Runtime.on_response. run_monad.
      destruct v; try exact Inv.
      destruct (eq_str _ "approval_required").
      * destruct (truthy _); [|exact Inv].
        match goal with
        | |- context [Runtime._poll_approval env cfg ?rid ?orig ?s0] =>
            destruct (runtime_poll_approval_frame env cfg rid orig s0)
              as (k & d0 & _ & E); rewrite E
        end.
        exact Inv.
      * destruct (eq_str _ "allow"); [|exact Inv].
        unfold Runtime.cache_store, Runtime.set_cache. run_monad.
        cbn [self world Runtime._cache].
        destruct (OD.evict _ _) as [c|e] eqn:Ev; cbn [snd self Runtime._cache];
          [|exact P_nil].
        rewrite <- Hmax in Ev. exact (P_store _ _ _ _ Inv Ev).
Qed.

End CacheInvariant.

Section SdkCacheInvariant.

Variable env : Env.
Variable P : OD.t (value * Z) -> Prop.
Variable cfg : Sdk.config.

Hypothesis P_nil : P [].
Hypothesis P_del : forall od k, P od -> P (OD.del od k).
Hypothesis P_move : forall od k, P od -> P (OD.move_to_end od k).
Hypothesis P_store : forall od k e c,
  P od -> OD.evict (Sdk._cache_max_size cfg) (OD.set od k e) = Ret c -> P c.

(** What the SDK client's [evaluate] does after a miss keeps the
    property. *)
Lemma sdk_after_miss_keeps action_type action_name arguments destination
      identity_name identity_roles protocol framework raise_on_deny s1 :
  P (Sdk._cache (self s1)) ->
  P (Sdk._cache
       (self (snd (try_except
                     (do_urlopen env
                        (Sdk.evaluate_request env cfg action_type action_name
                           arguments destination identity_name identity_roles
                           protocol framework))
                     (Sdk.on_failure cfg)
                     (Sdk.on_response env cfg
                        (Sdk._cache_key env action_type action_name arguments)
                        raise_on_deny)
                     s1)))).
Proof.
  intros Inv. unfold try_except, do_urlopen.
  destruct (urlopen env _ _) as [text|v].
  - unfold Sdk.on_failure. run_monad.
    destruct (_ =? _)%string; exact Inv.
  - unfold Sdk.on_response. run_monad.
    destruct v; try exact Inv.
    destruct (eq_str _ "approval_required").
    + destruct (truthy _); [|exact Inv].
      unfold Sdk._poll_approval, bind.
      match goal with
      | |- context [Sdk.poll_loop env cfg ?n ?rid ?orig ?rod ?s0] =>
          destruct (sdk_poll_loop_frame env cfg rid orig rod n s0)
            as (k & r & _ & E & _); rewrite E
      end.
      destruct r as [[d|]|e]; exact Inv.
    + destruct (eq_str _ "allow").
      * unfold Sdk.cache_store, Sdk.set_cache. run_monad.
        cbn [self world Sdk._cache].
        destruct (OD.evict _ _) as [c|e] eqn:Ev; [|exact P_nil].
        assert (Pc := P_store _ _ _ _ Inv Ev).
        destruct (eq_str _ "deny" && raise_on_deny); exact Pc.
      * destruct (eq_str _ "deny" && raise_on_deny); exact Inv.
Qed.

Lemma sdk_evaluate_keeps action_type action_name arguments destination
      identity_name identity_roles protocol framework raise_on_deny s :
  P (Sdk._cache (self s)) ->
  P (Sdk._cache
       (self (snd (Sdk.evaluate env cfg action_type action_name arguments
                                destination identity_name identity_roles
                                protocol framework raise_on_deny s)))).
Proof.
  intros Inv. unfold Sdk.evaluate, bind.
  unfold Sdk.cache_lookup, Sdk.set_cache. run_monad.
  destruct (OD.get (Sdk._cache (self s)) _) as [[d t]|] eqn:G.
  - cbn [snd fst]. destruct (_ <? _)%Z; cbn [snd fst self Sdk._cache];
      [apply P_move; exact Inv|].
    apply sdk_after_miss_keeps. apply P_del. exact Inv.
  - apply sdk_after_miss_keeps. exact Inv.
Qed.

End SdkCacheInvariant.

Section CacheShape.

Variable V : Type.
Implicit Types (od : OD.t V) (k : OD.key).

Lemma length_del_le od k : (length (OD.del od k) <= length od)%nat.
Proof. apply filter_length_le. Qed.

Lemma length_del_present od k v :
  OD.get od k = Some v -> (length (OD.del od k) < length od)%nat.
Proof.
  unfold OD.del. induction od as [|[k' v'] od IH]; simpl; [discriminate|].
  destruct (OD.key_eqb k' k) eqn:E; simpl.
  - intros _.
    pose proof (filter_length_le (fun kv => negb (OD.key_eqb (fst kv) k)) od).
    lia.
  - intros G. specialize (IH G). lia.
Qed.

Lemma length_move_to_end od k :
  (length (OD.move_to_end od k) <= length od)%nat.
Proof.
  unfold OD.move_to_end. destruct (OD.get od k) as [v|] eqn:G; [|lia].
  rewrite length_app. simpl. pose proof (length_del_present od k v G). lia.
Qed.

(** Eviction stops at the bound. *)
Lemma evict_bound max_size od c :
  OD.evict max_size od = Ret c -> (Z.of_nat (length c) <= max_size)%Z.
Proof.
  induction od as [|x od IH]; cbn [OD.evict].
  - destruct (Z.gtb_spec (Z.of_nat (length (@nil (OD.key * V)))) max_size)
      as [Hgt|Hle]; [discriminate|].
    intros E; inversion E; subst. exact Hle.
  - destruct (Z.gtb_spec (Z.of_nat (length (x :: od))) max_size)
      as [Hgt|Hle]; [exact IH|].
    intros E; inversion E; subst. exact Hle.
Qed.

Lemma keys_del od k :
  map fst (OD.del od k)
  = filter (fun k' => negb (OD.key_eqb k' k)) (map fst od).
Proof.
  unfold OD.del. induction od as [|[k' v'] od IH]; simpl; [reflexivity|].
  destruct (OD.key_eqb k' k); simpl; rewrite IH; reflexivity.
Qed.

Lemma nodup_del od k : NoDup (map fst od) -> NoDup (map fst (OD.del od k)).
Proof. intros H. rewrite keys_del. apply NoDup_filter, H. Qed.

Lemma nodup_move_to_end od k :
  NoDup (map fst od) -> NoDup (map fst (OD.move_to_end od k)).
Proof.
  intros H. unfold OD.move_to_end.
  destruct (OD.get od k) as [v|] eqn:G; [|exact H].
  rewrite map_app. simpl. apply NoDup_app; [apply nodup_del, H| |].
  - constructor; [intros []|constructor].
  - intros k' Hin [<-|[]].
    apply (proj1 (get_none_iff _ (OD.del od k) k) (get_del_same _ od k)).
    exact Hin.
Qed.

Lemma keys_set od k v :
  map fst (OD.set od k v)
  = match OD.get od k with
    | Some _ => map fst od
    | None => (map fst od ++ [k])%list
    end.
Proof.
  induction od as [|[k' v'] od IH]; simpl; [reflexivity|].
  destruct (OD.key_eqb k' k); simpl; [reflexivity|].
  rewrite IH. destruct (OD.get od k); reflexivity.
Qed.

Lemma nodup_set od k v : NoDup (map fst od) -> NoDup (map fst (OD.set od k v)).
Proof.
  intros H. rewrite keys_set. destruct (OD.get od k) as [v'|] eqn:G; [exact H|].
  apply NoDup_app; [exact H|constructor; [intros []|constructor]|].
  intros k' Hin [<-|[]]. apply (proj1 (get_none_iff _ od k) G). exact Hin.
Qed.

Lemma nodup_evict max_size od c :
  NoDup (map fst od) -> OD.evict max_size od = Ret c -> NoDup (map fst c).
Proof.
  intros H E. apply evict_suffix in E. destruct E as [pre ->].
  rewrite map_app in H. apply NoDup_app_remove_l in H. exact H.
Qed.

End CacheShape.

(** X8.  The cache never holds more entries than its capacity: in every
    state reached from a new client, the runtime client's cache has at most
    1000 entries and the SDK client's at most [cache_max_size] (taken
    non-negative). *)
Theorem X8_cache_never_exceeds_capacity
        (env : Env) (rcfg : Runtime.config) (scfg : Sdk.config)
        (calls : list call) (w : World) :
  (0 <= Sdk._cache_max_size scfg)%Z ->
  (Z.of_nat (length (Runtime._cache
                       (self (snd (run_all (runtime_call env rcfg) calls
                                           (St Runtime.fresh_client w))))))
   <= 1000)%Z
  /\ (Z.of_nat (length (Sdk._cache
                          (self (snd (run_all (sdk_call env scfg) calls
                                              (St Sdk.fresh_client w))))))
      <= Sdk._cache_max_size scfg)%Z.
Proof.
  intros Hmax. split.
  - apply (run_all_invariant (runtime_call env rcfg)
             (fun s => (Z.of_nat (length (Runtime._cache (self s)))
                        <= 1000)%Z)).
    + intros c s Hs. unfold runtime_call.
      apply (runtime_evaluate_keeps env
               (fun od => (Z.of_nat (length od) <= 1000)%Z) 1000%Z).
      * simpl; lia.
      * intros od k H. pose proof (length_del_le _ od k). lia.
      * intros od k H. pose proof (length_move_to_end _ od k). lia.
      * intros od k e c0 _ Ev. exact (evict_bound _ _ _ _ Ev).
      * reflexivity.
      * exact Hs.
    + simpl; lia.
  - apply (run_all_invariant (sdk_call env scfg)
             (fun s => (Z.of_nat (length (Sdk._cache (self s)))
                        <= Sdk._cache_max_size scfg)%Z)).
    + intros c s Hs. unfold sdk_call.
      apply (sdk_evaluate_keeps env
               (fun od => (Z.of_nat (length od)
                           <= Sdk._cache_max_size scfg)%Z) scfg).
      * simpl; lia.
      * intros od k H. pose proof (length_del_le _ od k). lia.
      * intros od k H. pose proof (length_move_to_end _ od k). lia.
      * intros od k e c0 _ Ev. exact (evict_bound _ _ _ _ Ev).
      * exact Hs.
    + simpl; lia.
Qed.

Lemma X8_cache_never_exceeds_capacity_witness :
  let echo := mkCall "command_exec" "echo" None None None None None None true in
  let ls := mkCall "command_exec" "ls" None None None None None None true in
  let env := Mock.env [Body (VDict Mock.allow_response);
                       Body (VDict Mock.allow_response)] in
  let tiny := Sdk.mkConfig "http://localhost:8080" "test-key" "sdk" "open" 5 1 in
  (Z.of_nat (length (Runtime._cache
                       (self (snd (run_all (runtime_call env
                                              (Mock.runtime_cfg "open"))
                                           [echo; ls] Mock.runtime_start)))))
   <= 1000)%Z
  /\ (Z.of_nat (length (Sdk._cache
                          (self (snd (run_all (sdk_call env tiny) [echo; ls]
                                              Mock.sdk_start)))))
      <= 1)%Z.
Proof.
  intros echo ls env tiny.
  apply (X8_cache_never_exceeds_capacity env (Mock.runtime_cfg "open") tiny
           [echo; ls] fresh_world).
  simpl. lia.
Defined.

(** X9.  The cache never holds two entries for one key: in every state
    reached from a new client the keys of the cache are pairwise
    distinct. *)
Theorem X9_cache_keys_are_distinct
        (env : Env) (rcfg : Runtime.config) (scfg : Sdk.config)
        (calls : list call) (w : World) :
  NoDup (cache_keys (Runtime._cache
                       (self (snd (run_all (runtime_call env rcfg) calls
                                           (St Runtime.fresh_client w))))))
  /\ NoDup (cache_keys (Sdk._cache
                          (self (snd (run_all (sdk_call env scfg) calls
                                              (St Sdk.fresh_client w)))))).
Proof.
  unfold cache_keys. split.
  - apply (run_all_invariant (runtime_call env rcfg)
             (fun s => NoDup (map fst (Runtime._cache (self s))))).
    + intros c s Hs. unfold runtime_call.
      apply (runtime_evaluate_keeps env
               (fun od => NoDup (map fst od)) Runtime._cache_max).
      * constructor.
      * intros od k H. apply nodup_del, H.
      * intros od k H. apply nodup_move_to_end, H.
      * intros od k e c0 H Ev.
        apply (nodup_evict _ _ _ _ (nodup_set _ od k e H) Ev).
      * reflexivity.
      * exact Hs.
    + constructor.
  - apply (run_all_invariant (sdk_call env scfg)
             (fun s => NoDup (map fst (Sdk._cache (self s))))).
    + intros c s Hs. unfold sdk_call.
      apply (sdk_evaluate_keeps env (fun od => NoDup (map fst od)) scfg).
      * constructor.
      * intros od k H. apply nodup_del, H.
      * intros od k H. apply nodup_move_to_end, H.
      * intros od k e c0 H Ev.
        apply (nodup_evict _ _ _ _ (nodup_set _ od k e H) Ev).
      * exact Hs.
    + constructor.
Qed.

Section Eviction.

Variable V : Type.
Implicit Types (od : OD.t V).

Lemma evict_fits max_size od :
  (Z.of_nat (length od) <= max_size)%Z -> OD.evict max_size od = Ret od.
Proof.
  intros H. destruct od as [|x od]; cbn [OD.evict];
    match goal with
    | |- context [(?a >? ?b)%Z] => destruct (Z.gtb_spec a b); [lia|reflexivity]
    end.
Qed.

(** Storing one more entry into a cache within its bound: nothing is
    evicted while there is room, and exactly the oldest entry is evicted
    when the cache is full. *)
Lemma evict_exact max_size od x :
  (1 <= max_size)%Z ->
  (Z.of_nat (length od) <= max_size)%Z ->
  OD.evict max_size (od ++ [x])%list
  = Ret ((if (Z.of_nat (length od) =? max_size)%Z then tl od else od)
           ++ [x])%list.
Proof.
  intros Hmax Hlen. destruct (Z.eqb_spec (Z.of_nat (length od)) max_size)
    as [Heq|Hne].
  - destruct od as [|y od]; [simpl in Heq; lia|].
    cbn [app OD.evict tl].
    match goal with
    | |- context [(?a >? ?b)%Z] => destruct (Z.gtb_spec a b) as [Hgt|Hle]
    end.
    + apply evict_fits. rewrite length_app. simpl in *. lia.
    + simpl in Hle, Heq. rewrite length_app in Hle. simpl in Hle. lia.
  - apply evict_fits. rewrite length_app. simpl. lia.
Qed.

End Eviction.

(** X10.  Least-recently-used eviction.  When a miss is answered by a
    response that reads as Allow, the response is appended to the cache as
    its newest entry, stamped with the clock; if the cache was full, exactly
    its oldest entry is dropped, otherwise nothing is dropped.  This holds
    for the runtime client (capacity 1000) and for the SDK client
    ([cache_max_size >= 1]). *)
Theorem X10_store_evicts_the_oldest
        (env : Env) (rcfg : Runtime.config) (scfg : Sdk.config)
        (action_type action_name : string) (arguments destination : option dict)
        (identity_name : option string) (identity_roles : option (list string))
        (protocol framework : option string) (raise_on_deny : bool)
        (rs rs1 : st Runtime.client) (ss ss1 : st Sdk.client)
        (resp : dict) :
  let rkey := Runtime._cache_key env action_type action_name arguments in
  let skey := Sdk._cache_key env action_type action_name arguments in
  let rreq := Runtime.evaluate_request rcfg action_type action_name
                                       arguments destination in
  let sreq := Sdk.evaluate_request env scfg action_type action_name
                arguments destination identity_name identity_roles
                protocol framework in
  let rold := Runtime._cache (self rs1) in
  let sold := Sdk._cache (self ss1) in
  (1 <= Sdk._cache_max_size scfg)%Z ->
  (Z.of_nat (length rold) <= 1000)%Z ->
  (Z.of_nat (length sold) <= Sdk._cache_max_size scfg)%Z ->
  Runtime.cache_lookup env rcfg rkey rs = (Ret None, rs1) ->
  Sdk.cache_lookup env scfg skey ss = (Ret None, ss1) ->
  urlopen env (length (sent (world rs1))) rreq = Body (VDict resp) ->
  urlopen env (length (sent (world ss1))) sreq = Body (VDict resp) ->
  reads_as_allow (VDict resp) = true ->
  Runtime._cache
    (self (snd (Runtime.evaluate env rcfg action_type action_name arguments
                                 destination rs)))
  = ((if (Z.of_nat (length rold) =? 1000)%Z then tl rold else rold)
       ++ [(rkey, (VDict resp, time_time env (clock_reads (world rs1))))])%list
  /\ Sdk._cache
       (self (snd (Sdk.evaluate env scfg action_type action_name arguments
                                destination identity_name identity_roles
                                protocol framework raise_on_deny ss)))
     = ((if (Z.of_nat (length sold) =? Sdk._cache_max_size scfg)%Z
         then tl sold else sold)
          ++ [(skey, (VDict resp, time_time env (clock_reads (world ss1))))])%list.
Proof.
  intros rkey skey rreq sreq rold sold Hmax Hrlen Hslen Hr Hs Ur Us Ha.
  unfold reads_as_allow, decision_of in Ha.
  split.
  - destruct (runtime_lookup_miss env rcfg _ rs rs1 Hr) as (Hget & _).
    unfold Runtime.evaluate, bind. fold rkey. rewrite Hr.
    unfold try_except, do_urlopen. fold rreq. rewrite Ur.
    unfold Runtime.on_response. run_monad.
    rewrite (eq_str_true _ _ Ha).
    change (eq_str (VStr "allow") "approval_required") with false.
    change (eq_str (VStr "allow") "allow") with true.
    unfold Runtime.cache_store, Runtime.set_cache. run_monad.
    cbn [self world Runtime._cache clock_reads log_request].
    rewrite (set_absent _ _ _ _ Hget).
    rewrite (evict_exact _ Runtime._cache_max (Runtime._cache (self rs1)) _
               ltac:(unfold Runtime._cache_max; lia) Hrlen).
    reflexivity.
  - destruct (sdk_lookup_miss env scfg _ ss ss1 Hs) as (Hget & _).
    unfold Sdk.evaluate, bind. fold skey. rewrite Hs.
    unfold try_except, do_urlopen. fold sreq. rewrite Us.
    unfold Sdk.on_response. run_monad.
    rewrite (eq_str_true _ _ Ha).
    change (eq_str (VStr "allow") "approval_required") with false.
    change (eq_str (VStr "allow") "allow") with true.
    change (eq_str (VStr "allow") "deny") with false.
    unfold Sdk.cache_store, Sdk.set_cache. run_monad.
    cbn [self world Sdk._cache clock_reads log_request].
    rewrite (set_absent _ _ _ _ Hget).
    rewrite (evict_exact _ (Sdk._cache_max_size scfg) (Sdk._cache (self ss1)) _
               Hmax Hslen).
    reflexivity.
Qed.

Lemma X10_store_evicts_the_oldest_witness :
  let env := Mock.env [Body (VDict Mock.allow_response)] in
  let two := Sdk.mkConfig "http://localhost:8080" "test-key" "sdk" "open" 5 2 in
  let a := (("command_exec", "a", ""), (VDict Mock.allow_response, 0%Z)) in
  let b := (("command_exec", "b", ""), (VDict Mock.allow_response, 0%Z)) in
  let c := (("command_exec", "c", ""), (VDict Mock.allow_response, 0%Z)) in
  Runtime._cache
    (self (snd (Runtime.evaluate env (Mock.runtime_cfg "open")
                  "command_exec" "c" None None
                  (St (Runtime.mkClient [a; b] []) fresh_world))))
  = [a; b; c]
  /\ Sdk._cache
       (self (snd (Sdk.evaluate env two "command_exec" "c" None None None
                     None None None true
                     (St (Sdk.mkClient [a; b]) fresh_world))))
     = [b; c].
Proof.
  intros env two a b c.
  apply (X10_store_evicts_the_oldest env (Mock.runtime_cfg "open") two
           "command_exec" "c" None None None None None None true
           (St (Runtime.mkClient [a; b] []) fresh_world)
           (St (Runtime.mkClient [a; b] []) fresh_world)
           (St (Sdk.mkClient [a; b]) fresh_world)
           (St (Sdk.mkClient [a; b]) fresh_world)
           Mock.allow_response);
    solve [reflexivity | simpl; lia].
Defined.

(** X11.  A cache hit returns the cached decision without sending anything:
    the entry becomes the newest one but keeps the time at which it was
    recorded, so hits do not prolong its life.  Once the clock is at or past
    [recorded_at + ttl], the next evaluation of the action goes to the
    server, however recently the entry was hit. *)
Theorem X11_hit_refreshes_recency_not_ttl
        (env : Env) (rcfg : Runtime.config) (scfg : Sdk.config)
        (action_type action_name : string)
        (arguments destination destination' : option dict)
        (identity_name identity_name' : option string)
        (identity_roles identity_roles' : option (list string))
        (protocol protocol' framework framework' : option string)
        (raise_on_deny raise_on_deny' : bool)
        (rs : st Runtime.client) (ss : st Sdk.client)
        (rd sd : value) (rt stamp : Z) :
  let rkey := Runtime._cache_key env action_type action_name arguments in
  let skey := Sdk._cache_key env action_type action_name arguments in
  let rs2 := St (Runtime.mkClient
                   (OD.del (Runtime._cache (self rs)) rkey
                      ++ [(rkey, (rd, rt))])%list
                   (Runtime._audit_buffer (self rs)))
                (tick (world rs)) in
  let ss2 := St (Sdk.mkClient
                   (OD.del (Sdk._cache (self ss)) skey
                      ++ [(skey, (sd, stamp))])%list)
                (tick (world ss)) in
  OD.get (Runtime._cache (self rs)) rkey = Some (rd, rt) ->
  OD.get (Sdk._cache (self ss)) skey = Some (sd, stamp) ->
  (time_time env (clock_reads (world rs)) - rt < Runtime._cache_ttl rcfg)%Z ->
  (time_time env (clock_reads (world ss)) - stamp < Sdk._cache_ttl scfg)%Z ->
  (Runtime.evaluate env rcfg action_type action_name arguments destination rs
   = (Ret rd, rs2)
   /\ ((Runtime._cache_ttl rcfg
        <= time_time env (S (clock_reads (world rs))) - rt)%Z ->
       exists later,
         sent (world (snd (Runtime.evaluate env rcfg action_type action_name
                                            arguments destination' rs2)))
         = (later
              ++ Runtime.evaluate_request rcfg action_type action_name
                                          arguments destination'
              :: sent (world rs))%list))
  /\ (Sdk.evaluate env scfg action_type action_name arguments destination
                   identity_name identity_roles protocol framework
                   raise_on_deny ss
      = (Ret sd, ss2)
      /\ ((Sdk._cache_ttl scfg
           <= time_time env (S (clock_reads (world ss))) - stamp)%Z ->
          exists later,
            sent (world (snd (Sdk.evaluate env scfg action_type action_name
                                arguments destination' identity_name'
                                identity_roles' protocol' framework'
                                raise_on_deny' ss2)))
            = (later
                 ++ Sdk.evaluate_request env scfg action_type action_name
                      arguments destination' identity_name' identity_roles'
                      protocol' framework'
                 :: sent (world ss))%list)).
Proof.
  intros rkey skey rs2 ss2 Gr Gs Tr Ts. split; split.
  - unfold Runtime.evaluate, bind. fold rkey.
    rewrite (runtime_lookup_fresh env rcfg rkey rs rd rt Gr Tr).
    unfold OD.move_to_end. rewrite Gr. reflexivity.
  - intros Hexp.
    assert (G2 : OD.get (Runtime._cache (self rs2)) rkey = Some (rd, rt)).
    { apply get_app_last. apply get_del_same. }
    assert (E := runtime_lookup_expired env rcfg rkey rs2 rd rt G2 Hexp).
    apply (runtime_miss_sends env rcfg _ _ _ destination' rs2 _ E).
  - unfold Sdk.evaluate, bind. fold skey.
    rewrite (sdk_lookup_fresh env scfg skey ss sd stamp Gs Ts).
    unfold OD.move_to_end. rewrite Gs. reflexivity.
  - intros Hexp.
    assert (G2 : OD.get (Sdk._cache (self ss2)) skey = Some (sd, stamp)).
    { apply get_app_last. apply get_del_same. }
    assert (E := sdk_lookup_expired env scfg skey ss2 sd stamp G2 Hexp).
    apply (sdk_miss_sends env scfg _ _ _ destination' identity_name'
             identity_roles' protocol' framework' raise_on_deny' ss2 _ E).
Qed.

Lemma X11_hit_refreshes_recency_not_ttl_witness :
  let env := Mock.env [] in
  let key := ("command_exec", "echo", "") in
  let entry := (key, (VDict Mock.allow_response, 0%Z)) in
  let at_four := mkWorld [] 4 [] [] in
  Runtime.evaluate env (Mock.runtime_cfg "open") "command_exec" "echo"
                   None None (St (Runtime.mkClient [entry] []) at_four)
  = (Ret (VDict Mock.allow_response),
     St (Runtime.mkClient [entry] []) (tick at_four))
  /\ Sdk.evaluate env (Mock.sdk_cfg "open") "command_exec" "echo"
                  None None None None None None true
                  (St (Sdk.mkClient [entry]) at_four)
     = (Ret (VDict Mock.allow_response),
        St (Sdk.mkClient [entry]) (tick at_four)).
Proof.
  intros env key entry at_four.
  destruct (X11_hit_refreshes_recency_not_ttl env (Mock.runtime_cfg "open")
              (Mock.sdk_cfg "open") "command_exec" "echo" None None None
              None None None None None None None None true true
              (St (Runtime.mkClient [entry] []) at_four)
              (St (Sdk.mkClient [entry]) at_four)
              (VDict Mock.allow_response) (VDict Mock.allow_response) 0%Z 0%Z
              eq_refl eq_refl ltac:(simpl; lia) ltac:(simpl; lia))
    as [[R _] [S _]].
  split; [exact R|exact S].
Defined.

(* ------------------------------------------------------------------ *)
(** ** The pollers on a denial *)

Lemma length_sent_after_polls n secs req w :
  length (sent (after_polls n secs req w)) = (length (sent w) + n)%nat.
Proof.
  rewrite sent_after_polls, length_app, repeat_length. lia.
Qed.

Lemma denied_status_dict d :
  denied_status (Body (VDict d)) = true ->
  (eq_str (dict_get d "status" (VStr "")) "approved"
   || eq_str (dict_get d "status" (VStr "")) "allow") = false
  /\ (eq_str (dict_get d "status" (VStr "")) "denied"
      || eq_str (dict_get d "status" (VStr "")) "deny") = true.
Proof.
  unfold denied_status. intros H. apply andb_true_iff in H.
  destruct H as [Ha Hd]. apply negb_true_iff in Ha. split; assumption.
Qed.

Section Denied.

Variable env : Env.
Variable request_id : value.
Variable original_response : dict.

(** Rounds that see no terminal status only use up the budget. *)
Lemma runtime_poll_loop_skip (cfg : Runtime.config) k : forall m s,
  let req := GET (Runtime.status_url env cfg request_id)
                 (Runtime.auth_headers cfg) in
  (forall i, (i < k)%nat ->
     terminal_status (urlopen env (length (sent (world s)) + i) req) = false) ->
  Runtime.poll_loop env cfg (k + m) request_id (VDict original_response) s
  = Runtime.poll_loop env cfg m request_id (VDict original_response)
      (St (self s) (after_polls k Runtime.poll_interval req (world s))).
Proof.
  induction k as [|k IH]; intros m s req Hpend.
  - simpl. rewrite st_eta. reflexivity.
  - assert (H0 := Hpend 0%nat ltac:(lia)). rewrite Nat.add_0_r in H0.
    assert (E : Runtime.poll_loop env cfg (k + m) request_id
                  (VDict original_response)
                  (St (self s) (log_request req
                                  (log_sleep Runtime.poll_interval (world s))))
                = Runtime.poll_loop env cfg m request_id
                    (VDict original_response)
                    (St (self s)
                        (after_polls (S k) Runtime.poll_interval req
                                     (world s)))).
    { apply (IH m (St (self s) (log_request req
                                  (log_sleep Runtime.poll_interval (world s))))).
      intros i Hi. specialize (Hpend (S i) ltac:(lia)).
      rewrite Nat.add_succ_r in Hpend. exact Hpend. }
    clear IH Hpend.
    change (S k + m)%nat with (S (k + m)).
    cbn [Runtime.poll_loop]. unfold_monad. unfold Runtime.poll_once.
    unfold_monad. cbn [self world sent log_sleep log_request].
    fold req.
    destruct (urlopen env (length (sent (world s))) req) as [text|v];
      [exact E|].
    destruct v; try exact E.
    apply terminal_status_false_dict in H0. destruct H0 as [Ha Hd].
    unfold_monad. cbv beta iota. rewrite Ha, Hd. exact E.
Qed.

Lemma sdk_poll_loop_skip (cfg : Sdk.config) raise_on_deny k : forall m s,
  let req := GET (Sdk.status_url env cfg request_id) (Sdk.auth_headers cfg) in
  (forall i, (i < k)%nat ->
     terminal_status (urlopen env (length (sent (world s)) + i) req) = false) ->
  Sdk.poll_loop env cfg (k + m) request_id (VDict original_response)
                raise_on_deny s
  = Sdk.poll_loop env cfg m request_id (VDict original_response) raise_on_deny
      (St (self s) (after_polls k Sdk.poll_interval req (world s))).
Proof.
  induction k as [|k IH]; intros m s req Hpend.
  - simpl. rewrite st_eta. reflexivity.
  - assert (H0 := Hpend 0%nat ltac:(lia)). rewrite Nat.add_0_r in H0.
    assert (E : Sdk.poll_loop env cfg (k + m) request_id
                  (VDict original_response) raise_on_deny
                  (St (self s) (log_request req
                                  (log_sleep Sdk.poll_interval (world s))))
                = Sdk.poll_loop env cfg m request_id
                    (VDict original_response) raise_on_deny
                    (St (self s)
                        (after_polls (S k) Sdk.poll_interval req (world s)))).
    { apply (IH m (St (self s) (log_request req
                                  (log_sleep Sdk.poll_interval (world s))))).
      intros i Hi. specialize (Hpend (S i) ltac:(lia)).
      rewrite Nat.add_succ_r in Hpend. exact Hpend. }
    clear IH Hpend.
    change (S k + m)%nat with (S (k + m)).
    cbn [Sdk.poll_loop]. unfold_monad. unfold Sdk.poll_once.
    unfold_monad. cbn [self world sent log_sleep log_request].
    fold req.
    destruct (urlopen env (length (sent (world s))) req) as [text|v];
      [exact E|].
    destruct v; try exact E.
    apply terminal_status_false_dict in H0. destruct H0 as [Ha Hd].
    unfold_monad. cbv beta iota. rewrite Ha, Hd. exact E.
Qed.

End Denied.

(** X12.  When the reviewer denies the request after [k < 30] polls without
    a terminal status, both pollers stop after [k + 1] waits and polls.  The
    runtime poller returns a Deny whose reason is the one of the status
    payload, or ["denied by reviewer"] when it has none, with the
    [help_text] of the original response.  The SDK poller builds the same
    Deny with the rule of the original response and returns it when
    [raise_on_deny] is false; otherwise it raises [PolicyDeniedError]
    carrying that reason and rule, its own [except Exception] clause
    notwithstanding. *)
Theorem X12_reviewer_denial
        (env : Env) (rcfg : Runtime.config) (scfg : Sdk.config)
        (request_id : value) (original status_data : dict)
        (raise_on_deny : bool) (k : nat)
        (rs : st Runtime.client) (ss : st Sdk.client) :
  let rpoll := GET (Runtime.status_url env rcfg request_id)
                   (Runtime.auth_headers rcfg) in
  let spoll := GET (Sdk.status_url env scfg request_id)
                   (Sdk.auth_headers scfg) in
  let reason := dict_get status_data "reason" (VStr "denied by reviewer") in
  (k < 30)%nat ->
  no_terminal_reply env (length (sent (world rs))) k rpoll = true ->
  no_terminal_reply env (length (sent (world ss))) k spoll = true ->
  urlopen env (length (sent (world rs)) + k) rpoll = Body (VDict status_data) ->
  urlopen env (length (sent (world ss)) + k) spoll = Body (VDict status_data) ->
  denied_status (Body (VDict status_data)) = true ->
  Runtime._poll_approval env rcfg request_id (VDict original) rs
  = (Ret (runtime_denied request_id status_data original),
     St (self rs) (after_polls (S k) 2 rpoll (world rs)))
  /\ Sdk._poll_approval env scfg request_id (VDict original) raise_on_deny ss
     = (if raise_on_deny
        then Raise (policy_denied env reason original)
        else Ret (sdk_denied request_id status_data original),
        St (self ss) (after_polls (S k) 2 spoll (world ss))).
Proof.
  intros rpoll spoll reason Hk Hr Hs Ur Us Hden.
  destruct (denied_status_dict _ Hden) as [Ha Hd].
  split.
  - unfold Runtime._poll_approval, bind.
    replace Runtime.max_polls with (k + S (29 - k))%nat
      by (unfold Runtime.max_polls; lia).
    rewrite (runtime_poll_loop_skip env request_id original rcfg k
               (S (29 - k)) rs (no_terminal_reply_spec _ _ _ _ Hr)).
    fold rpoll. rewrite after_polls_succ.
    cbn [Runtime.poll_loop]. unfold_monad. unfold Runtime.poll_once.
    unfold_monad. cbn [self world sent log_sleep log_request].
    fold rpoll. rewrite length_sent_after_polls, Ur.
    run_monad. rewrite Ha, Hd. reflexivity.
  - unfold Sdk._poll_approval, bind.
    replace Sdk.max_polls with (k + S (29 - k))%nat
      by (unfold Sdk.max_polls; lia).
    rewrite (sdk_poll_loop_skip env request_id original scfg raise_on_deny k
               (S (29 - k)) ss (no_terminal_reply_spec _ _ _ _ Hs)).
    fold spoll. rewrite after_polls_succ.
    cbn [Sdk.poll_loop]. unfold_monad. unfold Sdk.poll_once.
    unfold_monad. cbn [self world sent log_sleep log_request].
    fold spoll. rewrite length_sent_after_polls, Us.
    run_monad. rewrite Ha, Hd.
    destruct raise_on_deny; reflexivity.
Qed.

Lemma X12_reviewer_denial_witness :
  let denied := [("request_id", VStr "req-approval-1");
                 ("status", VStr "denied");
                 ("reason", VStr "not on a Friday")] in
  let env := Mock.env [Body (VDict Mock.pending_response);
                       Body (VDict denied)] in
  let rid := VStr "req-approval-1" in
  fst (Runtime._poll_approval env (Mock.runtime_cfg "open") rid
                              (VDict Mock.eval_response) Mock.runtime_start)
  = Ret (VDict [("decision", VStr "deny");
                ("reason", VStr "not on a Friday");
                ("request_id", rid);
                ("help_text", VStr "")])
  /\ fst (Sdk._poll_approval env (Mock.sdk_cfg "open") rid
                             (VDict Mock.eval_response) true Mock.sdk_start)
     = Raise (PolicyDeniedError "Policy denied: not on a Friday"
                (VStr "rule-approval") (VStr "needs-approval")
                (VStr "not on a Friday") (VStr "") (VStr "")).
Proof.
  intros denied env rid.
  destruct (X12_reviewer_denial env (Mock.runtime_cfg "open")
              (Mock.sdk_cfg "open") rid Mock.eval_response denied true 1
              Mock.runtime_start Mock.sdk_start
              ltac:(lia) eq_refl eq_refl eq_refl eq_refl eq_refl) as [R S].
  rewrite R, S. split; reflexivity.
Defined.

(* ------------------------------------------------------------------ *)
(** ** A Deny from the server *)

(** X13.  When a miss is answered by a Deny, the SDK client caches nothing
    and, with [raise_on_deny], raises [PolicyDeniedError] whose message is
    ["Policy denied: "] followed by the reason and whose fields are the
    [rule_id], [rule_name], [reason], [help_url] and [help_text] of the
    response, each [""] when missing; without [raise_on_deny] it returns the
    response.  The runtime client always returns the response. *)
Theorem X13_server_deny
        (env : Env) (rcfg : Runtime.config) (scfg : Sdk.config)
        (action_type action_name : string) (arguments destination : option dict)
        (identity_name : option string) (identity_roles : option (list string))
        (protocol framework : option string) (raise_on_deny : bool)
        (rs rs1 : st Runtime.client) (ss ss1 : st Sdk.client)
        (resp : dict) :
  let rreq := Runtime.evaluate_request rcfg action_type action_name
                                       arguments destination in
  let sreq := Sdk.evaluate_request env scfg action_type action_name
                arguments destination identity_name identity_roles
                protocol framework in
  Runtime.cache_lookup env rcfg
    (Runtime._cache_key env action_type action_name arguments) rs
  = (Ret None, rs1) ->
  Sdk.cache_lookup env scfg
    (Sdk._cache_key env action_type action_name arguments) ss
  = (Ret None, ss1) ->
  urlopen env (length (sent (world rs1))) rreq = Body (VDict resp) ->
  urlopen env (length (sent (world ss1))) sreq = Body (VDict resp) ->
  dict_get resp "decision" (VStr "allow") = VStr "deny" ->
  Runtime.evaluate env rcfg action_type action_name arguments destination rs
  = (Ret (VDict resp), St (self rs1) (log_request rreq (world rs1)))
  /\ Sdk.evaluate env scfg action_type action_name arguments destination
                  identity_name identity_roles protocol framework
                  raise_on_deny ss
     = (if raise_on_deny
        then Raise (policy_denied env (dict_get resp "reason" (VStr "")) resp)
        else Ret (VDict resp),
        St (self ss1) (log_request sreq (world ss1))).
Proof.
  intros rreq sreq Hr Hs Ur Us Hd. split.
  - apply (runtime_other_step env rcfg _ _ _ _ rs rs1 resp Hr Ur);
      rewrite Hd; reflexivity.
  - unfold Sdk.evaluate, bind. rewrite Hs.
    unfold try_except, do_urlopen. fold sreq. rewrite Us.
    unfold Sdk.on_response. run_monad. rewrite Hd.
    change (eq_str (VStr "deny") "approval_required") with false.
    change (eq_str (VStr "deny") "allow") with false.
    change (eq_str (VStr "deny") "deny") with true.
    destruct raise_on_deny; reflexivity.
Qed.

Lemma X13_server_deny_witness :
  fst (Mock.sdk_evaluate [Body (VDict Mock.deny_response)] "open"
                         "command_exec" "rm" Mock.sdk_start)
  = Raise (PolicyDeniedError "Policy denied: rm is blocked"
             (VStr "rule-1") (VStr "block-rm") (VStr "rm is blocked")
             (VStr "/admin/policies#rule-rule-1") (VStr "Contact admin"))
  /\ fst (Mock.runtime_evaluate [Body (VDict Mock.deny_response)] "open"
                                "command_exec" "rm" Mock.runtime_start)
     = Ret (VDict Mock.deny_response).
Proof.
  destruct (X13_server_deny (Mock.env [Body (VDict Mock.deny_response)])
              (Mock.runtime_cfg "open") (Mock.sdk_cfg "open")
              "command_exec" "rm" None None None None None None true
              Mock.runtime_start Mock.runtime_start
              Mock.sdk_start Mock.sdk_start Mock.deny_response
              eq_refl eq_refl eq_refl eq_refl eq_refl) as [R S].
  unfold Mock.sdk_evaluate, Mock.runtime_evaluate.
  rewrite R, S. split; reflexivity.
Defined.

(* ------------------------------------------------------------------ *)
(** ** What the pollers can answer *)

Section PollerVerdict.

Variable env : Env.
Variables request_id original_response : value.

Lemma runtime_poll_loop_verdict (cfg : Runtime.config) n : forall s,
  let req := GET (Runtime.status_url env cfg request_id)
                 (Runtime.auth_headers cfg) in
  exists k r,
    (k <= n)%nat
    /\ Runtime.poll_loop env cfg n request_id original_response s
       = (Ret r, St (self s)
                    (after_polls k Runtime.poll_interval req (world s)))
    /\ match r with
       | None => k = n
       | Some d =>
           (1 <= k)%nat
           /\ ((reads_as_allow d = true
                /\ approved_status
                     (urlopen env (length (sent (world s)) + (k - 1)) req)
                   = true)
               \/ eq_str (decision_of d) "deny" = true)
       end.
Proof.
  induction n as [|n IH]; intros s req.
  - exists 0%nat, None. split; [lia|]. destruct s; split; reflexivity.
  - destruct (IH (St (self s)
                     (log_request req
                        (log_sleep Runtime.poll_interval (world s)))))
      as (k & r & Hk & E & Hr).
    fold req in E.
    assert (Hcont : exists k0 r0, (k0 <= S n)%nat /\
              Runtime.poll_loop env cfg n request_id original_response
                (St (self s) (log_request req
                                (log_sleep Runtime.poll_interval (world s))))
              = (Ret r0, St (self s)
                   (after_polls k0 Runtime.poll_interval req (world s)))
              /\ match r0 with
                 | None => k0 = S n
                 | Some d =>
                     (1 <= k0)%nat
                     /\ ((reads_as_allow d = true
                          /\ approved_status
                               (urlopen env
                                  (length (sent (world s)) + (k0 - 1)) req)
                             = true)
                         \/ eq_str (decision_of d) "deny" = true)
                 end).
    { exists (S k), r. split; [lia|]. split; [exact E|].
      destruct r as [d|]; [|lia].
      destruct Hr as [Hk1 Hr]. split; [lia|].
      destruct Hr as [[Ha Happ]|Hd]; [left|right; exact Hd].
      split; [exact Ha|].
      cbn [self world sent log_request log_sleep length] in Happ.
      replace (length (sent (world s)) + (S k - 1))%nat
        with (S (length (sent (world s))) + (k - 1))%nat by lia.
      exact Happ. }
    clear IH E Hr.
    cbn [Runtime.poll_loop]. unfold_monad. unfold Runtime.poll_once.
    unfold_monad. cbn [self world sent log_sleep log_request].
    fold req.
    destruct (urlopen env (length (sent (world s))) req) as [text|v] eqn:U;
      [exact Hcont|].
    destruct v; try exact Hcont.
    run_monad.
    destruct (eq_str _ "approved" || eq_str _ "allow") eqn:Ha.
    { exists 1%nat. eexists. split; [lia|]. split; [reflexivity|].
      split; [lia|]. left. split; [reflexivity|].
      rewrite Nat.add_0_r, U. exact Ha. }
    destruct (eq_str _ "denied" || eq_str _ "deny"); [|exact Hcont].
    destruct original_response; run_monad; try exact Hcont.
    exists 1%nat. eexists. split; [lia|]. split; [reflexivity|].
    split; [lia|]. right. reflexivity.
Qed.

Lemma sdk_poll_loop_verdict (cfg : Sdk.config) raise_on_deny n : forall s,
  let req := GET (Sdk.status_url env cfg request_id) (Sdk.auth_headers cfg) in
  exists k r,
    (k <= n)%nat
    /\ Sdk.poll_loop env cfg n request_id original_response raise_on_deny s
       = (r, St (self s) (after_polls k Sdk.poll_interval req (world s)))
    /\ match r with
       | Ret None => k = n
       | Ret (Some d) =>
           (1 <= k)%nat
           /\ ((reads_as_allow d = true
                /\ approved_status
                     (urlopen env (length (sent (world s)) + (k - 1)) req)
                   = true)
               \/ (eq_str (decision_of d) "deny" = true
                   /\ raise_on_deny = false))
       | Raise (PolicyDeniedError _ _ _ _ _ _) =>
           (1 <= k)%nat /\ raise_on_deny = true
       | Raise _ => False
       end.
Proof.
  induction n as [|n IH]; intros s req.
  - exists 0%nat, (Ret None). split; [lia|]. destruct s; split; reflexivity.
  - destruct (IH (St (self s)
                     (log_request req
                        (log_sleep Sdk.poll_interval (world s)))))
      as (k & r & Hk & E & Hr).
    fold req in E.
    assert (Hcont : exists k0 r0, (k0 <= S n)%nat /\
              Sdk.poll_loop env cfg n request_id original_response
                raise_on_deny
                (St (self s) (log_request req
                                (log_sleep Sdk.poll_interval (world s))))
              = (r0, St (self s)
                   (after_polls k0 Sdk.poll_interval req (world s)))
              /\ match r0 with
                 | Ret None => k0 = S n
                 | Ret (Some d) =>
                     (1 <= k0)%nat
                     /\ ((reads_as_allow d = true
                          /\ approved_status
                               (urlopen env
                                  (length (sent (world s)) + (k0 - 1)) req)
                             = true)
                         \/ (eq_str (decision_of d) "deny" = true
                             /\ raise_on_deny = false))
                 | Raise (PolicyDeniedError _ _ _ _ _ _) =>
                     (1 <= k0)%nat /\ raise_on_deny = true
                 | Raise _ => False
                 end).
    { exists (S k), r. split; [lia|]. split; [exact E|].
      destruct r as [[d|]|e]; [|lia|destruct e; try exact Hr;
                                     split; [lia|apply Hr]].
      destruct Hr as [Hk1 Hr]. split; [lia|].
      destruct Hr as [[Ha Happ]|Hd]; [left|right; exact Hd].
      split; [exact Ha|].
      cbn [self world sent log_request log_sleep length] in Happ.
      replace (length (sent (world s)) + (S k - 1))%nat
        with (S (length (sent (world s))) + (k - 1))%nat by lia.
      exact Happ. }
    clear IH E Hr.
    cbn [Sdk.poll_loop]. unfold_monad. unfold Sdk.poll_once.
    unfold_monad. cbn [self world sent log_sleep log_request].
    fold req.
    destruct (urlopen env (length (sent (world s))) req) as [text|v] eqn:U;
      [exact Hcont|].
    destruct v; try exact Hcont.
    run_monad.
    destruct (eq_str _ "approved" || eq_str _ "allow") eqn:Ha.
    { destruct original_response; run_monad; try exact Hcont.
      exists 1%nat. eexists. split; [lia|]. split; [reflexivity|].
      split; [lia|]. left. split; [reflexivity|].
      rewrite Nat.add_0_r, U. exact Ha. }
    destruct (eq_str _ "denied" || eq_str _ "deny"); [|exact Hcont].
    destruct original_response; run_monad; try exact Hcont.
    destruct raise_on_deny eqn:Erod; run_monad.
    + exists 1%nat. eexists. split; [lia|]. split; [reflexivity|].
      split; [lia|reflexivity].
    + exists 1%nat. eexists. split; [lia|]. split; [reflexivity|].
      split; [lia|]. right. split; reflexivity.
Qed.

End PollerVerdict.

(** X14.  An approval poller always comes to an end within 30 sleep-and-poll
    rounds, having made at least one, and touches nothing but the log of
    sleeps and requests.  It resolves to Allow only when the last poll it
    made was answered [approved] or [allow].  Otherwise the runtime poller
    returns a Deny and never raises; the SDK poller returns a Deny (only
    without [raise_on_deny]), raises [PolicyDeniedError] (only with
    [raise_on_deny]) or, after the 30th round, [ApprovalTimeoutError], and
    raises nothing else. *)
Theorem X14_pollers_allow_only_on_approval
        (env : Env) (rcfg : Runtime.config) (scfg : Sdk.config)
        (request_id original_response : value) (raise_on_deny : bool)
        (rs : st Runtime.client) (ss : st Sdk.client) :
  let rpoll := GET (Runtime.status_url env rcfg request_id)
                   (Runtime.auth_headers rcfg) in
  let spoll := GET (Sdk.status_url env scfg request_id)
                   (Sdk.auth_headers scfg) in
  (exists k d,
      (1 <= k <= 30)%nat
      /\ Runtime._poll_approval env rcfg request_id original_response rs
         = (Ret d, St (self rs) (after_polls k 2 rpoll (world rs)))
      /\ ((reads_as_allow d = true
           /\ approved_status
                (urlopen env (length (sent (world rs)) + (k - 1)) rpoll)
              = true)
          \/ eq_str (decision_of d) "deny" = true))
  /\ (exists k r,
         (1 <= k <= 30)%nat
         /\ Sdk._poll_approval env scfg request_id original_response
                               raise_on_deny ss
            = (r, St (self ss) (after_polls k 2 spoll (world ss)))
         /\ match r with
            | Ret d =>
                (reads_as_allow d = true
                 /\ approved_status
                      (urlopen env (length (sent (world ss)) + (k - 1)) spoll)
                    = true)
                \/ (eq_str (decision_of d) "deny" = true
                    /\ raise_on_deny = false)
            | Raise (PolicyDeniedError _ _ _ _ _ _) => raise_on_deny = true
            | Raise (ApprovalTimeoutError _ _) => k = 30%nat
            | Raise _ => False
            end).
Proof.
  intros rpoll spoll. split.
  - destruct (runtime_poll_loop_verdict env request_id original_response rcfg
                Runtime.max_polls rs) as (k & r & Hk & E & Hr).
    unfold Runtime._poll_approval, bind. rewrite E.
    unfold Runtime.max_polls in *.
    destruct r as [d|].
    + destruct Hr as [Hk1 Hr]. exists k, d.
      split; [lia|]. split; [reflexivity|exact Hr].
    + subst k. eexists 30%nat, _.
      split; [lia|]. split; [reflexivity|]. right. reflexivity.
  - destruct (sdk_poll_loop_verdict env request_id original_response scfg
                raise_on_deny Sdk.max_polls ss) as (k & r & Hk & E & Hr).
    unfold Sdk._poll_approval, bind. rewrite E.
    unfold Sdk.max_polls in *.
    destruct r as [[d|]|e].
    + destruct Hr as [Hk1 Hr]. exists k, (Ret d).
      split; [lia|]. split; [reflexivity|exact Hr].
    + subst k. eexists 30%nat, _.
      split; [lia|]. split; [reflexivity|]. reflexivity.
    + destruct e; try contradiction. destruct Hr as [Hk1 Hr].
      eexists k, _. split; [lia|]. split; [reflexivity|exact Hr].
Qed.

(* ------------------------------------------------------------------ *)
(** ** What [evaluate] can raise *)

(** X15.  The runtime client's [evaluate] lets only two exceptions through:
    the [PermissionError] of the fail-closed mode, raised only when
    [fail_mode] is ["closed"], and the [AttributeError] of a response body
    that is not an object.  The SDK client's [evaluate] (with a non-negative
    [cache_max_size]) lets through [ServerUnreachableError] only when
    [fail_mode] is ["closed"], [PolicyDeniedError] only when [raise_on_deny]
    is set, [ApprovalTimeoutError], and that same [AttributeError]. *)
Theorem X15_evaluate_raises_only
        (env : Env) (rcfg : Runtime.config) (scfg : Sdk.config)
        (action_type action_name : string) (arguments destination : option dict)
        (identity_name : option string) (identity_roles : option (list string))
        (protocol framework : option string) (raise_on_deny : bool)
        (rs : st Runtime.client) (ss : st Sdk.client) :
  (0 <= Sdk._cache_max_size scfg)%Z ->
  (forall e,
      fst (Runtime.evaluate env rcfg action_type action_name arguments
                            destination rs)
      = Raise e ->
      runtime_may_raise rcfg e)
  /\ (forall e,
         fst (Sdk.evaluate env scfg action_type action_name arguments
                           destination identity_name identity_roles protocol
                           framework raise_on_deny ss)
         = Raise e ->
         sdk_may_raise scfg raise_on_deny e).
Proof.
  intros Hmax. split; intros e.
  - unfold Runtime.evaluate, bind.
    destruct (runtime_lookup_frame env rcfg
                (Runtime._cache_key env action_type action_name arguments) rs)
      as (r & s1 & E & _).
    rewrite E. destruct r as [d|]; [discriminate|].
    unfold try_except, do_urlopen.
    destruct (urlopen env _ _) as [text|v].
    + unfold Runtime.on_failure, Runtime._buffer_audit_event. run_monad.
      destruct (_ =? _)%string eqn:M; [|discriminate].
      apply String.eqb_eq in M. cbn [fst]. intros H; inversion H; subst.
      left. split; [reflexivity|exact M].
    + unfold Runtime.on_response. run_monad.
      destruct v; cbn [fst];
        try (intros H; inversion H; subst; right; reflexivity).
      destruct (eq_str _ "approval_required").
      * destruct (truthy _); [|discriminate].
        match goal with
        | |- context [Runtime._poll_approval env rcfg ?rid ?orig ?s0] =>
            destruct (runtime_poll_approval_frame env rcfg rid orig s0)
              as (k & d0 & _ & E0); rewrite E0
        end.
        discriminate.
      * destruct (eq_str _ "allow"); [|discriminate].
        unfold Runtime.cache_store, Runtime.set_cache. run_monad.
        match goal with
        | |- context [OD.evict ?m ?od] =>
            destruct (evict_returns _ m od
                        ltac:(unfold Runtime._cache_max; lia)) as [c Ev];
              rewrite Ev
        end.
        discriminate.
  - unfold Sdk.evaluate, bind.
    destruct (sdk_lookup_frame env scfg
                (Sdk._cache_key env action_type action_name arguments) ss)
      as (r & s1 & E & _).
    rewrite E. destruct r as [d|]; [discriminate|].
    unfold try_except, do_urlopen.
    destruct (urlopen env _ _) as [text|v].
    + unfold Sdk.on_failure. run_monad.
      destruct (_ =? _)%string eqn:M; [|discriminate].
      apply String.eqb_eq in M. cbn [fst]. intros H; inversion H; subst.
      exact M.
    + unfold Sdk.on_response. run_monad.
      destruct v; cbn [fst];
        try (intros H; inversion H; subst; exact I).
      destruct (eq_str _ "approval_required").
      * destruct (truthy _); [|discriminate].
        unfold Sdk._poll_approval, bind.
        match goal with
        | |- context [Sdk.poll_loop env scfg ?n ?rid ?orig ?rod ?s0] =>
            destruct (sdk_poll_loop_frame env scfg rid orig rod n s0)
              as (k & r0 & _ & E0 & Hr0); rewrite E0
        end.
        destruct r0 as [[d0|]|e0]; cbn [fst].
        -- discriminate.
        -- intros H; inversion H; subst. exact I.
        -- intros H; inversion H; subst.
           destruct e; try contradiction. exact Hr0.
      * destruct (eq_str _ "allow").
        -- unfold Sdk.cache_store, Sdk.set_cache. run_monad.
           match goal with
           | |- context [OD.evict ?m ?od] =>
               destruct (evict_returns _ m od Hmax) as [c Ev]; rewrite Ev
           end.
           destruct (eq_str _ "deny" && raise_on_deny) eqn:D;
             [|discriminate].
           apply andb_true_iff in D. destruct D as [_ D].
           cbn [fst]. intros H; injection H as <-. exact D.
        -- destruct (eq_str _ "deny" && raise_on_deny) eqn:D;
             [|discriminate].
           apply andb_true_iff in D. destruct D as [_ D].
           cbn [fst]. intros H; injection H as <-. exact D.
Qed.

Lemma X15_evaluate_raises_only_witness :
  runtime_may_raise (Mock.runtime_cfg "closed") runtime_unreachable
  /\ sdk_may_raise (Mock.sdk_cfg "open") true
       (PolicyDeniedError "Policy denied: rm is blocked"
          (VStr "rule-1") (VStr "block-rm") (VStr "rm is blocked")
          (VStr "/admin/policies#rule-rule-1") (VStr "Contact admin")).
Proof.
  destruct (X15_evaluate_raises_only
              (Mock.env [Body (VDict Mock.deny_response)])
              (Mock.runtime_cfg "closed") (Mock.sdk_cfg "open")
              "command_exec" "rm" None None None None None None true
              (St Runtime.fresh_client (mkWorld [GET "" []] 0 [] []))
              Mock.sdk_start ltac:(simpl; lia)) as [R S].
  split.
  - apply R. reflexivity.
  - apply S. reflexivity.
Defined.

(* ------------------------------------------------------------------ *)
(** ** The fail mode is compared with ["closed"] only *)

(** X16.  Only the exact string ["closed"] makes a client fail closed.  With
    any other [fail_mode] (["open"], but also ["CLOSED"], ["close"] or
    [""]) a failed transport request makes [evaluate] return the fail-open
    Allow. *)
Theorem X16_only_closed_fails_closed
        (env : Env) (rcfg : Runtime.config) (scfg : Sdk.config)
        (action_type action_name : string) (arguments destination : option dict)
        (identity_name : option string) (identity_roles : option (list string))
        (protocol framework : option string) (raise_on_deny : bool)
        (rs rs1 : st Runtime.client) (ss ss1 : st Sdk.client)
        (rtext stext : string) :
  Runtime._fail_mode rcfg <> "closed" ->
  Sdk._fail_mode scfg <> "closed" ->
  Runtime.cache_lookup env rcfg
    (Runtime._cache_key env action_type action_name arguments) rs
  = (Ret None, rs1) ->
  Sdk.cache_lookup env scfg
    (Sdk._cache_key env action_type action_name arguments) ss
  = (Ret None, ss1) ->
  urlopen env (length (sent (world rs1)))
          (Runtime.evaluate_request rcfg action_type action_name
                                    arguments destination)
  = Failed rtext ->
  urlopen env (length (sent (world ss1)))
          (Sdk.evaluate_request env scfg action_type action_name arguments
             destination identity_name identity_roles protocol framework)
  = Failed stext ->
  fst (Runtime.evaluate env rcfg action_type action_name arguments
                        destination rs)
  = Ret runtime_fail_open
  /\ fst (Sdk.evaluate env scfg action_type action_name arguments destination
                       identity_name identity_roles protocol framework
                       raise_on_deny ss)
     = Ret sdk_fail_open.
Proof.
  intros Mr Ms Hr Hs Ur Us.
  apply String.eqb_neq in Mr. apply String.eqb_neq in Ms. split.
  - unfold Runtime.evaluate, bind. rewrite Hr.
    unfold try_except, do_urlopen. rewrite Ur.
    unfold Runtime.on_failure. rewrite Mr. reflexivity.
  - unfold Sdk.evaluate, bind. rewrite Hs.
    unfold try_except, do_urlopen. rewrite Us.
    unfold Sdk.on_failure. rewrite Ms. reflexivity.
Qed.

Lemma X16_only_closed_fails_closed_witness :
  fst (Mock.runtime_evaluate [] "CLOSED" "command_exec" "rm"
                             Mock.runtime_start)
  = Ret runtime_fail_open
  /\ fst (Mock.sdk_evaluate [] "close" "command_exec" "rm" Mock.sdk_start)
     = Ret sdk_fail_open.
Proof.
  split.
  - apply (proj1 (X16_only_closed_fails_closed (Mock.env [])
                    (Mock.runtime_cfg "CLOSED") (Mock.sdk_cfg "close")
                    "command_exec" "rm" None None None None None None true
                    Mock.runtime_start Mock.runtime_start
                    Mock.sdk_start Mock.sdk_start
                    "Connection refused" "Connection refused"
                    ltac:(discriminate) ltac:(discriminate)
                    eq_refl eq_refl eq_refl eq_refl)).
  - apply (proj2 (X16_only_closed_fails_closed (Mock.env [])
                    (Mock.runtime_cfg "CLOSED") (Mock.sdk_cfg "close")
                    "command_exec" "rm" None None None None None None true
                    Mock.runtime_start Mock.runtime_start
                    Mock.sdk_start Mock.sdk_start
                    "Connection refused" "Connection refused"
                    ltac:(discriminate) ltac:(discriminate)
                    eq_refl eq_refl eq_refl eq_refl)).
Defined.

(* ------------------------------------------------------------------ *)
(** ** The interception adapters *)

Section AdapterFacts.

Variable env : Env.
Variable cfg : Runtime.config.
Variable py_split : string -> list string.

(** On a dict the adapters' closing lines block exactly a ["deny"]. *)
Lemma raise_if_denied_dict (result : dict) s :
  Adapters.raise_if_denied env (VDict result) s
  = (if Runtime.adapter_blocks result
     then Raise (PermissionError (denied_message env result))
     else Ret tt,
     s).
Proof.
  unfold Adapters.raise_if_denied, Runtime.adapter_blocks, denied_message.
  run_monad.
  destruct (eq_str (dict_get result "decision" (VStr "allow")) "deny");
    [|reflexivity].
  destruct (truthy (dict_get result "help_text" (VStr ""))); reflexivity.
Qed.

(** The adapter of [subprocess] on a command with a name: [evaluate], then
    the closing lines. *)
Lemma check_subprocess_named args kwargs cmd_name cmd_args full_command s :
  Adapters._extract_command env py_split args kwargs
  = (cmd_name, cmd_args, full_command) ->
  cmd_name <> "" ->
  Adapters._check_subprocess_decision env cfg py_split args kwargs s
  = bind (Runtime.evaluate env cfg "command_exec" cmd_name
            (Some [("args", VList (map VStr cmd_args));
                   ("full_command", VStr full_command)])
            None)
         (Adapters.raise_if_denied env) s.
Proof.
  intros E Hne. unfold Adapters._check_subprocess_decision. rewrite E.
  apply String.eqb_neq in Hne. rewrite Hne. reflexivity.
Qed.

End AdapterFacts.

(** X17.  [_check_subprocess_decision] has nothing to evaluate when no
    command is given ([None], or neither a positional argument nor an
    [args] keyword), when the command is an empty list, or when it is the
    empty string (which [split] turns into no parts): the call goes on
    without any request. *)
Theorem X17_no_command_no_evaluation
        (env : Env) (cfg : Runtime.config) (py_split : string -> list string)
        (args : list value) (kwargs : dict) (s : st Runtime.client) :
  let cmd := match args with
             | a :: _ => a
             | [] => dict_get kwargs "args" VNone
             end in
  cmd = VNone \/ cmd = VList [] \/ (cmd = VStr "" /\ py_split "" = []) ->
  Adapters._check_subprocess_decision env cfg py_split args kwargs s
  = (Ret tt, s).
Proof.
  intros cmd H.
  unfold Adapters._check_subprocess_decision, Adapters._extract_command.
  fold cmd.
  destruct H as [->|[->|[-> Hs]]]; try reflexivity.
  rewrite Hs. reflexivity.
Qed.

Lemma X17_no_command_no_evaluation_witness :
  Adapters._check_subprocess_decision (Mock.env []) (Mock.runtime_cfg "closed")
    MockAdapters.split [] [("shell", VBool true)] Mock.runtime_start
  = (Ret tt, Mock.runtime_start)
  /\ Adapters._check_subprocess_decision (Mock.env [])
       (Mock.runtime_cfg "closed") MockAdapters.split [VStr ""] []
       Mock.runtime_start
     = (Ret tt, Mock.runtime_start).
Proof.
  split.
  - apply (X17_no_command_no_evaluation (Mock.env [])
             (Mock.runtime_cfg "closed") MockAdapters.split
             [] [("shell", VBool true)] Mock.runtime_start).
    left. reflexivity.
  - apply (X17_no_command_no_evaluation (Mock.env [])
             (Mock.runtime_cfg "closed") MockAdapters.split
             [VStr ""] [] Mock.runtime_start).
    right. right. split; reflexivity.
Defined.

(** X18.  For a command with a name whose evaluation misses the cache and is
    decided by the server's response on the spot, the [subprocess] adapter
    blocks the call exactly when the response's decision is ["deny"],
    raising [PermissionError] with the message ["SentinelGate: Action denied
    - <reason>"], followed by [". <help_text>"] when the response has a help
    text.  Every other response lets the command run: an Allow, an unknown
    decision, a response without a decision, and an [approval_required] that
    has no [request_id]. *)
Theorem X18_adapter_blocks_only_deny
        (env : Env) (cfg : Runtime.config) (py_split : string -> list string)
        (args : list value) (kwargs : dict)
        (cmd_name : string) (cmd_args : list string) (full_command : string)
        (s s1 : st Runtime.client) (resp : dict) :
  let arguments := Some [("args", VList (map VStr cmd_args));
                         ("full_command", VStr full_command)] in
  Adapters._extract_command env py_split args kwargs
  = (cmd_name, cmd_args, full_command) ->
  cmd_name <> "" ->
  Runtime.cache_lookup env cfg
    (Runtime._cache_key env "command_exec" cmd_name arguments) s
  = (Ret None, s1) ->
  urlopen env (length (sent (world s1)))
          (Runtime.evaluate_request cfg "command_exec" cmd_name arguments None)
  = Body (VDict resp) ->
  eq_str (dict_get resp "decision" (VStr "allow")) "approval_required" = false
  \/ truthy (dict_get resp "request_id" (VStr "")) = false ->
  fst (Adapters._check_subprocess_decision env cfg py_split args kwargs s)
  = if Runtime.adapter_blocks resp
    then Raise (PermissionError (denied_message env resp))
    else Ret tt.
Proof.
  intros arguments Hex Hne Hl Hu Hdec.
  rewrite (check_subprocess_named env cfg py_split args kwargs cmd_name
             cmd_args full_command s Hex Hne).
  fold arguments. unfold bind.
  assert (E : exists s2,
             Runtime.evaluate env cfg "command_exec" cmd_name arguments None s
             = (Ret (VDict resp), s2)).
  { destruct (eq_str (dict_get resp "decision" (VStr "allow"))
                     "approval_required") eqn:Hap.
    - destruct Hdec as [Hdec|Hdec]; [discriminate|].
      eexists. unfold Runtime.evaluate, bind. rewrite Hl.
      unfold try_except, do_urlopen. rewrite Hu.
      unfold Runtime.on_response. run_monad. rewrite Hap, Hdec.
      reflexivity.
    - destruct (reads_as_allow (VDict resp)) eqn:Ha.
      + destruct (runtime_allow_step env cfg _ _ _ None s s1 resp Hl Hu Ha)
          as (cache' & E & _).
        eexists. exact E.
      + eexists.
        apply (runtime_other_step env cfg _ _ _ None s s1 resp Hl Hu Hap Ha). }
  destruct E as [s2 E]. rewrite E.
  rewrite raise_if_denied_dict. reflexivity.
Qed.

Lemma X18_adapter_blocks_only_deny_witness :
  fst (MockAdapters.check_subprocess [Body (VDict Mock.deny_response)] "open"
                                     "rm -rf /" Mock.runtime_start)
  = Raise (PermissionError
             "SentinelGate: Action denied - rm is blocked. Contact admin").
Proof.
  apply (X18_adapter_blocks_only_deny
           (Mock.env [Body (VDict Mock.deny_response)])
           (Mock.runtime_cfg "open") MockAdapters.split
           [VStr "rm -rf /"] [] "rm" ["rm"; "-rf"; "/"] "rm -rf /"
           Mock.runtime_start Mock.runtime_start Mock.deny_response
           eq_refl ltac:(discriminate) eq_refl eq_refl (or_introl eq_refl)).
Defined.

(** X19.  When the server asks for approval and the 30 polls see no terminal
    status, the [subprocess] adapter blocks the command: it raises
    [PermissionError] whose message is ["SentinelGate: Action denied - "]
    followed by the timeout reason ["approval timeout after 60s"], after
    the 30 sleeps of the poller. *)
Theorem X19_adapter_blocks_on_approval_timeout
        (env : Env) (cfg : Runtime.config) (py_split : string -> list string)
        (args : list value) (kwargs : dict)
        (cmd_name : string) (cmd_args : list string) (full_command : string)
        (s s1 : st Runtime.client) (resp : dict) :
  let arguments := Some [("args", VList (map VStr cmd_args));
                         ("full_command", VStr full_command)] in
  let req := Runtime.evaluate_request cfg "command_exec" cmd_name
                                      arguments None in
  let request_id := dict_get resp "request_id" (VStr "") in
  let poll := GET (Runtime.status_url env cfg request_id)
                  (Runtime.auth_headers cfg) in
  Adapters._extract_command env py_split args kwargs
  = (cmd_name, cmd_args, full_command) ->
  cmd_name <> "" ->
  Runtime.cache_lookup env cfg
    (Runtime._cache_key env "command_exec" cmd_name arguments) s
  = (Ret None, s1) ->
  urlopen env (length (sent (world s1))) req = Body (VDict resp) ->
  dict_get resp "decision" (VStr "allow") = VStr "approval_required" ->
  truthy request_id = true ->
  no_terminal_reply env (S (length (sent (world s1)))) 30 poll = true ->
  Adapters._check_subprocess_decision env cfg py_split args kwargs s
  = (Raise (PermissionError
              ("SentinelGate: Action denied - "
                 ++ py_str env (VStr "approval timeout after 60s"))),
     St (self s1) (after_polls 30 2 poll (log_request req (world s1)))).
Proof.
  intros arguments req request_id poll Hex Hne Hl Hu Hd Hid Hpend.
  subst arguments req request_id poll.
  rewrite (check_subprocess_named env cfg py_split args kwargs cmd_name
             cmd_args full_command s Hex Hne).
  unfold bind.
  rewrite (runtime_approval_step env cfg _ _ _ None s s1 resp Hl Hu Hd Hid).
  unfold Runtime._poll_approval, bind.
  rewrite (runtime_poll_loop_exhausts env cfg
             (dict_get resp "request_id" (VStr "")) (VDict resp)
             Runtime.max_polls
             (St (self s1) (log_request _ (world s1)))
             (no_terminal_reply_spec _ _ _ _ Hpend)).
  unfold ret, Runtime.timeout_decision.
  rewrite raise_if_denied_dict. reflexivity.
Qed.

Lemma X19_adapter_blocks_on_approval_timeout_witness :
  let replies := Body (VDict Mock.eval_response)
                 :: repeat (Body (VDict Mock.pending_response)) 30 in
  let run := MockAdapters.check_subprocess replies "open" "deploy prod"
                                           Mock.runtime_start in
  fst run
  = Raise (PermissionError
             "SentinelGate: Action denied - approval timeout after 60s")
  /\ length (slept (world (snd run))) = 30%nat.
Proof.
  intros replies run. subst run. unfold MockAdapters.check_subprocess.
  rewrite (X19_adapter_blocks_on_approval_timeout (Mock.env replies)
             (Mock.runtime_cfg "open") MockAdapters.split
             [VStr "deploy prod"] [] "deploy" ["deploy"; "prod"] "deploy prod"
             Mock.runtime_start Mock.runtime_start Mock.eval_response
             eq_refl ltac:(discriminate) eq_refl eq_refl eq_refl eq_refl
             eq_refl).
  split; reflexivity.
Defined.

(** X20.  When the transport request fails, the [subprocess] adapter lets
    the command run unless [fail_mode] is exactly ["closed"], in which case
    the [PermissionError] of [evaluate] blocks it; either way one audit
    event is buffered. *)
Theorem X20_adapter_when_unreachable
        (env : Env) (cfg : Runtime.config) (py_split : string -> list string)
        (args : list value) (kwargs : dict)
        (cmd_name : string) (cmd_args : list string) (full_command : string)
        (s s1 : st Runtime.client) (text : string) :
  let arguments := Some [("args", VList (map VStr cmd_args));
                         ("full_command", VStr full_command)] in
  let run := Adapters._check_subprocess_decision env cfg py_split
                                                 args kwargs s in
  Adapters._extract_command env py_split args kwargs
  = (cmd_name, cmd_args, full_command) ->
  cmd_name <> "" ->
  Runtime.cache_lookup env cfg
    (Runtime._cache_key env "command_exec" cmd_name arguments) s
  = (Ret None, s1) ->
  urlopen env (length (sent (world s1)))
          (Runtime.evaluate_request cfg "command_exec" cmd_name arguments None)
  = Failed text ->
  fst run = (if (Runtime._fail_mode cfg =? "closed")%string
             then Raise runtime_unreachable
             else Ret tt)
  /\ length (Runtime._audit_buffer (self (snd run)))
     = S (length (Runtime._audit_buffer (self s))).
Proof.
  intros arguments run Hex Hne Hl Hu.
  destruct (runtime_lookup_miss env cfg _ s s1 Hl) as (_ & Haudit & _).
  assert (E : exists ev w',
             run = (if (Runtime._fail_mode cfg =? "closed")%string
                    then Raise runtime_unreachable
                    else Ret tt,
                    St (Runtime.mkClient
                          (Runtime._cache (self s1))
                          (Runtime._audit_buffer (self s1) ++ [ev])%list)
                       w')).
  { subst run.
    rewrite (check_subprocess_named env cfg py_split args kwargs cmd_name
               cmd_args full_command s Hex Hne).
    fold arguments. unfold bind, Runtime.evaluate, bind. rewrite Hl.
    unfold try_except, do_urlopen. rewrite Hu.
    unfold Runtime.on_failure, Runtime._buffer_audit_event. run_monad.
    destruct (Runtime._fail_mode cfg =? "closed")%string;
      eexists _, _; reflexivity. }
  destruct E as (ev & w' & E). rewrite E. cbn [fst snd self].
  split; [reflexivity|].
  cbn [Runtime._audit_buffer]. rewrite length_app, Haudit. simpl. lia.
Qed.

Lemma X20_adapter_when_unreachable_witness :
  fst (MockAdapters.check_subprocess [] "closed" "ls -l" Mock.runtime_start)
  = Raise runtime_unreachable
  /\ fst (MockAdapters.check_subprocess [] "open" "ls -l" Mock.runtime_start)
     = Ret tt.
Proof.
  split.
  - apply (proj1 (X20_adapter_when_unreachable (Mock.env [])
                    (Mock.runtime_cfg "closed") MockAdapters.split
                    [VStr "ls -l"] [] "ls" ["ls"; "-l"] "ls -l"
                    Mock.runtime_start Mock.runtime_start "Connection refused"
                    eq_refl ltac:(discriminate) eq_refl eq_refl)).
  - apply (proj1 (X20_adapter_when_unreachable (Mock.env [])
                    (Mock.runtime_cfg "open") MockAdapters.split
                    [VStr "ls -l"] [] "ls" ["ls"; "-l"] "ls -l"
                    Mock.runtime_start Mock.runtime_start "Connection refused"
                    eq_refl ltac:(discriminate) eq_refl eq_refl)).
Defined.

(** X21.  [os.system] and [subprocess] share their policy question: for a
    command string with a name, [_sg_os_system] performs exactly the
    evaluation that [_check_subprocess_decision] performs for the same
    string, with the same cache key, so a decision cached through one is
    served to the other.  A command that is not a [str] is passed to
    [os.system] without any evaluation. *)
Theorem X21_os_system_like_subprocess
        (env : Env) (cfg : Runtime.config) (py_split : string -> list string)
        (command : string) (kwargs : dict) (s : st Runtime.client) :
  match py_split command with p :: _ => p | [] => command end <> "" ->
  Adapters._sg_os_system env cfg py_split (VStr command) s
  = Adapters._check_subprocess_decision env cfg py_split
                                        [VStr command] kwargs s
  /\ (forall other : value,
         (forall t, other <> VStr t) ->
         Adapters._sg_os_system env cfg py_split other s = (Ret tt, s)).
Proof.
  intros Hne. split.
  - unfold Adapters._sg_os_system, Adapters._check_subprocess_decision,
      Adapters._extract_command.
    apply String.eqb_neq in Hne. rewrite Hne. reflexivity.
  - intros other Hother. destruct other; try reflexivity.
    exfalso. apply (Hother s0). reflexivity.
Qed.

Lemma X21_os_system_like_subprocess_witness :
  Adapters._sg_os_system (Mock.env [Body (VDict Mock.deny_response)])
    (Mock.runtime_cfg "open") MockAdapters.split (VStr "rm -rf /")
    Mock.runtime_start
  = MockAdapters.check_subprocess [Body (VDict Mock.deny_response)] "open"
                                  "rm -rf /" Mock.runtime_start.
Proof.
  apply (proj1 (X21_os_system_like_subprocess
                  (Mock.env [Body (VDict Mock.deny_response)])
                  (Mock.runtime_cfg "open") MockAdapters.split "rm -rf /" []
                  Mock.runtime_start ltac:(discriminate))).
Defined.

Lemma prefix_app (p s : string) : String.prefix p (p ++ s) = true.
Proof.
  induction p as [|c p IH]; simpl.
  - destruct s; reflexivity.
  - destruct (ascii_dec c c) as [_|Hne]; [exact IH|contradiction].
Qed.

Lemma contains_prefix (pattern s : string) :
  String.prefix pattern s = true -> Adapters.contains pattern s = true.
Proof.
  intros H. destruct s; cbn [Adapters.contains]; rewrite H; reflexivity.
Qed.

Lemma contains_app (pattern pre post : string) :
  Adapters.contains pattern (pre ++ pattern ++ post) = true.
Proof.
  induction pre as [|c pre IH].
  - change ("" ++ pattern ++ post) with (pattern ++ post).
    apply contains_prefix, prefix_app.
  - cbn [append Adapters.contains]. rewrite IH. apply orb_true_r.
Qed.

(** X22.  [_sg_open] opens a file without consulting the policy server when
    no path is given, when the path (as text) starts with [/dev/], [/proc/],
    [/sys/] or the bootstrap directory, or when it contains [.pyc],
    [__pycache__] or [site-packages] anywhere: no request is sent and the
    client is left untouched. *)
Theorem X22_open_skips_internal_paths
        (env : Env) (cfg : Runtime.config) (bootstrap_dir : string)
        (file_path : value) (mode : string) (s : st Runtime.client) :
  let path := py_str env file_path in
  file_path = VNone
  \/ (exists rest, path = "/dev/" ++ rest)
  \/ (exists rest, path = "/proc/" ++ rest)
  \/ (exists rest, path = "/sys/" ++ rest)
  \/ (exists rest, path = bootstrap_dir ++ rest)
  \/ (exists before rest, path = before ++ ".pyc" ++ rest)
  \/ (exists before rest, path = before ++ "__pycache__" ++ rest)
  \/ (exists before rest, path = before ++ "site-packages" ++ rest) ->
  Adapters._sg_open env cfg bootstrap_dir file_path mode s = (Ret tt, s).
Proof.
  intros path H.
  destruct H as [->|H]; [reflexivity|].
  unfold Adapters._sg_open. fold path.
  assert (Hskip :
    (if existsb (Adapters.startswith path) Adapters._SKIP_PATH_PREFIXES
     then ret tt
     else if existsb (fun pattern => Adapters.contains pattern path)
                     Adapters._SKIP_PATH_CONTAINS
          then ret tt
          else if Adapters.startswith path bootstrap_dir
               then ret tt
               else
                 bind (Runtime.evaluate env cfg "file_access" "open"
                         (Some [("path", VStr path); ("mode", VStr mode);
                                ("access",
                                 VStr (Adapters.access_of_mode mode))])
                         None)
                      (Adapters.raise_if_denied env)) s
    = (Ret tt, s)).
  { unfold Adapters._SKIP_PATH_PREFIXES, Adapters._SKIP_PATH_CONTAINS,
      Adapters.startswith. cbn [existsb].
    destruct H as [[rest E]|[[rest E]|[[rest E]|[[rest E]|
                  [(b & rest & E)|[(b & rest & E)|(b & rest & E)]]]]]];
      rewrite E;
      rewrite ?prefix_app, ?contains_app, ?orb_true_r; cbn [orb];
      repeat match goal with
             | |- context [if ?b then _ else _] => destruct b
             end; reflexivity. }
  destruct file_path; try exact Hskip. reflexivity.
Qed.

Lemma X22_open_skips_internal_paths_witness :
  MockAdapters.sg_open [] "/home/agent/site-packages/secrets.txt" "w"
                       Mock.runtime_start
  = (Ret tt, Mock.runtime_start).
Proof.
  apply (X22_open_skips_internal_paths (Mock.env [])
           (Mock.runtime_cfg "open") "/opt/sentinelgate/bootstrap"
           (VStr "/home/agent/site-packages/secrets.txt") "w"
           Mock.runtime_start).
  do 7 right. exists "/home/agent/", "/secrets.txt". reflexivity.
Defined.

(** With a path given, [_sg_open] is its chain of skip tests followed by the
    evaluation. *)
Lemma sg_open_with_path (env : Env) (cfg : Runtime.config)
      (bootstrap_dir : string) (file_path : value) (mode : string) :
  file_path <> VNone ->
  Adapters._sg_open env cfg bootstrap_dir file_path mode
  = (let path := py_str env file_path in
     if existsb (Adapters.startswith path) Adapters._SKIP_PATH_PREFIXES
     then ret tt
     else if existsb (fun pattern => Adapters.contains pattern path)
                     Adapters._SKIP_PATH_CONTAINS
          then ret tt
          else if Adapters.startswith path bootstrap_dir
               then ret tt
               else
                 bind (Runtime.evaluate env cfg "file_access" "open"
                         (Some [("path", VStr path); ("mode", VStr mode);
                                ("access",
                                 VStr (Adapters.access_of_mode mode))])
                         None)
                      (Adapters.raise_if_denied env)).
Proof.
  intros H. destruct file_path; try reflexivity. contradiction.
Qed.

(** X23.  For a path that is not skipped, [_sg_open] asks the policy server
    about the action [file_access]/[open] with the path, the mode and the
    access type as arguments, and, when the lookup misses and the response
    is decided on the spot, blocks the [open] exactly when the decision is
    ["deny"].  The access type is never ["read"] for a mode that contains
    [w], [a], [x] or [+]. *)
Theorem X23_open_blocks_only_deny
        (env : Env) (cfg : Runtime.config) (bootstrap_dir : string)
        (file_path : value) (mode : string)
        (s s1 : st Runtime.client) (resp : dict) :
  let path := py_str env file_path in
  let arguments := Some [("path", VStr path);
                         ("mode", VStr mode);
                         ("access", VStr (Adapters.access_of_mode mode))] in
  let req := Runtime.evaluate_request cfg "file_access" "open"
                                      arguments None in
  let run := Adapters._sg_open env cfg bootstrap_dir file_path mode s in
  file_path <> VNone ->
  existsb (Adapters.startswith path) Adapters._SKIP_PATH_PREFIXES = false ->
  existsb (fun pattern => Adapters.contains pattern path)
          Adapters._SKIP_PATH_CONTAINS = false ->
  Adapters.startswith path bootstrap_dir = false ->
  Runtime.cache_lookup env cfg
    (Runtime._cache_key env "file_access" "open" arguments) s
  = (Ret None, s1) ->
  urlopen env (length (sent (world s1))) req = Body (VDict resp) ->
  eq_str (dict_get resp "decision" (VStr "allow")) "approval_required" = false
  \/ truthy (dict_get resp "request_id" (VStr "")) = false ->
  fst run = (if Runtime.adapter_blocks resp
             then Raise (PermissionError (denied_message env resp))
             else Ret tt)
  /\ sent (world (snd run)) = req :: sent (world s1)
  /\ (Adapters.contains "w" mode || Adapters.contains "a" mode
      || Adapters.contains "x" mode || Adapters.contains "+" mode = true ->
      Adapters.access_of_mode mode <> "read").
Proof.
  intros path arguments req run Hpath Hpre Hcon Hboot Hl Hu Hdec.
  assert (E : exists s2,
             Runtime.evaluate env cfg "file_access" "open" arguments None s
             = (Ret (VDict resp), s2)
             /\ sent (world s2) = req :: sent (world s1)).
  { destruct (eq_str (dict_get resp "decision" (VStr "allow"))
                     "approval_required") eqn:Hap.
    - destruct Hdec as [Hdec|Hdec]; [discriminate|].
      eexists. split.
      + unfold Runtime.evaluate, bind. rewrite Hl.
        unfold try_except, do_urlopen. fold req. rewrite Hu.
        unfold Runtime.on_response. run_monad. rewrite Hap, Hdec.
        reflexivity.
      + reflexivity.
    - destruct (reads_as_allow (VDict resp)) eqn:Ha.
      + destruct (runtime_allow_step env cfg _ _ _ None s s1 resp Hl Hu Ha)
          as (cache' & E & _).
        eexists. split; [exact E|reflexivity].
      + eexists. split.
        * apply (runtime_other_step env cfg _ _ _ None s s1 resp Hl Hu Hap Ha).
        * reflexivity. }
  destruct E as (s2 & E & Hsent).
  assert (R : run = (if Runtime.adapter_blocks resp
                     then Raise (PermissionError (denied_message env resp))
                     else Ret tt, s2)).
  { subst run. rewrite (sg_open_with_path env cfg bootstrap_dir file_path
                           mode Hpath).
    cbv zeta. fold path. rewrite Hpre, Hcon, Hboot. fold arguments.
    unfold bind. rewrite E. apply raise_if_denied_dict. }
  rewrite R. cbn [fst snd]. split; [reflexivity|]. split; [exact Hsent|].
  unfold Adapters.access_of_mode. intros Hm.
  destruct (Adapters.contains "w" mode || Adapters.contains "a" mode
            || Adapters.contains "x" mode) eqn:W.
  - destruct (Adapters.contains "+" mode); discriminate.
  - simpl in Hm. rewrite Hm. discriminate.
Qed.

Lemma X23_open_blocks_only_deny_witness :
  fst (MockAdapters.sg_open [Body (VDict Mock.deny_response)]
                            "/etc/passwd" "r+" Mock.runtime_start)
  = Raise (PermissionError
             "SentinelGate: Action denied - rm is blocked. Contact admin")
  /\ Adapters.access_of_mode "r+" <> "read".
Proof.
  destruct (X23_open_blocks_only_deny
              (Mock.env [Body (VDict Mock.deny_response)])
              (Mock.runtime_cfg "open") "/opt/sentinelgate/bootstrap"
              (VStr "/etc/passwd") "r+" Mock.runtime_start Mock.runtime_start
              Mock.deny_response
              ltac:(discriminate) eq_refl eq_refl eq_refl eq_refl eq_refl
              (or_introl eq_refl)) as (R & _ & A).
  split; [exact R|apply A; reflexivity].
Defined.
